(** * NotePy: preferences, recent files and document tabs

    A shallow embedding of the model code of [main.py]: the settings
    functions [load_state], [save_state] and [elide_middle], the
    [DocumentTab] methods [title], [load_file] and [save_to], the
    recent-files methods of [MainWindow], and the slots behind its menus,
    its tab bar and its close button.  Of Qt the model keeps what these
    depend on: the tabs and the page shown, the text and the modified flag
    of an editor, the entries of the recent-files menu, and whether a font
    can be built.  The look of the widgets and the style sheet are left
    out. *)

From Stdlib Require Import ZArith NArith List String Ascii Bool Lia.
From Stdlib Require Import DecimalString.
From Stdlib Require DecimalPos DecimalFacts.
Import ListNotations.
Local Open Scope Z_scope.
Local Set Warnings "-register-all".

(** ** Python values *)

Module Py.

(** A Python [str] is a sequence of Unicode code points. *)
Definition pystr := list N.

(** An ASCII literal as a [str]. *)
Definition py (s : string) : pystr :=
  map N_of_ascii (list_ascii_of_string s).

Definition len {A} (s : list A) : Z := Z.of_nat (List.length s).

Definition str_eqb (a b : pystr) : bool :=
  if list_eq_dec N.eq_dec a b then true else false.

(** Slice bounds: a negative index counts from the end, and every index is
    clamped to [0, len]. *)
Definition slice_index (i n : Z) : nat :=
  Z.to_nat (if i <? 0 then Z.max 0 (i + n) else Z.min i n).

(** [s[:stop]] *)
Definition slice_to {A} (s : list A) (stop : Z) : list A :=
  firstn (slice_index stop (len s)) s.

(** [s[start:]] *)
Definition slice_from {A} (s : list A) (start : Z) : list A :=
  skipn (slice_index start (len s)) s.

(** The values [json.loads] builds.  A float is kept as its [repr]. *)
Inductive pyval :=
| PNone
| PBool (b : bool)
| PInt (n : Z)
| PFloat (repr : pystr)
| PStr (s : pystr)
| PList (l : list pyval)
| PDict (d : list (pystr * pyval)).

(** [isinstance(v, str)] and [isinstance(v, list)] *)
Definition is_str (v : pyval) : bool :=
  match v with PStr _ => true | _ => false end.

Definition is_list (v : pyval) : bool :=
  match v with PList _ => true | _ => false end.

(** [v == p] for a [str] [p]: only an equal [str] compares equal. *)
Definition eq_str (p : pystr) (v : pyval) : bool :=
  match v with PStr s => str_eqb s p | _ => false end.

(** The exceptions the modelled code can meet; every one is a subclass
    of [Exception]. *)
Inductive exn :=
| OSError (errno : Z)
| UnicodeError
| JSONDecodeError
| ValueError
| TypeError
| AttributeError
| RecursionError
| OverflowError.

(** The outcome of a call: a value, or a raised exception. *)
Inductive outcome (A : Type) :=
| Ok (a : A)
| Raise (e : exn).
Arguments Ok {A} a.
Arguments Raise {A} e.

Definition bind {A B} (c : outcome A) (k : A -> outcome B) : outcome B :=
  match c with
  | Ok a => k a
  | Raise e => Raise e
  end.

(** [try: c  except Exception: h] *)
Definition try_except {A} (c : outcome A) (h : exn -> outcome A) : outcome A :=
  match c with
  | Ok a => Ok a
  | Raise e => h e
  end.

End Py.
Import Py.

(** Code that mutates a store [S] and may raise: the store survives a
    raised exception, as a Python object does. *)
Definition M (S A : Type) : Type := S -> S * outcome A.

Definition ret {S A} (a : A) : M S A := fun s => (s, Ok a).

Definition bindM {S A B} (c : M S A) (k : A -> M S B) : M S B :=
  fun s =>
    match c s with
    | (s', Ok a) => k a s'
    | (s', Raise e) => (s', Raise e)
    end.

(** [try: c  except Exception: h] in stateful code. *)
Definition try_exceptM {S A} (c : M S A) (h : exn -> M S A) : M S A :=
  fun s =>
    match c s with
    | (s', Ok a) => (s', Ok a)
    | (s', Raise e) => h e s'
    end.

Definition lift {S A} (o : outcome A) : M S A := fun s => (s, o).

Declare Scope py_scope.
Delimit Scope py_scope with py.
Notation "x <- c ;; k" := (bind c (fun x => k))
  (at level 61, c at next level, right associativity) : py_scope.
Notation "' p <- c ;; k" := (bind c (fun x => match x with p => k end))
  (at level 61, p pattern, c at next level, right associativity) : py_scope.
Notation "x <~ c ;; k" := (bindM c (fun x => k))
  (at level 61, c at next level, right associativity) : py_scope.
Notation "c ;;; k" := (bindM c (fun _ => k))
  (at level 61, right associativity) : py_scope.
Local Open Scope py_scope.

(** ** The host

    What the program takes from its platform: the file system behind
    [pathlib.Path], the [json] module, the attribute names that [hasattr]
    finds on the class [AppState] itself, and from Qt the constructor of
    a font and the text that an editor gives back. *)

Class Host := {
  (** the state of the file system *)
  World : Type;
  (** [str(Path.home())] *)
  home : pystr;
  (** [Path(p).exists()]: [False] for a path that is not there; any other
      [OSError] of the look-up is raised *)
  path_exists : World -> pystr -> outcome bool;
  (** [Path(p).read_text(encoding="utf-8")] *)
  read_text : World -> pystr -> outcome pystr;
  (** [Path(p).read_text(encoding="utf-8", errors="replace")] *)
  read_text_replace : World -> pystr -> outcome pystr;
  (** [Path(p).write_text(text, encoding="utf-8")] *)
  write_text : pystr -> pystr -> M World unit;
  (** [str(Path(p).resolve())] *)
  resolve : World -> pystr -> pystr;
  (** [json.loads(text)]; the empty text is no JSON document *)
  json_loads : pystr -> outcome pyval;
  json_loads_empty : json_loads [] = Raise JSONDecodeError;
  (** [json.dumps(v, indent=2)] *)
  json_dumps : pyval -> outcome pystr;
  (** names defined on the class or on [object]: [defaults], [__init__],
      [__eq__], [__class__], [__dict__], ...; the four dataclass fields
      have no default, so they are not among them *)
  class_attr : pystr -> bool;
  class_attr_field :
    forall k, In k [py "recent_files"; py "word_wrap"; py "font_family";
                    py "font_size"] -> class_attr k = false;
  (** [QtGui.QFont(family, size)]: a [str] and an [int] that fits a C
      [int] are taken; what else is taken is the binding's to say *)
  QFont : pyval -> pyval -> outcome unit;
  QFont_typed :
    forall family size,
      -2147483648 <= size <= 2147483647 ->
      QFont (PStr family) (PInt size) = Ok tt;
  (** what [editor.toPlainText()] returns after [editor.setPlainText(s)]:
      Qt keeps the text in blocks and gives it back with its own line
      breaks and spaces *)
  plain_text : pystr -> pystr
}.

Section Program.
Context {H : Host}.

(** [SETTINGS_FILE = Path.home() / ".notepy_settings.json"] *)
Definition SETTINGS_FILE : pystr := home ++ py "/.notepy_settings.json".

(** *** Objects

    An [AppState] instance is its [__dict__]: attribute names and values
    in insertion order. *)
Definition obj := list (pystr * pyval).

Fixpoint lookup {V} (k : pystr) (o : list (pystr * V)) : option V :=
  match o with
  | [] => None
  | (k', v) :: o' => if str_eqb k' k then Some v else lookup k o'
  end.

(** [d[k] = v]: an existing key keeps its place. *)
Fixpoint store {V} (k : pystr) (v : V) (o : list (pystr * V))
  : list (pystr * V) :=
  match o with
  | [] => [(k, v)]
  | (k', v') :: o' =>
      if str_eqb k' k then (k, v) :: o' else (k', v') :: store k v o'
  end.

(** [hasattr(s, k)] *)
Definition hasattr (s : obj) (k : pystr) : bool :=
  match lookup k s with
  | Some _ => true
  | None => class_attr k
  end.

(** [s.k] for a field name [k]: the class has no attribute of that name,
    so a missing entry raises. *)
Definition getattr (s : obj) (k : pystr) : outcome pyval :=
  match lookup k s with
  | Some v => Ok v
  | None => Raise AttributeError
  end.

(** [setattr(s, k, v)].  Three names are data descriptors of every
    instance: [__class__] takes only a class, [__weakref__] is read-only,
    and [__dict__] takes a dict, which then is the instance's dict. *)
Definition setattr (s : obj) (k : pystr) (v : pyval) : outcome obj :=
  if str_eqb k (py "__class__") then Raise TypeError
  else if str_eqb k (py "__weakref__") then Raise AttributeError
  else if str_eqb k (py "__dict__") then
    match v with
    | PDict d => Ok d
    | _ => Raise TypeError
    end
  else Ok (store k v s).

(** [AppState.defaults()] *)
Definition defaults : obj :=
  [ (py "recent_files", PList []);
    (py "word_wrap", PBool true);
    (py "font_family", PStr (py "Segoe UI"));
    (py "font_size", PInt 12) ].

(** [data.items()]: only a dict has the method. *)
Definition items (data : pyval) : outcome (list (pystr * pyval)) :=
  match data with
  | PDict d => Ok d
  | _ => Raise AttributeError
  end.

(** The elements a comprehension draws from a list. *)
Definition elements (v : pyval) : outcome (list pyval) :=
  match v with
  | PList l => Ok l
  | _ => Raise TypeError
  end.

(** [for k, v in data.items(): if hasattr(s, k): setattr(s, k, v)] *)
Fixpoint merge_items (kvs : list (pystr * pyval)) (s : obj) : outcome obj :=
  match kvs with
  | [] => Ok s
  | (k, v) :: rest =>
      s' <- (if hasattr s k then setattr s k v else Ok s) ;;
      merge_items rest s'
  end.

(** The body of the [try] in [load_state]: [Some s] is [return s], [None]
    is falling out of the [if]. *)
Definition load_state_try (w : World) : outcome (option obj) :=
  present <- path_exists w SETTINGS_FILE ;;
  if present then
    text <- read_text w SETTINGS_FILE ;;
    data <- json_loads text ;;
    kvs <- items data ;;
    s <- merge_items kvs defaults ;;
    rf <- getattr s (py "recent_files") ;;
    s <- (if negb (is_list rf) then setattr s (py "recent_files") (PList [])
          else Ok s) ;;
    rf <- getattr s (py "recent_files") ;;
    l <- elements rf ;;
    s <- setattr s (py "recent_files") (PList (filter is_str l)) ;;
    Ok (Some s)
  else Ok None.

(** [load_state()] *)
Definition load_state (w : World) : outcome obj :=
  r <- try_except (load_state_try w) (fun _ => Ok None) ;;
  match r with
  | Some s => Ok s
  | None => Ok defaults
  end.

(** [save_state(state)] *)
Definition save_state (state : obj) : M World unit :=
  try_exceptM
    (text <~ lift (json_dumps (PDict state)) ;;
     write_text SETTINGS_FILE text)
    (fun _ => ret tt).

(** [elide_middle(path, max_len)] *)
Definition elide_middle (path : pystr) (max_len : Z) : pystr :=
  if len path <=? max_len then path
  else
    let head := max_len / 2 - 2 in
    let tail := max_len - head - 3 in
    slice_to path head ++ py "..." ++ slice_from path (- tail).

End Program.

(** ** Typed states *)

Module AppState.

(** The fields with the types the dataclass declares. *)
Record t := {
  recent_files : list pystr;
  word_wrap : bool;
  font_family : pystr;
  font_size : Z
}.

(** [AppState(recent_files=..., word_wrap=..., font_family=...,
    font_size=...)] *)
Definition instance (r : t) : obj :=
  [ (py "recent_files", PList (map PStr (recent_files r)));
    (py "word_wrap", PBool (word_wrap r));
    (py "font_family", PStr (font_family r));
    (py "font_size", PInt (font_size r)) ].

(** The invariant of the data model: at most 10 recent files, none twice,
    and a positive font size. *)
Definition valid (r : t) : Prop :=
  (List.length (recent_files r) <= 10)%nat /\
  NoDup (recent_files r) /\
  0 < font_size r.

End AppState.

(** ** Running a method on part of the store *)

Section Zoom.
Context {W X : Type}.

(** Run file-system code from a method of an object [X]. *)
Definition on_world {A} (c : M W A) : M (W * X) A :=
  fun '(w, x) => let '(w', r) := c w in ((w', x), r).

(** Read the file system. *)
Definition ask_world {A} (f : W -> outcome A) : M (W * X) A :=
  fun '(w, x) => ((w, x), f w).

(** Read, or assign to, the object. *)
Definition self : M (W * X) X := fun '(w, x) => ((w, x), Ok x).
Definition on_self (f : X -> X) : M (W * X) unit :=
  fun '(w, x) => ((w, f x), Ok tt).

End Zoom.

(** ** Document tabs *)

Module DocumentTab.

(** [self.path], and of [self.editor] the text that [toPlainText()]
    returns and the modified flag of the document. *)
Record t := {
  path : option pystr;
  text : pystr;
  modified : bool
}.

Definition set_path (p : option pystr) (tab : t) : t :=
  {| path := p; text := text tab; modified := modified tab |}.

(** The document gets the plain text [s]. *)
Definition set_text (s : pystr) (tab : t) : t :=
  {| path := path tab; text := s; modified := modified tab |}.

(** [editor.document().setModified(b)] *)
Definition setModified (b : bool) (tab : t) : t :=
  {| path := path tab; text := text tab; modified := b |}.

(** [editor.toPlainText()] *)
Definition toPlainText (tab : t) : pystr := text tab.

(** A tab as [DocumentTab(state)] makes it: no path, an empty unmodified
    document. *)
Definition new : t := {| path := None; text := []; modified := false |}.

(** The user edits the text: the document then has the plain text [s]
    and is marked modified. *)
Definition edit (s : pystr) (tab : t) : t :=
  setModified true (set_text s tab).

(** [is_dirty()] *)
Definition is_dirty (tab : t) : bool := modified tab.

(** [s.rfind(c)]: the last index of [c], or -1. *)
Fixpoint rfind_from (c : N) (s : pystr) (i last : Z) : Z :=
  match s with
  | [] => last
  | x :: s' => rfind_from c s' (i + 1) (if N.eqb x c then i else last)
  end.

Definition rfind (c : N) (s : pystr) : Z := rfind_from c s 0 (-1).

(** [os.path.basename(p)] of [posixpath]: [p[p.rfind('/') + 1:]] *)
Definition basename (p : pystr) : pystr :=
  slice_from p (rfind 47%N p + 1).

(** The suffix [" •"]: a space and U+2022. *)
Definition dirty_marker : pystr := [32%N; 8226%N].

(** [title()]; [if self.path] holds for a path that is neither [None] nor
    empty. *)
Definition title (tab : t) : pystr :=
  let name :=
    match path tab with
    | Some (c :: p) => basename (c :: p)
    | _ => py "Untitled"
    end in
  name ++ (if is_dirty tab then dirty_marker else []).

Section Methods.
Context {H : Host}.

(** [editor.setPlainText(s)] *)
Definition setPlainText (s : pystr) (tab : t) : t :=
  set_text (plain_text s) tab.

(** [apply_font()]: the font is built from the two fields of the state,
    whatever they hold. *)
Definition apply_font (state : obj) : outcome unit :=
  family <- getattr state (py "font_family") ;;
  size <- getattr state (py "font_size") ;;
  QFont family size.

(** [DocumentTab(state)]: the wrap mode goes by the truth value of
    [state.word_wrap], which every value has. *)
Definition __init__ (state : obj) : outcome t :=
  _ <- apply_font state ;;
  _ <- getattr state (py "word_wrap") ;;
  Ok new.

(** [load_file(path)] *)
Definition load_file (p : pystr) : M (World * t) unit :=
  s <~ ask_world (fun w => read_text_replace w p) ;;
  on_self (setPlainText s) ;;;
  on_self (set_path (Some p)) ;;;
  on_self (setModified false).

(** [save_to(path)] *)
Definition save_to (p : pystr) : M (World * t) unit :=
  tab <~ self ;;
  on_world (write_text p (toPlainText tab)) ;;;
  on_self (set_path (Some p)) ;;;
  on_self (setModified false).

End Methods.
End DocumentTab.

(** ** The main window *)

Module MainWindow.

(** [self.state] and the widgets of [self.tabs]. *)
Record t := {
  state : obj;
  tabs : list DocumentTab.t
}.

Definition set_state (s : obj) (mw : t) : t :=
  {| state := s; tabs := tabs mw |}.

Definition set_tabs (ts : list DocumentTab.t) (mw : t) : t :=
  {| state := state mw; tabs := ts |}.

(** [l.remove(p)]: drops the first element equal to [p]. *)
Fixpoint list_remove (p : pystr) (l : list pyval) : outcome (list pyval) :=
  match l with
  | [] => Raise ValueError
  | x :: l' =>
      if eq_str p x then Ok l'
      else (r <- list_remove p l' ;; Ok (x :: r))
  end.

(** The state lists the strings [l] as its recent files. *)
Definition has_recent (mw : t) (l : list pystr) : Prop :=
  lookup (py "recent_files") (state mw) = Some (PList (map PStr l)).

(** The state after [self.state.recent_files = l]. *)
Definition with_recent (l : list pystr) (mw : t) : t :=
  set_state (store (py "recent_files") (PList (map PStr l)) (state mw)) mw.

(** [l.remove(p)] on a list of strings; [l] itself when [p] is not in it. *)
Fixpoint without_first (p : pystr) (l : list pystr) : list pystr :=
  match l with
  | [] => []
  | q :: l' => if str_eqb q p then l' else q :: without_first p l'
  end.

(** The recent files after [_add_recent] of a path that resolves to [p]. *)
Definition added (p : pystr) (l : list pystr) : list pystr :=
  firstn 10 (p :: without_first p l).

(** The list as the specification words it: every occurrence of [p]
    removed, [p] inserted in front, the first 10 entries kept. *)
Definition recordRecentFile (p : pystr) (l : list pystr) : list pystr :=
  firstn 10 (p :: filter (fun q => negb (str_eqb q p)) l).

(** [a] is [b] with some entries left out, the others in their order. *)
Inductive subsequence {A} : list A -> list A -> Prop :=
| subsequence_nil : subsequence [] []
| subsequence_keep x a b : subsequence a b -> subsequence (x :: a) (x :: b)
| subsequence_skip x a b : subsequence a b -> subsequence a (x :: b).

Section Methods.
Context {H : Host}.

(** [self.state.recent_files], which [load_state] leaves a list. *)
Definition recent_files : M (World * t) (list pyval) :=
  mw <~ self ;;
  lift (rf <- getattr (state mw) (py "recent_files") ;; elements rf).

(** [self.state.recent_files = l], also the effect of a method that
    changes the list in place. *)
Definition set_recent_files (l : list pyval) : M (World * t) unit :=
  mw <~ self ;;
  s <~ lift (setattr (state mw) (py "recent_files") (PList l)) ;;
  on_self (set_state s).

(** [save_state(self.state)] *)
Definition save : M (World * t) unit :=
  mw <~ self ;;
  on_world (save_state (state mw)).

(** [_add_recent(path)] *)
Definition _add_recent (path : pystr) : M (World * t) unit :=
  p <~ ask_world (fun w => Ok (resolve w path)) ;;
  rf <~ recent_files ;;
  (if existsb (eq_str p) rf
   then (r <~ lift (list_remove p rf) ;; set_recent_files r)
   else ret tt) ;;;
  rf <~ recent_files ;;
  set_recent_files (PStr p :: rf) ;;;
  rf <~ recent_files ;;
  set_recent_files (slice_to rf 10) ;;;
  save.

(** [_add_recent] of one path after the other. *)
Fixpoint add_each (paths : list pystr) : M (World * t) unit :=
  match paths with
  | [] => ret tt
  | path :: rest => _add_recent path ;;; add_each rest
  end.

(** [_clear_recent()] *)
Definition _clear_recent : M (World * t) unit :=
  set_recent_files [] ;;;
  save.

(** [DocumentTab(self.state)] returns: the font fields of the state are
    such as [QFont] takes. *)
Definition makes_tabs (mw : t) : Prop :=
  DocumentTab.__init__ (state mw) = Ok DocumentTab.new.

(** [new_tab()]: the new tab is added last and made current. *)
Definition new_tab : M (World * t) unit :=
  mw <~ self ;;
  tab <~ lift (DocumentTab.__init__ (state mw)) ;;
  on_self (fun mw => set_tabs (tabs mw ++ [tab]) mw).

(** Run a method of the last tab, the current one after [new_tab]. *)
Definition on_last_tab {A} (c : M (World * DocumentTab.t) A)
  : M (World * t) (option A) :=
  fun '(w, mw) =>
    match rev (tabs mw) with
    | [] => ((w, mw), Ok None)
    | tab :: before =>
        match c (w, tab) with
        | ((w', tab'), Ok a) =>
            ((w', set_tabs (rev (tab' :: before)) mw), Ok (Some a))
        | ((w', tab'), Raise e) =>
            ((w', set_tabs (rev (tab' :: before)) mw), Raise e)
        end
    end.

(** [_open_recent(path)] *)
Definition _open_recent (path : pystr) : M (World * t) unit :=
  present <~ ask_world (fun w => path_exists w path) ;;
  if negb present then
    rf <~ recent_files ;;
    set_recent_files (filter (fun p => negb (eq_str path p)) rf) ;;;
    save
  else
    new_tab ;;;
    on_last_tab (DocumentTab.load_file path) ;;;
    ret tt.

End Methods.
End MainWindow.

(** ** The recent-files menu and the status bar *)

Module Chrome.

(** What an action of the menu is connected to. *)
Inductive slot :=
| open_recent (path : pystr)
| clear_recent
| nothing.

(** An entry of [self.menu_recent]: an action with its text, whether it is
    enabled and its slot, or a separator. *)
Inductive item :=
| Action (text : pystr) (enabled : bool) (triggered : slot)
| Separator.

(** The truth value of a value: [None], [False], zero and the empty
    string, list and dict are false. *)
Definition truthy (v : pyval) : bool :=
  match v with
  | PNone => false
  | PBool b => b
  | PInt n => negb (n =? 0)
  | PFloat r => negb (str_eqb r (py "0.0") || str_eqb r (py "-0.0"))
  | PStr s => match s with [] => false | _ => true end
  | PList l => match l with [] => false | _ => true end
  | PDict d => match d with [] => false | _ => true end
  end.

(** What [for p in v] draws from [v]: the elements of a list, the
    characters of a string, the keys of a dict. *)
Definition iterate (v : pyval) : outcome (list pyval) :=
  match v with
  | PList l => Ok l
  | PStr s => Ok (map (fun c => PStr [c]) s)
  | PDict d => Ok (map (fun kv => PStr (fst kv)) d)
  | _ => Raise TypeError
  end.

(** [menu.addAction(...)], [menu.addSeparator()] *)
Definition add (i : item) : M (list item) unit :=
  fun menu => (menu ++ [i], Ok tt).

(** The loop of [_rebuild_recent_menu]: an action per path, labelled with
    the elided path and connected to [_open_recent] of the path itself.
    [elide_middle] takes a [str]; any other value fails in it or in
    [addAction] with a [TypeError]. *)
Fixpoint add_paths (l : list pyval) : M (list item) unit :=
  match l with
  | [] => ret tt
  | PStr p :: rest =>
      add (Action (elide_middle p 64) true (open_recent p)) ;;;
      add_paths rest
  | _ :: _ => lift (Raise TypeError)
  end.

(** [_rebuild_recent_menu()], on [self.menu_recent] where the window has
    one. *)
Definition _rebuild_recent_menu (state : obj)
  : M (option (list item)) unit :=
  fun menu =>
    match menu with
    | None => (None, Ok tt)
    | Some _ =>
        let body : M (list item) unit :=
          rf <~ lift (getattr state (py "recent_files")) ;;
          if negb (truthy rf) then
            add (Action (py "(No recent files)") false nothing)
          else
            l <~ lift (iterate rf) ;;
            add_paths l ;;;
            add Separator ;;;
            add (Action (py "Clear recent") true clear_recent) in
        let '(menu', r) := body [] in (Some menu', r)
    end.

(** [str(n)] for an [int]. *)
Definition str_int (n : Z) : pystr :=
  py (NilZero.string_of_int (Z.to_int n)).

(** The three labels of the status bar. *)
Record labels := {
  lbl_file : pystr;
  lbl_pos : pystr;
  lbl_dirty : pystr
}.

(** [update_status_bar()], by the page shown and the current tab with the
    block number and the position in the block of its cursor. *)
Definition update_status_bar (stack : Z)
    (current : option (DocumentTab.t * (Z * Z))) : labels :=
  if stack =? 0 then
    {| lbl_file := []; lbl_pos := []; lbl_dirty := [] |}
  else
    match current with
    | None =>
        {| lbl_file := py "Untitled";
           lbl_pos := py "Ln 1, Col 1";
           lbl_dirty := py "Saved" |}
    | Some (tab, (block, pos)) =>
        let path :=
          match DocumentTab.path tab with
          | Some (c :: p) => c :: p
          | _ => py "Untitled"
          end in
        let ln := block + 1 in
        let col := pos + 1 in
        {| lbl_file := elide_middle path 70;
           lbl_pos := py "Ln " ++ str_int ln ++ py ", Col " ++ str_int col;
           lbl_dirty :=
             if DocumentTab.is_dirty tab then py "Modified" else py "Saved" |}
    end.

End Chrome.

(** ** The window's actions

    The methods behind the menus, the tab bar and the close button.  What
    a dialog returns is an argument: the path chosen in a file dialog,
    empty when it is cancelled, and the button pressed in a question.
    Which tab is current is Qt's to say, so the methods that ask for the
    current tab take its index. *)

Module Shell.

(** The buttons of "Save changes to ...?" *)
Inductive button := Yes | No | Cancel.

(** The main window and the page that [self.stack] shows: 0 is the start
    page, 1 the tabs. *)
Record t := {
  main : MainWindow.t;
  stack : Z
}.

Definition set_main (mw : MainWindow.t) (sh : t) : t :=
  {| main := mw; stack := stack sh |}.

Definition set_stack (i : Z) (sh : t) : t :=
  {| main := main sh; stack := i |}.

Fixpoint replace_nth {A} (i : nat) (x : A) (l : list A) : list A :=
  match l, i with
  | [], _ => []
  | _ :: l', O => x :: l'
  | y :: l', S i' => y :: replace_nth i' x l'
  end.

Fixpoint remove_nth {A} (i : nat) (l : list A) : list A :=
  match l, i with
  | [], _ => []
  | _ :: l', O => l'
  | y :: l', S i' => y :: remove_nth i' l'
  end.

(** The tab at [from] dragged to [to] in the tab bar. *)
Definition move_nth {A} (from to : nat) (l : list A) : list A :=
  match nth_error l from with
  | Some x =>
      if (to <? List.length l)%nat then
        firstn to (remove_nth from l) ++ x :: skipn to (remove_nth from l)
      else l
  | None => l
  end.

(** [if path:] for a [str]. *)
Definition nonempty (p : pystr) : bool :=
  match p with [] => false | _ => true end.

(** [t.path == path] *)
Definition has_path (path : pystr) (tab : DocumentTab.t) : bool :=
  match DocumentTab.path tab with
  | Some p => str_eqb p path
  | None => false
  end.

(** A method that leaves [f] of the window as it is, whatever else it
    does: the tabs, or their number. *)
Definition keeps {W X A} (f : MainWindow.t -> X)
    (c : M (W * MainWindow.t) A) : Prop :=
  forall w mw, f (snd (fst (c (w, mw)))) = f mw.

Definition count (mw : MainWindow.t) : nat :=
  List.length (MainWindow.tabs mw).

(** The tab that [save_to(p)] leaves. *)
Definition saved (p : pystr) (tab : DocumentTab.t) : DocumentTab.t :=
  {| DocumentTab.path := Some p;
     DocumentTab.text := DocumentTab.text tab;
     DocumentTab.modified := false |}.

(** The path [_save_tab] writes a tab to: its own, or the one chosen in
    the Save As dialog. *)
Definition target (tab : DocumentTab.t) (save_as : pystr) : pystr :=
  match DocumentTab.path tab with
  | Some (c :: p) => c :: p
  | _ => save_as
  end.

(** The recent files are a list of strings. *)
Definition lists_strings (mw : MainWindow.t) : Prop :=
  exists l, MainWindow.has_recent mw l.

(** The fields of the state other than the recent files are in [mw'] what
    they are in [mw]. *)
Definition keeps_fields (mw mw' : MainWindow.t) : Prop :=
  forall k,
    k <> py "recent_files" ->
    lookup k (MainWindow.state mw') = lookup k (MainWindow.state mw).

(** A method that keeps the recent files a list of strings and the other
    fields of the state as they are, and removes no tab, whether it
    returns or raises. *)
Definition grows {W A} (c : M (W * MainWindow.t) A) : Prop :=
  forall w mw,
    lists_strings mw ->
    lists_strings (snd (fst (c (w, mw)))) /\
    (count mw <= count (snd (fst (c (w, mw)))))%nat /\
    keeps_fields mw (snd (fst (c (w, mw)))).

(** The tabs page is not shown without a tab. *)
Definition page_has_tab (sh : t) : Prop :=
  (stack sh = 0 \/ stack sh = 1) /\
  (stack sh = 1 -> MainWindow.tabs (main sh) <> []).

Section Methods.
Context {H : Host}.

(** What holds between two events of a window whose state makes tabs. *)
Definition steady (sh : t) : Prop :=
  lists_strings (main sh) /\ MainWindow.makes_tabs (main sh) /\
  page_has_tab sh.

(** A slot that keeps the recent files a list of strings, and leaves a
    steady window steady, whether it returns or raises. *)
Definition sound {A} (c : M (World * t) A) : Prop :=
  forall w sh,
    (lists_strings (main sh) ->
     lists_strings (main (snd (fst (c (w, sh)))))) /\
    (steady sh -> steady (snd (fst (c (w, sh))))).

(** Run a method of the main window. *)
Definition on_main {A} (c : M (World * MainWindow.t) A) : M (World * t) A :=
  fun '(w, sh) =>
    let '((w', mw'), r) := c (w, main sh) in ((w', set_main mw' sh), r).

(** Run a method of the tab at [i]; without such a tab the call is one
    on [None]. *)
Definition on_tab {A} (i : nat) (c : M (World * DocumentTab.t) A)
  : M (World * MainWindow.t) A :=
  fun '(w, mw) =>
    match nth_error (MainWindow.tabs mw) i with
    | None => ((w, mw), Raise AttributeError)
    | Some tab =>
        let '((w', tab'), r) := c (w, tab) in
        ((w', MainWindow.set_tabs
                (replace_nth i tab' (MainWindow.tabs mw)) mw), r)
    end.

(** [save_to(path)] then [_add_recent(path)] in a [try] whose handler
    shows the error: [True] when both went through. *)
Definition try_save (i : nat) (path : pystr)
  : M (World * MainWindow.t) bool :=
  try_exceptM
    (on_tab i (DocumentTab.save_to path) ;;;
     MainWindow._add_recent path ;;;
     ret true)
    (fun _ => ret false).

(** [_save_tab(tab)] for the tab at [i]; [save_as] is what the Save As
    dialog returns. *)
Definition _save_tab (i : nat) (save_as : pystr)
  : M (World * MainWindow.t) bool :=
  mw <~ self ;;
  match nth_error (MainWindow.tabs mw) i with
  | None => lift (Raise AttributeError)
  | Some tab =>
      match DocumentTab.path tab with
      | Some (c :: p) => try_save i (c :: p)
      | _ => if nonempty save_as then try_save i save_as else ret false
      end
  end.

(** [show_start()], [show_editor()] *)
Definition show_start : M (World * t) unit := on_self (set_stack 0).
Definition show_editor : M (World * t) unit := on_self (set_stack 1).

(** [on_start_new_file()] *)
Definition on_start_new_file : M (World * t) unit :=
  show_editor ;;;
  on_main MainWindow.new_tab.

(** [on_start_open_folder()]; [folder] is what the folder dialog
    returns. *)
Definition on_start_open_folder (folder : pystr) : M (World * t) unit :=
  if nonempty folder then
    show_editor ;;;
    on_main MainWindow.new_tab
  else ret tt.

(** [close_tab(index)]; [resp] is the button pressed when the tab is
    dirty. *)
Definition close_tab (index : Z) (resp : button) (save_as : pystr)
  : M (World * t) unit :=
  if index <? 0 then ret tt
  else
    sh <~ self ;;
    let i := Z.to_nat index in
    match nth_error (MainWindow.tabs (main sh)) i with
    | None => ret tt
    | Some tab =>
        go_on <~ (if DocumentTab.is_dirty tab then
                    match resp with
                    | Cancel => ret false
                    | Yes => on_main (_save_tab i save_as)
                    | No => ret true
                    end
                  else ret true) ;;
        if go_on then
          on_main (on_self (fun mw =>
            MainWindow.set_tabs (remove_nth i (MainWindow.tabs mw)) mw)) ;;;
          sh <~ self ;;
          match MainWindow.tabs (main sh) with
          | [] => show_start
          | _ => ret tt
          end
        else ret tt
    end.

(** [open_file()]; [path] is what the Open dialog returns. *)
Definition open_file (path : pystr) : M (World * t) unit :=
  if nonempty path then
    show_editor ;;;
    sh <~ self ;;
    if existsb (has_path path) (MainWindow.tabs (main sh)) then ret tt
    else
      on_main MainWindow.new_tab ;;;
      on_main
        (try_exceptM
           (MainWindow.on_last_tab (DocumentTab.load_file path) ;;;
            MainWindow._add_recent path)
           (fun _ => ret tt))
  else ret tt.

(** [save_current_as()] with the tab at [current] as the current one. *)
Definition save_current_as (current : option nat) (save_as : pystr)
  : M (World * MainWindow.t) unit :=
  mw <~ self ;;
  match current with
  | None => ret tt
  | Some i =>
      match nth_error (MainWindow.tabs mw) i with
      | None => ret tt
      | Some _ =>
          if nonempty save_as then try_save i save_as ;;; ret tt
          else ret tt
      end
  end.

(** [save_current()] *)
Definition save_current (current : option nat) (save_as : pystr)
  : M (World * MainWindow.t) unit :=
  mw <~ self ;;
  match current with
  | None => ret tt
  | Some i =>
      match nth_error (MainWindow.tabs mw) i with
      | None => ret tt
      | Some tab =>
          match DocumentTab.path tab with
          | Some (c :: p) => try_save i (c :: p) ;;; ret tt
          | _ => save_current_as current save_as
          end
      end
  end.

(** What a slot [c] that saves the tab [tab] at index [i] to the path [p]
    does in the world [w] to a window [mw] whose recent files are [l]: an
    empty [p] is a cancelled dialog. *)
Definition saves_to (c : M (World * MainWindow.t) unit) (i : nat)
    (p : pystr) (tab : DocumentTab.t) (l : list pystr) (w : World)
    (mw : MainWindow.t) : Prop :=
  (p = [] -> c (w, mw) = ((w, mw), Ok tt)) /\
  (p <> [] ->
   forall w1 e,
     write_text p (DocumentTab.text tab) w = (w1, Raise e) ->
     c (w, mw) = ((w1, mw), Ok tt)) /\
  (p <> [] ->
   forall w1,
     write_text p (DocumentTab.text tab) w = (w1, Ok tt) ->
     exists w2 mw2,
       c (w, mw) = ((w2, mw2), Ok tt) /\
       MainWindow.tabs mw2
         = replace_nth i (saved p tab) (MainWindow.tabs mw) /\
       MainWindow.has_recent mw2 (MainWindow.added (resolve w1 p) l)).

(** [_open_recent(path)], with the page it shows. *)
Definition _open_recent (path : pystr) : M (World * t) unit :=
  present <~ ask_world (fun w => path_exists w path) ;;
  if negb present then
    on_main
      (rf <~ MainWindow.recent_files ;;
       MainWindow.set_recent_files
         (filter (fun p => negb (eq_str path p)) rf) ;;;
       MainWindow.save)
  else
    show_editor ;;;
    on_main MainWindow.new_tab ;;;
    on_main (MainWindow.on_last_tab (DocumentTab.load_file path)) ;;;
    ret tt.

(** The loop of [closeEvent] over the tabs from [i] on: [False] once a
    question is cancelled or a save fails.  [ask] and [save_as] give the
    button and the Save As path for each tab. *)
Fixpoint ask_dirty_tabs (n i : nat) (ask : nat -> button)
    (save_as : nat -> pystr) : M (World * MainWindow.t) bool :=
  match n with
  | O => ret true
  | S n' =>
      mw <~ self ;;
      go_on <~ match nth_error (MainWindow.tabs mw) i with
               | None => ret true
               | Some tab =>
                   if DocumentTab.is_dirty tab then
                     match ask i with
                     | Cancel => ret false
                     | Yes => _save_tab i (save_as i)
                     | No => ret true
                     end
                   else ret true
               end ;;
      if go_on then ask_dirty_tabs n' (S i) ask save_as else ret false
  end.

(** [closeEvent(event)]: [True] when the event is accepted. *)
Definition closeEvent (ask : nat -> button) (save_as : nat -> pystr)
  : M (World * MainWindow.t) bool :=
  mw <~ self ;;
  go_on <~ ask_dirty_tabs (List.length (MainWindow.tabs mw)) 0 ask save_as ;;
  if go_on then MainWindow.save ;;; ret true else ret false.

(** [MainWindow()]: the state is loaded, there is no tab, and the start
    page shows. *)
Definition init (w : World) : outcome t :=
  s <- load_state w ;;
  Ok {| main := {| MainWindow.state := s; MainWindow.tabs := [] |};
        stack := 0 |}.

End Methods.

(** What the user does. *)
Inductive event :=
| New_file
| Open_folder (folder : pystr)
| Open_file (path : pystr)
| Save (current : option nat) (save_as : pystr)
| Save_as (current : option nat) (save_as : pystr)
| Close_tab (index : Z) (resp : button) (save_as : pystr)
| Home
| Open_recent (path : pystr)
| Clear_recent
| Edit (i : nat) (text : pystr) (modified : bool)
| Move_tab (from to : nat)
| Close (ask : nat -> button) (save_as : nat -> pystr).

Section Events.
Context {H : Host}.

(** The slot that each signal is connected to.  [Edit] is the user at
    work in the editor of a tab: the text and the modified flag are then
    what Qt makes them. *)
Definition handle (e : event) : M (World * t) unit :=
  match e with
  | New_file => on_start_new_file
  | Open_folder folder => on_start_open_folder folder
  | Open_file path => open_file path
  | Save current save_as => on_main (save_current current save_as)
  | Save_as current save_as => on_main (save_current_as current save_as)
  | Close_tab index resp save_as => close_tab index resp save_as
  | Home => show_start
  | Open_recent path => _open_recent path
  | Clear_recent => on_main MainWindow._clear_recent
  | Edit i text modified =>
      on_main (on_self (fun mw =>
        match nth_error (MainWindow.tabs mw) i with
        | None => mw
        | Some tab =>
            MainWindow.set_tabs
              (replace_nth i
                 (DocumentTab.setModified modified
                    (DocumentTab.set_text text tab))
                 (MainWindow.tabs mw)) mw
        end))
  | Move_tab from to =>
      on_main (on_self (fun mw =>
        MainWindow.set_tabs (move_nth from to (MainWindow.tabs mw)) mw))
  | Close ask save_as => on_main (closeEvent ask save_as) ;;; ret tt
  end.

(** The events one after the other; an exception that leaves a slot ends
    that slot only. *)
Fixpoint run (es : list event) (s : World * t) : World * t :=
  match es with
  | [] => s
  | e :: es' => run es' (fst (handle e s))
  end.

End Events.
End Shell.

(** ** What a settings object gives a field *)

(** The value the object [d] binds to [k], or [v] when it binds none. *)
Definition field_or (k : pystr) (d : list (pystr * pyval)) (v : pyval)
  : pyval :=
  match lookup k d with
  | Some x => x
  | None => v
  end.

(** A list reduced to its strings; any other value gives the empty list. *)
Definition strings_of (v : pyval) : pyval :=
  match v with
  | PList l => PList (filter is_str l)
  | _ => PList []
  end.

(** ** A reference host

    An in-memory file system and a JSON codec to run the program on: used
    for the examples, and to show that what the theorems ask of a host can
    be met. *)

Module Reference.

(** *** JSON text, written as [json.dumps(v, indent=2)] writes it *)

Definition decimal (n : Z) : pystr := py (NilZero.string_of_int (Z.to_int n)).

Definition hex_digit (d : N) : N :=
  (if d <? 10 then 48 + d else 87 + d)%N.

(** [\uXXXX] *)
Definition u_escape (c : N) : pystr :=
  [92; 117; hex_digit (N.shiftr c 12 mod 16); hex_digit (N.shiftr c 8 mod 16);
   hex_digit (N.shiftr c 4 mod 16); hex_digit (c mod 16)]%N.

Definition escape_char (c : N) : pystr :=
  (if c =? 34 then [92; 34]
   else if c =? 92 then [92; 92]
   else if c =? 10 then [92; 110]
   else if c =? 13 then [92; 114]
   else if c =? 9 then [92; 116]
   else if c =? 8 then [92; 98]
   else if c =? 12 then [92; 102]
   else if (32 <=? c) && (c <=? 126) then [c]
   else if c <? 65536 then u_escape c
   else
     let v := c - 65536 in
     u_escape (55296 + N.shiftr v 10 mod 1024)
       ++ u_escape (56320 + v mod 1024))%N.

Definition quote (s : pystr) : pystr :=
  34%N :: flat_map escape_char s ++ [34%N].

Definition newline (level : nat) : pystr :=
  10%N :: repeat 32%N (2 * level).

Fixpoint join (sep : pystr) (parts : list pystr) : pystr :=
  match parts with
  | [] => []
  | [x] => x
  | x :: rest => x ++ sep ++ join sep rest
  end.

Fixpoint dumps_at (level : nat) (v : pyval) {struct v} : pystr :=
  match v with
  | PNone => py "null"
  | PBool true => py "true"
  | PBool false => py "false"
  | PInt n => decimal n
  | PFloat r => r
  | PStr s => quote s
  | PList [] => py "[]"
  | PList l =>
      py "[" ++ newline (S level)
        ++ join (py "," ++ newline (S level)) (map (dumps_at (S level)) l)
        ++ newline level ++ py "]"
  | PDict [] => py "{}"
  | PDict d =>
      py "{" ++ newline (S level)
        ++ join (py "," ++ newline (S level))
             (map (fun kv => quote (fst kv) ++ py ": "
                               ++ dumps_at (S level) (snd kv)) d)
        ++ newline level ++ py "}"
  end.

(** The conversion of an [int] to a [str] and back is refused beyond
    4300 digits. *)
Definition max_str_digits : Z := 4300.

Fixpoint ints_fit (v : pyval) : bool :=
  match v with
  | PInt n => len (decimal (Z.abs n)) <=? max_str_digits
  | PList l => forallb ints_fit l
  | PDict d => forallb (fun kv => ints_fit (snd kv)) d
  | _ => true
  end.

Definition dumps (v : pyval) : outcome pystr :=
  if ints_fit v then Ok (dumps_at 0 v) else Raise ValueError.

(** *** Reading JSON text *)

Definition is_ws (c : N) : bool :=
  ((c =? 32) || (c =? 9) || (c =? 10) || (c =? 13))%N.

Fixpoint skip_ws (s : pystr) : pystr :=
  match s with
  | c :: r => if is_ws c then skip_ws r else s
  | [] => []
  end.

Definition is_digit (c : N) : bool := ((48 <=? c) && (c <=? 57))%N.

Fixpoint take_digits (s : pystr) : pystr * pystr :=
  match s with
  | c :: r =>
      if is_digit c then let '(ds, r') := take_digits r in (c :: ds, r')
      else ([], s)
  | [] => ([], [])
  end.

Definition digits_value (ds : pystr) : Z :=
  fold_left (fun acc c => 10 * acc + Z.of_N (c - 48)) ds 0.

Fixpoint strip_prefix (pre s : pystr) : option pystr :=
  match pre, s with
  | [], _ => Some s
  | a :: pre', b :: s' => if N.eqb a b then strip_prefix pre' s' else None
  | _ :: _, [] => None
  end.

Definition hex_value (c : N) : option N :=
  (if (48 <=? c) && (c <=? 57) then Some (c - 48)
   else if (97 <=? c) && (c <=? 102) then Some (c - 87)
   else if (65 <=? c) && (c <=? 70) then Some (c - 55)
   else None)%N.

Definition hex4 (s : pystr) : option (N * pystr) :=
  match s with
  | a :: b :: c :: d :: r =>
      match hex_value a, hex_value b, hex_value c, hex_value d with
      | Some a, Some b, Some c, Some d =>
          Some (4096 * a + 256 * b + 16 * c + d, r)%N
      | _, _, _, _ => None
      end
  | _ => None
  end.

(** The characters of a string literal, after its opening quote. *)
Fixpoint parse_chars (fuel : nat) (s acc : pystr) : outcome (pystr * pystr) :=
  match fuel with
  | O => Raise JSONDecodeError
  | S fuel =>
      match s with
      | [] => Raise JSONDecodeError
      | 34%N :: r => Ok (rev acc, r)
      | 92%N :: 117%N :: r =>
          match hex4 r with
          | Some (hi, r1) =>
              match r1 with
              | 92%N :: 117%N :: r2 =>
                  match hex4 r2 with
                  | Some (lo, r3) =>
                      if ((55296 <=? hi) && (hi <=? 56319)
                          && (56320 <=? lo) && (lo <=? 57343))%N
                      then parse_chars fuel r3
                             ((65536 + 1024 * (hi - 55296) + (lo - 56320))%N
                                :: acc)
                      else parse_chars fuel r1 (hi :: acc)
                  | None => parse_chars fuel r1 (hi :: acc)
                  end
              | _ => parse_chars fuel r1 (hi :: acc)
              end
          | None => Raise JSONDecodeError
          end
      | 92%N :: e :: r =>
          (if e =? 34 then parse_chars fuel r (34 :: acc)
           else if e =? 92 then parse_chars fuel r (92 :: acc)
           else if e =? 47 then parse_chars fuel r (47 :: acc)
           else if e =? 98 then parse_chars fuel r (8 :: acc)
           else if e =? 102 then parse_chars fuel r (12 :: acc)
           else if e =? 110 then parse_chars fuel r (10 :: acc)
           else if e =? 114 then parse_chars fuel r (13 :: acc)
           else if e =? 116 then parse_chars fuel r (9 :: acc)
           else Raise JSONDecodeError)%N
      | c :: r =>
          if (c <? 32)%N then Raise JSONDecodeError
          else parse_chars fuel r (c :: acc)
      end
  end.

Definition parse_string (s : pystr) : outcome (pystr * pystr) :=
  parse_chars (List.length s) s [].

(** A number: an integer, or a float kept as it is written. *)
Definition parse_number (s : pystr) : outcome (pyval * pystr) :=
  let '(sign, r) :=
    match s with
    | 45%N :: r => ([45%N], r)
    | _ => ([], s)
    end in
  let '(ds, r1) := take_digits r in
  let '(int, r1) :=
    match ds with
    | 48%N :: more => ([48%N], more ++ r1)
    | _ => (ds, r1)
    end in
  match int with
  | [] => Raise JSONDecodeError
  | _ =>
      let '(frac, r2) :=
        match r1 with
        | 46%N :: r' =>
            match take_digits r' with
            | ([], _) => ([], r1)
            | (fs, r'') => (46%N :: fs, r'')
            end
        | _ => ([], r1)
        end in
      let '(exp, r3) :=
        match r2 with
        | e :: r' =>
            if ((e =? 101) || (e =? 69))%N then
              let '(sg, r'') :=
                match r' with
                | c :: t => if ((c =? 43) || (c =? 45))%N then ([c], t)
                            else ([], r')
                | [] => ([], r')
                end in
              match take_digits r'' with
              | ([], _) => ([], r2)
              | (es, t) => (e :: sg ++ es, t)
              end
            else ([], r2)
        | [] => ([], r2)
        end in
      match frac, exp with
      | [], [] =>
          if len int <=? max_str_digits then
            Ok (PInt (match sign with
                      | [] => digits_value int
                      | _ => - digits_value int
                      end), r3)
          else Raise ValueError
      | _, _ => Ok (PFloat (sign ++ int ++ frac ++ exp), r3)
      end
  end.

Definition parse_atom (s : pystr) : outcome (pyval * pystr) :=
  match strip_prefix (py "null") s with
  | Some r => Ok (PNone, r)
  | None =>
  match strip_prefix (py "true") s with
  | Some r => Ok (PBool true, r)
  | None =>
  match strip_prefix (py "false") s with
  | Some r => Ok (PBool false, r)
  | None =>
  match strip_prefix (py "NaN") s with
  | Some r => Ok (PFloat (py "nan"), r)
  | None =>
  match strip_prefix (py "Infinity") s with
  | Some r => Ok (PFloat (py "inf"), r)
  | None =>
  match strip_prefix (py "-Infinity") s with
  | Some r => Ok (PFloat (py "-inf"), r)
  | None => parse_number s
  end end end end end end.

(** A value at the head of [s]; [parse_elements] and [parse_members] read
    the rest of an array or object whose next item starts [s]. *)
Fixpoint parse_value (fuel : nat) (s : pystr) : outcome (pyval * pystr) :=
  match fuel with
  | O => Raise RecursionError
  | S fuel =>
      match s with
      | 34%N :: r =>
          ' (str, r') <- parse_string r ;; Ok (PStr str, r')
      | 91%N :: r =>
          match skip_ws r with
          | 93%N :: r' => Ok (PList [], r')
          | r' => parse_elements fuel r' []
          end
      | 123%N :: r =>
          match skip_ws r with
          | 125%N :: r' => Ok (PDict [], r')
          | r' => parse_members fuel r' []
          end
      | _ => parse_atom s
      end
  end
with parse_elements (fuel : nat) (s : pystr) (acc : list pyval)
  : outcome (pyval * pystr) :=
  match fuel with
  | O => Raise RecursionError
  | S fuel =>
      ' (v, r) <- parse_value fuel s ;;
      match skip_ws r with
      | 44%N :: r' => parse_elements fuel (skip_ws r') (v :: acc)
      | 93%N :: r' => Ok (PList (rev (v :: acc)), r')
      | _ => Raise JSONDecodeError
      end
  end
with parse_members (fuel : nat) (s : pystr) (acc : list (pystr * pyval))
  : outcome (pyval * pystr) :=
  match fuel with
  | O => Raise RecursionError
  | S fuel =>
      match s with
      | 34%N :: r =>
          ' (k, r1) <- parse_string r ;;
          match skip_ws r1 with
          | 58%N :: r2 =>
              ' (v, r3) <- parse_value fuel (skip_ws r2) ;;
              match skip_ws r3 with
              | 44%N :: r4 => parse_members fuel (skip_ws r4) (store k v acc)
              | 125%N :: r4 => Ok (PDict (store k v acc), r4)
              | _ => Raise JSONDecodeError
              end
          | _ => Raise JSONDecodeError
          end
      | _ => Raise JSONDecodeError
      end
  end.

Definition loads (text : pystr) : outcome pyval :=
  ' (v, r) <- parse_value (2 * List.length text + 2) (skip_ws text) ;;
  match skip_ws r with
  | [] => Ok v
  | _ => Raise JSONDecodeError
  end.

(** The digits of a numeral, and the digits a number can start with. *)
Definition digits_of (d : Decimal.uint) : pystr :=
  py (NilEmpty.string_of_uint d).

Definition nonzero_digits : list N := [49; 50; 51; 52; 53; 54; 55; 56; 57]%N.

(** *** What the codec gives back as it was

    The escapes of a high surrogate directly before a low one are read as
    one character, so a string that holds the two as two characters comes
    back changed. *)

Definition is_high (c : N) : bool := ((55296 <=? c) && (c <=? 56319))%N.

Definition is_low (c : N) : bool := ((56320 <=? c) && (c <=? 57343))%N.

Fixpoint has_pair (s : pystr) : bool :=
  match s with
  | [] => false
  | hi :: r =>
      match r with
      | lo :: _ => (is_high hi && is_low lo) || has_pair r
      | [] => false
      end
  end.

(** A string of code points, the last one U+10FFFF, without such a
    pair. *)
Definition storable_str (s : pystr) : bool :=
  forallb (fun c => c <? 1114112)%N s && negb (has_pair s).

(** A state whose strings are such, and whose font size has at most 4300
    digits. *)
Definition storable (r : AppState.t) : bool :=
  forallb storable_str (AppState.recent_files r)
  && storable_str (AppState.font_family r)
  && (len (decimal (Z.abs (AppState.font_size r))) <=? max_str_digits).

(** *** Files in memory *)

(** The files with their text, and the paths the system refuses to open. *)
Record world := {
  files : list (pystr * pystr);
  denied : list pystr
}.

Definition is_denied (w : world) (p : pystr) : bool :=
  existsb (str_eqb p) (denied w).

Definition exists_ (w : world) (p : pystr) : bool :=
  match lookup p (files w) with
  | Some _ => true
  | None => false
  end.

(** ENOENT is 2, EACCES is 13. *)
Definition read (w : world) (p : pystr) : outcome pystr :=
  if is_denied w p then Raise (OSError 13)
  else
    match lookup p (files w) with
    | Some text => Ok text
    | None => Raise (OSError 2)
    end.

Definition write (p text : pystr) : M world unit :=
  fun w =>
    if is_denied w p then (w, Raise (OSError 13))
    else ({| files := store p text (files w); denied := denied w |}, Ok tt).

(** Paths are taken relative to [/work]. *)
Definition absolute (w : world) (p : pystr) : pystr :=
  match p with
  | 47%N :: _ => p
  | _ => py "/work/" ++ p
  end.

Definition class_names : list pystr :=
  map py
    [ "defaults"; "__class__"; "__dict__"; "__weakref__"; "__doc__";
      "__module__"; "__init__"; "__repr__"; "__eq__"; "__hash__";
      "__dataclass_fields__"; "__dataclass_params__"; "__match_args__";
      "__annotations__"; "__str__"; "__setattr__"; "__getattribute__";
      "__delattr__"; "__ne__"; "__lt__"; "__le__"; "__gt__"; "__ge__";
      "__new__"; "__reduce__"; "__reduce_ex__"; "__format__"; "__dir__";
      "__sizeof__"; "__init_subclass__"; "__subclasshook__" ]%string.

Definition on_class (k : pystr) : bool := existsb (str_eqb k) class_names.

Lemma on_class_field k :
  In k [py "recent_files"; py "word_wrap"; py "font_family"; py "font_size"] ->
  on_class k = false.
Proof.
  intros [<- | [<- | [<- | [<- | []]]]]; reflexivity.
Qed.

(** *** Qt *)

(** [QFont(family, size)] with a [str] and an [int]; a [bool] is an
    [int]. *)
Definition font (family size : pyval) : outcome unit :=
  match family, size with
  | PStr _, PInt n =>
      if (-2147483648 <=? n) && (n <=? 2147483647) then Ok tt
      else Raise OverflowError
  | PStr _, PBool _ => Ok tt
  | _, _ => Raise TypeError
  end.

Lemma font_typed family size :
  -2147483648 <= size <= 2147483647 -> font (PStr family) (PInt size) = Ok tt.
Proof.
  intros Hs. unfold font.
  destruct (Z.leb_spec (-2147483648) size); [| lia].
  destruct (Z.leb_spec size 2147483647); [reflexivity | lia].
Qed.

(** The text of an editor.  Every line ends in a line feed, whether the
    text given had CR LF, a lone CR, or one of U+2028, U+2029, U+FDD0 and
    U+FDD1 there; U+00A0 comes back as a space. *)
Fixpoint plain (s : pystr) : pystr :=
  match s with
  | [] => []
  | c :: r =>
      (if c =? 13 then
         match r with
         | d :: r' => if d =? 10 then 10 :: plain r' else 10 :: plain r
         | [] => [10]
         end
       else if (c =? 8232) || (c =? 8233) || (c =? 64976) || (c =? 64977)
       then 10 :: plain r
       else if c =? 160 then 32 :: plain r
       else c :: plain r)%N
  end.

Definition host : Host := {|
  World := world;
  home := py "/home/user";
  path_exists := fun w p => Ok (exists_ w p);
  read_text := read;
  read_text_replace := read;
  write_text := write;
  resolve := absolute;
  json_loads := loads;
  json_loads_empty := eq_refl;
  json_dumps := dumps;
  class_attr := on_class;
  class_attr_field := on_class_field;
  QFont := font;
  QFont_typed := font_typed;
  plain_text := plain
|}.

(** A text literal in which ' is written for the double quote. *)
Definition text (s : string) : pystr :=
  map (fun c => if N.eqb c 39 then 34%N else c) (py s).

(** A world whose only file is the settings file. *)
Definition settings_only (text : pystr) : world :=
  {| files := [(SETTINGS_FILE (H := host), text)]; denied := [] |}.

(** A world with one note, and a file that cannot be opened. *)
Definition desk : world :=
  {| files := [(py "/tmp/note.txt", py "hello")];
     denied := [py "/root/secret.txt"] |}.

(** A window with two recent files, neither of them in [desk]. *)
Definition two_recent : MainWindow.t :=
  {| MainWindow.state :=
       AppState.instance
         {| AppState.recent_files := [py "/a"; py "/b"];
            AppState.word_wrap := true;
            AppState.font_family := py "Segoe UI";
            AppState.font_size := 12 |};
     MainWindow.tabs := [] |}.

(** A tab with unsaved text. *)
Definition draft : DocumentTab.t :=
  DocumentTab.edit (py "hello") DocumentTab.new.

(** A saved tab that was edited again. *)
Definition report : DocumentTab.t :=
  {| DocumentTab.path := Some (py "/x/y/report.txt");
     DocumentTab.text := py "draft";
     DocumentTab.modified := true |}.

(** A settings file that binds [word_wrap] to a string. *)
Definition wrap_as_string : world :=
  settings_only (text "{'word_wrap': 'yes', 'font_size': 14}").

(** A settings file that lists a recent file twice. *)
Definition listed_twice : world :=
  settings_only (text "{'recent_files': ['/a', '/a']}").

(** A valid state. *)
Definition sample : AppState.t :=
  {| AppState.recent_files := [py "/tmp/note.txt"; py "/x/y/report.txt"];
     AppState.word_wrap := false;
     AppState.font_family := py "Consolas";
     AppState.font_size := 14 |}.

(** A valid state whose font family is a high surrogate and a low one,
    and the state with the one character that the two encode. *)
Definition paired : AppState.t :=
  {| AppState.recent_files := [];
     AppState.word_wrap := true;
     AppState.font_family := [55357; 56832]%N;
     AppState.font_size := 12 |}.

Definition joined : AppState.t :=
  {| AppState.recent_files := [];
     AppState.word_wrap := true;
     AppState.font_family := [128512%N];
     AppState.font_size := 12 |}.

(** A world whose one file exists and cannot be opened. *)
Definition guarded : world :=
  {| files := [(py "/root/secret.txt", py "keep out")];
     denied := [py "/root/secret.txt"] |}.

(** A window on the tabs page with one tab, the unsaved [draft]. *)
Definition busy : Shell.t :=
  {| Shell.main :=
       {| MainWindow.state := MainWindow.state two_recent;
          MainWindow.tabs := [draft] |};
     Shell.stack := 1 |}.

(** A settings file with a key that is no field and a list that holds a
    number. *)
Definition plain_settings : world :=
  settings_only
    (text "{'theme': 'dark', 'font_size': 9, 'recent_files': ['/a', 7]}").

(** A settings file that binds [font_size] to a string. *)
Definition big_font : world :=
  settings_only (text "{'font_size': 'big'}").

(** A world in which the settings file cannot be opened. *)
Definition locked : world :=
  {| files := []; denied := [SETTINGS_FILE (H := host)] |}.

End Reference.

(** ** Strings and slices *)

Lemma str_eqb_eq a b : str_eqb a b = true <-> a = b.
Proof.
  unfold str_eqb. destruct (list_eq_dec N.eq_dec a b); split; congruence.
Qed.

Lemma str_eqb_refl a : str_eqb a a = true.
Proof. now apply str_eqb_eq. Qed.

Lemma str_eqb_neq a b : str_eqb a b = false <-> a <> b.
Proof.
  unfold str_eqb. destruct (list_eq_dec N.eq_dec a b); split; congruence.
Qed.

Lemma len_app {A} (a b : list A) : len (a ++ b) = len a + len b.
Proof. unfold len. rewrite length_app. lia. Qed.

Lemma len_nonneg {A} (a : list A) : 0 <= len a.
Proof. unfold len. lia. Qed.

Lemma slice_to_prefix {A} (s : list A) (i : Z) :
  0 <= i <= len s ->
  slice_to s i = firstn (Z.to_nat i) s /\ len (slice_to s i) = i.
Proof.
  intros Hi. unfold slice_to, slice_index.
  destruct (Z.ltb_spec i 0); [lia |].
  rewrite Z.min_l by lia. split; [reflexivity |].
  unfold len in *. rewrite length_firstn. lia.
Qed.

Lemma slice_from_suffix {A} (s : list A) (k : Z) :
  0 < k <= len s ->
  slice_from s (- k) = skipn (Z.to_nat (len s - k)) s
  /\ len (slice_from s (- k)) = k.
Proof.
  intros Hk. unfold slice_from, slice_index.
  destruct (Z.ltb_spec (- k) 0); [| lia].
  rewrite Z.max_r by lia.
  replace (- k + len s) with (len s - k) by lia.
  split; [reflexivity |].
  unfold len in *. rewrite length_skipn. lia.
Qed.

(** ** [elide_middle] *)

(** C10.  For a limit of at least 6, [elide_middle] returns a path that
    fits unchanged; a longer one becomes a string of exactly [max_len]
    characters: the first [max_len // 2 - 2] characters of the path, three
    dots, and the last characters of the path. *)
Theorem elide_middle_spec (path : pystr) (max_len : Z) :
  6 <= max_len ->
  (len path <= max_len -> elide_middle path max_len = path) /\
  (max_len < len path ->
   len (elide_middle path max_len) = max_len /\
   exists pre mid suf,
     elide_middle path max_len = pre ++ py "..." ++ suf /\
     path = pre ++ mid ++ suf /\
     len pre = max_len / 2 - 2 /\
     len suf = max_len - (max_len / 2 - 2) - 3).
Proof.
  intros Hmax. unfold elide_middle. split; intros Hlen.
  - destruct (Z.leb_spec (len path) max_len); [reflexivity | lia].
  - destruct (Z.leb_spec (len path) max_len); [lia |].
    set (head := max_len / 2 - 2).
    set (tail := max_len - head - 3).
    assert (Hhalf : 3 <= max_len / 2) by (apply Z.div_le_lower_bound; lia).
    assert (Hhalf' : 2 * (max_len / 2) <= max_len)
      by (apply Z.mul_div_le; lia).
    assert (Hhead : 0 <= head <= len path) by (subst head; lia).
    assert (Htail : 0 < tail <= len path) by (subst tail head; lia).
    destruct (slice_to_prefix path head Hhead) as [Epre Lpre].
    destruct (slice_from_suffix path tail Htail) as [Esuf Lsuf].
    split.
    + rewrite !len_app, Lpre, Lsuf. subst tail. change (len (py "...")) with 3.
      lia.
    + exists (slice_to path head), (skipn (Z.to_nat head)
               (firstn (Z.to_nat (len path - tail)) path)),
             (slice_from path (- tail)).
      repeat split; try assumption.
      rewrite Epre, Esuf.
      rewrite <- (firstn_skipn (Z.to_nat (len path - tail)) path) at 1.
      rewrite <- (firstn_skipn (Z.to_nat head)
                    (firstn (Z.to_nat (len path - tail)) path)) at 1.
      rewrite firstn_firstn.
      replace (Nat.min (Z.to_nat head) (Z.to_nat (len path - tail)))
        with (Z.to_nat head) by (subst tail; lia).
      now rewrite <- app_assoc.
Qed.

(** ** Document tabs *)

Section DocumentTabFacts.
Import DocumentTab.

(** [rfind_from] returns [last] when [c] does not occur, and otherwise the
    position of the occurrence that no other follows. *)
Lemma rfind_from_spec (c : N) (s : pystr) :
  forall i last,
    (~ In c s /\ rfind_from c s i last = last) \/
    (exists pre post,
        s = pre ++ c :: post /\ ~ In c post /\
        rfind_from c s i last = i + len pre).
Proof.
  induction s as [| x s IH]; intros i last; simpl.
  - left. split; [tauto | reflexivity].
  - destruct (IH (i + 1) (if N.eqb x c then i else last))
      as [[Hno E] | (pre & post & -> & Hno & E)].
    + destruct (N.eqb_spec x c) as [-> | Hx].
      * right. exists [], s. rewrite E. cbn. repeat split; auto; lia.
      * left. rewrite E. split; [| reflexivity]. intros [? | ?]; auto.
    + right. exists (x :: pre), post. rewrite E.
      repeat split; auto. unfold len. cbn [List.length]. lia.
Qed.

(** The base name is what follows the last slash: [p] is a directory part,
    empty or ending in a slash, followed by a name without slashes. *)
Lemma basename_strips_directories (p : pystr) :
  exists dir,
    p = dir ++ basename p /\
    ~ In 47%N (basename p) /\
    (dir = [] \/ exists d, dir = d ++ [47%N]).
Proof.
  unfold basename, rfind.
  destruct (rfind_from_spec 47%N p 0 (-1))
    as [[Hno ->] | (pre & post & -> & Hno & ->)].
  - exists []. change (-1 + 1) with 0.
    unfold slice_from, slice_index. cbn [Z.ltb Z.compare].
    rewrite Z.min_l by apply len_nonneg. cbn. auto.
  - exists (pre ++ [47%N]).
    assert (E : slice_from (pre ++ 47%N :: post) (0 + len pre + 1) = post).
    { unfold slice_from, slice_index.
      pose proof (len_nonneg pre). pose proof (len_nonneg post).
      destruct (Z.ltb_spec (0 + len pre + 1) 0); [lia |].
      rewrite Z.min_l
        by (rewrite len_app; unfold len in *; cbn [List.length]; lia).
      replace (Z.to_nat (0 + len pre + 1)) with (List.length (pre ++ [47%N]))
        by (rewrite length_app; unfold len; cbn [List.length]; lia).
      change (47%N :: post) with ([47%N] ++ post). rewrite app_assoc.
      rewrite skipn_app, skipn_all, Nat.sub_diag. reflexivity. }
    rewrite E. repeat split; eauto.
    now rewrite <- app_assoc.
Qed.

Example basename_report : basename (py "/x/y/report.txt") = py "report.txt".
Proof. reflexivity. Qed.

Example basename_plain : basename (py "notes.md") = py "notes.md".
Proof. reflexivity. Qed.

Context {H : Host}.

(** C5.  A tab whose path is not the empty string is titled with the base
    name of its path, or "Untitled" without a path, followed by a space
    and the glyph U+2022 exactly when it is dirty; the base name is the
    path without its directory part.  A new tab is titled "Untitled",
    after an edit "Untitled •", and after a successful [save_to] of
    /x/y/report.txt "report.txt". *)
Theorem title_spec (tab : t) :
  path tab <> Some [] ->
  title tab =
    match path tab with
    | Some p => basename p
    | None => py "Untitled"
    end ++ (if is_dirty tab then [32%N; 8226%N] else [])
  /\ (forall p, path tab = Some p ->
      exists dir, p = dir ++ basename p /\ ~ In 47%N (basename p) /\
                  (dir = [] \/ exists d, dir = d ++ [47%N]))
  /\ title new = py "Untitled"
  /\ (forall s, title (edit s new) = py "Untitled" ++ [32%N; 8226%N])
  /\ (forall w w' tab',
      save_to (py "/x/y/report.txt") (w, tab) = ((w', tab'), Ok tt) ->
      title tab' = py "report.txt").
Proof.
  intros Hpath. repeat split.
  - unfold title, dirty_marker. revert Hpath.
    destruct (path tab) as [[| c p] |]; intros Hpath;
      [now contradiction Hpath | reflexivity ..].
  - intros p _. apply basename_strips_directories.
  - intros w w' tab'. unfold save_to, bindM, self, on_world, on_self.
    destruct (write_text _ _ w) as [w1 [[] | e]]; intros E; inversion E.
    reflexivity.
Qed.

End DocumentTabFacts.

Section DocumentIO.
Import DocumentTab.
Context {H : Host}.

Lemma load_file_run (p : pystr) (w : World) (tab : t) :
  load_file p (w, tab) =
    match read_text_replace w p with
    | Ok s =>
        ((w, {| path := Some p; text := plain_text s; modified := false |}),
         Ok tt)
    | Raise e => ((w, tab), Raise e)
    end.
Proof.
  unfold load_file, bindM, ask_world, on_self.
  destruct (read_text_replace w p); reflexivity.
Qed.

Lemma save_to_run (p : pystr) (w : World) (tab : t) :
  save_to p (w, tab) =
    match write_text p (toPlainText tab) w with
    | (w', Ok _) =>
        ((w', {| path := Some p; text := text tab; modified := false |}), Ok tt)
    | (w', Raise e) => ((w', tab), Raise e)
    end.
Proof.
  unfold save_to, bindM, self, on_world, on_self.
  destruct (write_text p (toPlainText tab) w) as [w' [[] | e]]; reflexivity.
Qed.

(** C6.  When the read behind [load_file] or the write behind [save_to]
    raises, the method raises the same exception and the tab keeps its
    path, its text and its modified flag. *)
Theorem failed_io_leaves_tab_unchanged (w : World) (tab : t) (p : pystr)
    (e : exn) :
  (read_text_replace w p = Raise e ->
   load_file p (w, tab) = ((w, tab), Raise e)) /\
  (forall w', write_text p (toPlainText tab) w = (w', Raise e) ->
   save_to p (w, tab) = ((w', tab), Raise e)).
Proof.
  split.
  - intros E. now rewrite load_file_run, E.
  - intros w' E. now rewrite save_to_run, E.
Qed.

(** C7.  A successful [save_to] sets the path and clears the modified
    flag, so a new tab that is edited and saved to /tmp/note.txt is titled
    "note.txt", is clean and has that path.  A successful [load_file] does
    the same and takes the text read, as the editor gives it back: the
    title right after it is the plain name, and the next edit appends the
    marker again. *)
Theorem successful_io_sets_path_and_clears_dirty (w : World) (tab : t)
    (p : pystr) :
  (forall w', write_text p (toPlainText tab) w = (w', Ok tt) ->
   save_to p (w, tab) =
     ((w', {| path := Some p; text := text tab; modified := false |}), Ok tt))
  /\ (forall w',
      write_text (py "/tmp/note.txt") (py "hello") w = (w', Ok tt) ->
      exists tab',
        save_to (py "/tmp/note.txt") (w, edit (py "hello") new)
          = ((w', tab'), Ok tt) /\
        title tab' = py "note.txt" /\
        is_dirty tab' = false /\
        path tab' = Some (py "/tmp/note.txt"))
  /\ (forall s, read_text_replace w p = Ok s ->
      exists tab',
        load_file p (w, tab) = ((w, tab'), Ok tt) /\
        path tab' = Some p /\ is_dirty tab' = false /\
        text tab' = plain_text s /\
        title tab' = match p with [] => py "Untitled" | _ => basename p end /\
        forall s', title (edit s' tab') = title tab' ++ dirty_marker).
Proof.
  repeat apply conj.
  - intros w' E. now rewrite save_to_run, E.
  - intros w' E. eexists. rewrite save_to_run. cbn [toPlainText text edit
      setModified set_text]. rewrite E. repeat split.
  - intros s E. eexists. rewrite load_file_run, E. split; [reflexivity |].
    cbn [path is_dirty modified text]. repeat split.
    + unfold title. cbn [path is_dirty modified]. rewrite app_nil_r.
      destruct p; reflexivity.
    + intros s'. unfold title, edit, setModified, set_text.
      cbn [path is_dirty modified]. now rewrite app_nil_r.
Qed.

End DocumentIO.

(** ** Settings *)

Section SettingsFacts.
Context {H : Host}.

Lemma lookup_store_eq {V} (k : pystr) (v : V) (o : list (pystr * V)) :
  lookup k (store k v o) = Some v.
Proof.
  induction o as [| [k' v'] o IH]; simpl.
  - now rewrite str_eqb_refl.
  - destruct (str_eqb k' k) eqn:E; simpl.
    + now rewrite str_eqb_refl.
    + now rewrite E.
Qed.

Lemma filter_is_str_strings (l : list pystr) :
  filter is_str (map PStr l) = map PStr l.
Proof. induction l; simpl; congruence. Qed.

(** [load_state] returns in every world. *)
Lemma load_state_returns (w : World) : exists s, load_state w = Ok s.
Proof.
  unfold load_state, try_except, bind.
  destruct (load_state_try w) as [[s |] | e]; eauto.
Qed.

Lemma load_state_fallback (w : World) :
  (load_state_try w = Ok None \/ exists e, load_state_try w = Raise e) ->
  load_state w = Ok defaults.
Proof.
  unfold load_state. intros [-> | [e ->]]; reflexivity.
Qed.

(** C2.  When the settings file is missing, cannot be looked up or read,
    is empty, or holds text that [json.loads] rejects, [load_state]
    returns, without raising, the default state: no recent files, word
    wrap on, font "Segoe UI" of size 12. *)
Theorem load_state_defaults_on_unusable_store (w : World) :
  (path_exists w SETTINGS_FILE = Ok false \/
   (exists e, path_exists w SETTINGS_FILE = Raise e) \/
   (exists e, read_text w SETTINGS_FILE = Raise e) \/
   read_text w SETTINGS_FILE = Ok [] \/
   (exists text e,
       read_text w SETTINGS_FILE = Ok text /\ json_loads text = Raise e)) ->
  load_state w =
    Ok [ (py "recent_files", PList []);
         (py "word_wrap", PBool true);
         (py "font_family", PStr (py "Segoe UI"));
         (py "font_size", PInt 12) ].
Proof.
  intros Hcase. apply load_state_fallback. unfold load_state_try.
  destruct (path_exists w SETTINGS_FILE) as [[|] | x] eqn:Hex; cbn [bind].
  - right.
    destruct Hcase
      as [Hmiss | [[e Hx] | [[e Hr] | [Hr | (text & e & Hr & Hj)]]]].
    + discriminate.
    + discriminate.
    + exists e. now rewrite Hr.
    + exists JSONDecodeError. rewrite Hr. cbn [bind].
      now rewrite json_loads_empty.
    + exists e. rewrite Hr. cbn [bind]. now rewrite Hj.
  - now left.
  - right. now exists x.
Qed.

(** What [save_state] does, by what [json.dumps] and the write do. *)
Lemma save_state_run (state : obj) (w : World) :
  save_state state w =
    match json_dumps (PDict state) with
    | Ok text => (fst (write_text SETTINGS_FILE text w), Ok tt)
    | Raise _ => (w, Ok tt)
    end.
Proof.
  unfold save_state, try_exceptM, bindM, lift, ret.
  destruct (json_dumps (PDict state)) as [text | e]; [| reflexivity].
  destruct (write_text SETTINGS_FILE text w) as [w' [[] | e]]; reflexivity.
Qed.

(** C9.  [save_state] returns normally in every world: when the write
    raises, and also when [json.dumps] does, the exception stops there. *)
Theorem save_state_never_raises (state : obj) (w : World) :
  snd (save_state state w) = Ok tt /\
  (forall text w' e,
      json_dumps (PDict state) = Ok text ->
      write_text SETTINGS_FILE text w = (w', Raise e) ->
      save_state state w = (w', Ok tt)) /\
  (forall e,
      json_dumps (PDict state) = Raise e -> save_state state w = (w, Ok tt)).
Proof.
  rewrite save_state_run. repeat apply conj.
  - destruct (json_dumps (PDict state)); reflexivity.
  - intros text w' e -> ->. reflexivity.
  - intros e ->. reflexivity.
Qed.

Lemma save_state_written (state : obj) (w w' : World) (text : pystr) :
  json_dumps (PDict state) = Ok text ->
  write_text SETTINGS_FILE text w = (w', Ok tt) ->
  save_state state w = (w', Ok tt).
Proof.
  rewrite save_state_run. intros -> ->. reflexivity.
Qed.

Lemma merge_items_instance (r : AppState.t) :
  merge_items (AppState.instance r) defaults = Ok (AppState.instance r).
Proof. reflexivity. Qed.

(** What [load_state] returns once the file is read and decoded. *)
Lemma load_state_decoded (w : World) (text : pystr) (data : pyval) :
  path_exists w SETTINGS_FILE = Ok true ->
  read_text w SETTINGS_FILE = Ok text ->
  json_loads text = Ok data ->
  load_state_try w =
    (kvs <- items data ;;
     s <- merge_items kvs defaults ;;
     rf <- getattr s (py "recent_files") ;;
     s <- (if negb (is_list rf) then setattr s (py "recent_files") (PList [])
           else Ok s) ;;
     rf <- getattr s (py "recent_files") ;;
     l <- elements rf ;;
     s <- setattr s (py "recent_files") (PList (filter is_str l)) ;;
     Ok (Some s)).
Proof.
  intros Hex Hr Hj. unfold load_state_try. rewrite Hex. cbn [bind].
  rewrite Hr. cbn [bind]. now rewrite Hj.
Qed.

(** Saving a state whose fields have the declared types and loading it
    again gives the same state, field for field, when the write succeeds,
    the file then reads back as written, and [json.loads] decodes what
    [json.dumps] wrote: the merge into the defaults and the check of the
    list change nothing. *)
Lemma save_then_load_decoded (r : AppState.t) (w w' : World)
    (text : pystr) :
  json_dumps (PDict (AppState.instance r)) = Ok text ->
  json_loads text = Ok (PDict (AppState.instance r)) ->
  write_text SETTINGS_FILE text w = (w', Ok tt) ->
  path_exists w' SETTINGS_FILE = Ok true ->
  read_text w' SETTINGS_FILE = Ok text ->
  save_state (AppState.instance r) w = (w', Ok tt) /\
  load_state w' = Ok (AppState.instance r).
Proof.
  intros Hd Hl Hw Hex Hr. split.
  - now apply save_state_written with text.
  - unfold load_state.
    rewrite (load_state_decoded w' text _ Hex Hr Hl).
    cbn [items bind]. rewrite merge_items_instance. cbn [bind].
    change (getattr (AppState.instance r) (py "recent_files"))
      with (Ok (A := pyval) (PList (map PStr (AppState.recent_files r)))).
    cbn [bind is_list negb elements].
    change (getattr (AppState.instance r) (py "recent_files"))
      with (Ok (A := pyval) (PList (map PStr (AppState.recent_files r)))).
    cbn [bind elements]. rewrite filter_is_str_strings.
    reflexivity.
Qed.

(** The list field is checked: a [recent_files] that is not a list is
    replaced by the empty list. *)
Lemma load_state_resets_wrong_typed_recent_files (w : World) (text : pystr)
    (v : pyval) :
  path_exists w SETTINGS_FILE = Ok true ->
  read_text w SETTINGS_FILE = Ok text ->
  json_loads text = Ok (PDict [(py "recent_files", v)]) ->
  is_list v = false ->
  load_state w = Ok defaults.
Proof.
  intros Hex Hr Hl Hv. unfold load_state.
  rewrite (load_state_decoded w text _ Hex Hr Hl).
  destruct v; try discriminate; reflexivity.
Qed.

(** C1, at the input that fails it.  A file that binds [word_wrap] to any
    value, of whatever type, makes [load_state] keep that value: with
    [{"word_wrap": "yes", "font_size": 14}] the state has the string
    "yes" as its [word_wrap], not the default [True]. *)
Theorem load_state_keeps_wrong_typed_word_wrap (w : World) (text : pystr)
    (v : pyval) :
  path_exists w SETTINGS_FILE = Ok true ->
  read_text w SETTINGS_FILE = Ok text ->
  json_loads text
    = Ok (PDict [(py "word_wrap", v); (py "font_size", PInt 14)]) ->
  load_state w =
    Ok [ (py "recent_files", PList []);
         (py "word_wrap", v);
         (py "font_family", PStr (py "Segoe UI"));
         (py "font_size", PInt 14) ].
Proof.
  intros Hex Hr Hl. unfold load_state.
  rewrite (load_state_decoded w text _ Hex Hr Hl). reflexivity.
Qed.

End SettingsFacts.

(** ** Recent files *)

Section RecentLists.
Import MainWindow.

Lemma existsb_eq_str (p : pystr) (l : list pystr) :
  existsb (eq_str p) (map PStr l) = true <-> In p l.
Proof.
  rewrite existsb_exists. split.
  - intros (v & Hin & Hv). apply in_map_iff in Hin as (q & <- & Hq).
    simpl in Hv. apply str_eqb_eq in Hv. now subst.
  - intros Hin. exists (PStr p). split; [now apply in_map |].
    apply str_eqb_refl.
Qed.

Lemma list_remove_strings (p : pystr) (l : list pystr) :
  In p l -> list_remove p (map PStr l) = Ok (map PStr (without_first p l)).
Proof.
  induction l as [| q l IH]; simpl; [tauto |]. intros Hin.
  destruct (str_eqb q p) eqn:E; [reflexivity |].
  destruct Hin as [-> | Hin]; [now rewrite str_eqb_refl in E |].
  now rewrite IH.
Qed.

Lemma without_first_absent (p : pystr) (l : list pystr) :
  ~ In p l -> without_first p l = l.
Proof.
  induction l as [| q l IH]; simpl; [reflexivity |]. intros Hno.
  destruct (str_eqb q p) eqn:E.
  - apply str_eqb_eq in E. tauto.
  - rewrite IH; tauto.
Qed.

Lemma filter_absent (p : pystr) (l : list pystr) :
  ~ In p l -> filter (fun q => negb (str_eqb q p)) l = l.
Proof.
  induction l as [| q l IH]; simpl; [reflexivity |]. intros Hno.
  destruct (str_eqb q p) eqn:E; simpl.
  - apply str_eqb_eq in E. tauto.
  - rewrite IH; tauto.
Qed.

(** Without duplicates, removing the first occurrence removes them all. *)
Lemma without_first_filter (p : pystr) (l : list pystr) :
  NoDup l -> without_first p l = filter (fun q => negb (str_eqb q p)) l.
Proof.
  induction 1 as [| q l Hq Hl IH]; simpl; [reflexivity |].
  destruct (str_eqb q p) eqn:E; simpl.
  - apply str_eqb_eq in E. subst q. now rewrite filter_absent.
  - now rewrite IH.
Qed.

Lemma in_firstn {A} (x : A) (n : nat) (l : list A) :
  In x (firstn n l) -> In x l.
Proof.
  revert n. induction l as [| y l IH]; intros [| n]; simpl; try tauto.
  intros [-> | Hin]; eauto.
Qed.

Lemma NoDup_firstn {A} (n : nat) (l : list A) : NoDup l -> NoDup (firstn n l).
Proof.
  intros Hl. revert n. induction Hl as [| x l Hx Hl IH]; intros [| n]; simpl;
    try constructor; auto.
  intros Hin. apply Hx. now apply in_firstn in Hin.
Qed.

Lemma length_added (p : pystr) (l : list pystr) :
  (List.length (added p l) <= 10)%nat.
Proof. unfold added. rewrite length_firstn. lia. Qed.

Lemma added_recordRecentFile (p : pystr) (l : list pystr) :
  NoDup l -> added p l = recordRecentFile p l.
Proof.
  intros Hl. unfold added, recordRecentFile. now rewrite without_first_filter.
Qed.

Lemma NoDup_recordRecentFile (p : pystr) (l : list pystr) :
  NoDup l -> NoDup (recordRecentFile p l).
Proof.
  intros Hl. apply NoDup_firstn. constructor.
  - rewrite filter_In. intros [_ Hp]. now rewrite str_eqb_refl in Hp.
  - now apply NoDup_filter.
Qed.

(** Removing from behind a front part that lacks [p]. *)
Lemma without_first_app (p : pystr) (a r : list pystr) :
  ~ In p a -> without_first p (a ++ r) = a ++ without_first p r.
Proof.
  induction a as [| q a IH]; simpl; [reflexivity |]. intros Hno.
  destruct (str_eqb q p) eqn:E.
  - apply str_eqb_eq in E. tauto.
  - rewrite IH; tauto.
Qed.

Lemma firstn_succ_firstn {A} (n : nat) (l : list A) :
  firstn n (firstn (S n) l) = firstn n l.
Proof. rewrite firstn_firstn. f_equal. lia. Qed.

(** After the paths [done], newest last, the list starts with the newest
    ten of them; recording further new paths keeps it so. *)
Lemma added_newest_first (ps done r : list pystr) :
  NoDup (done ++ ps) ->
  exists r',
    fold_left (fun l p => added p l) ps (firstn 10 (rev done) ++ r)
      = firstn 10 (rev (done ++ ps)) ++ r'.
Proof.
  revert done r.
  induction ps as [| p ps IH]; intros done r Hnd; cbn [fold_left].
  - exists r. now rewrite app_nil_r.
  - assert (Hp : ~ In p (firstn 10 (rev done))).
    { intros Hin. apply in_firstn, in_rev in Hin.
      apply NoDup_remove_2 in Hnd. apply Hnd, in_or_app. now left. }
    assert (Ea : added p (firstn 10 (rev done) ++ r)
                 = firstn 10 (p :: firstn 10 (rev done) ++ without_first p r))
      by (unfold added; now rewrite without_first_app).
    rewrite Ea.
    set (a := firstn 10 (rev done)).
    assert (E : exists r1, firstn 10 (p :: a ++ without_first p r)
                           = firstn 10 (rev (done ++ [p])) ++ r1).
    { rewrite rev_app_distr. cbn [rev app]. subst a.
      rewrite !firstn_cons, firstn_app, firstn_succ_firstn.
      eexists. reflexivity. }
    destruct E as [r1 ->].
    replace (done ++ p :: ps) with ((done ++ [p]) ++ ps)
      by now rewrite <- app_assoc.
    apply IH. now rewrite <- app_assoc.
Qed.

Lemma fold_added_length (ps l : list pystr) :
  ps <> [] ->
  (List.length (fold_left (fun l p => added p l) ps l) <= 10)%nat.
Proof.
  destruct ps as [| p ps] using rev_ind; [congruence |]. intros _.
  rewrite fold_left_app. simpl. apply length_added.
Qed.

(** Ten or more new paths replace the list: it is the newest ten, the
    newest first. *)
Lemma added_ten_most_recent (ps l : list pystr) :
  NoDup ps -> (10 <= List.length ps)%nat ->
  fold_left (fun l p => added p l) ps l = firstn 10 (rev ps).
Proof.
  intros Hnd Hlen.
  destruct (added_newest_first ps [] l Hnd) as [r' E].
  change (firstn 10 (rev []) ++ l) with l in E.
  change ([] ++ ps) with ps in E.
  assert (Hps : ps <> []) by (destruct ps; [simpl in Hlen; lia | congruence]).
  pose proof (fold_added_length ps l Hps) as Hl.
  rewrite E in Hl |- *. rewrite length_app, length_firstn, length_rev in Hl.
  destruct r'; [now rewrite app_nil_r | cbn [List.length] in Hl; lia].
Qed.

Lemma subsequence_filter {A} (f : A -> bool) (l : list A) :
  subsequence (filter f l) l.
Proof.
  induction l as [| x l IH]; simpl; [constructor |].
  destruct (f x); now constructor.
Qed.

End RecentLists.

Section MainWindowFacts.
Import MainWindow.
Context {H : Host}.

Lemma store_store {V} (k : pystr) (v v' : V) (o : list (pystr * V)) :
  store k v (store k v' o) = store k v o.
Proof.
  induction o as [| [k0 v0] o IH]; simpl.
  - now rewrite str_eqb_refl.
  - destruct (str_eqb k0 k) eqn:E; simpl.
    + now rewrite str_eqb_refl.
    + now rewrite E, IH.
Qed.

Lemma slice_to_firstn {A} (s : list A) (i : Z) :
  0 <= i -> slice_to s i = firstn (Z.to_nat i) s.
Proof.
  intros Hi. unfold slice_to, slice_index.
  destruct (Z.ltb_spec i 0); [lia |].
  destruct (Z.le_ge_cases i (len s)).
  - now rewrite Z.min_l.
  - rewrite Z.min_r by assumption. unfold len in *.
    rewrite !firstn_all2; try reflexivity; lia.
Qed.

Lemma has_recent_with_recent (l : list pystr) (mw : t) :
  has_recent (with_recent l mw) l.
Proof. apply (lookup_store_eq (V := pyval)). Qed.

Lemma with_recent_twice (l l' : list pystr) (mw : t) :
  with_recent l (with_recent l' mw) = with_recent l mw.
Proof.
  unfold with_recent, set_state. cbn [state tabs]. now rewrite store_store.
Qed.

Lemma recent_files_run (w : World) (mw : t) (l : list pystr) :
  has_recent mw l -> recent_files (w, mw) = ((w, mw), Ok (map PStr l)).
Proof.
  unfold has_recent, recent_files, bindM, self, lift, getattr.
  intros ->. reflexivity.
Qed.

Lemma set_recent_files_run (w : World) (mw : t) (l : list pystr) :
  set_recent_files (map PStr l) (w, mw) = ((w, with_recent l mw), Ok tt).
Proof. reflexivity. Qed.

Lemma save_run (w : World) (mw : t) :
  save (w, mw) = ((fst (save_state (state mw) w), mw), Ok tt).
Proof.
  unfold save, bindM, self, on_world. rewrite save_state_run.
  destruct (json_dumps (PDict (state mw))); reflexivity.
Qed.

(** [_add_recent] on a state that lists strings: it returns, the list
    becomes [added p l] for the resolved path [p], and the state is
    saved. *)
Lemma add_recent_run (path : pystr) (w : World) (mw : t) (l : list pystr) :
  has_recent mw l ->
  let mw' := with_recent (added (resolve w path) l) mw in
  _add_recent path (w, mw) = ((fst (save_state (state mw') w), mw'), Ok tt).
Proof.
  intros Hl mw'. unfold _add_recent.
  unfold bindM at 1. unfold ask_world at 1.
  set (p := resolve w path) in *.
  unfold bindM at 1. rewrite (recent_files_run w mw l Hl).
  assert (Hstep : exists mw1,
    (if existsb (eq_str p) (map PStr l)
     then r <~ lift (list_remove p (map PStr l)) ;; set_recent_files r
     else ret tt) (w, mw) = ((w, mw1), Ok tt) /\
    has_recent mw1 (without_first p l) /\
    with_recent (added p l) mw1 = mw').
  { destruct (existsb (eq_str p) (map PStr l)) eqn:E.
    - apply existsb_eq_str in E.
      exists (with_recent (without_first p l) mw). repeat split.
      + unfold bindM, lift. rewrite (list_remove_strings p l E).
        apply set_recent_files_run.
      + apply has_recent_with_recent.
      + apply with_recent_twice.
    - exists mw. repeat split.
      rewrite without_first_absent; [assumption |].
      intros Hin. apply existsb_eq_str in Hin. congruence. }
  destruct Hstep as (mw1 & E1 & Hl1 & Hmw1).
  unfold bindM at 1. rewrite E1.
  unfold bindM at 1. rewrite (recent_files_run w mw1 _ Hl1).
  unfold bindM at 1.
  change (PStr p :: map PStr (without_first p l))
    with (map PStr (p :: without_first p l)).
  rewrite set_recent_files_run.
  unfold bindM at 1.
  rewrite (recent_files_run w _ _ (has_recent_with_recent _ _)).
  unfold bindM at 1.
  rewrite slice_to_firstn by lia.
  change (Z.to_nat 10) with 10%nat. rewrite firstn_map.
  fold (added p l).
  rewrite set_recent_files_run, with_recent_twice, Hmw1.
  apply save_run.
Qed.

(** [_clear_recent] empties the list and saves. *)
Lemma clear_recent_run (w : World) (mw : t) :
  _clear_recent (w, mw)
  = ((fst (save_state (state (with_recent [] mw)) w), with_recent [] mw),
     Ok tt).
Proof.
  unfold _clear_recent, bindM.
  change (@nil pyval) with (map PStr []).
  rewrite set_recent_files_run. apply save_run.
Qed.

End MainWindowFacts.

Section RecentFiles.
Import MainWindow.
Context {H : Host}.

Lemma add_each_run (ps : list pystr) :
  (forall w q, In q ps -> resolve w q = q) ->
  forall w mw l,
    has_recent mw l ->
    exists w' mw',
      add_each ps (w, mw) = ((w', mw'), Ok tt) /\
      has_recent mw' (fold_left (fun l p => added p l) ps l).
Proof.
  induction ps as [| p ps IH]; intros Hres w mw l Hl.
  - exists w, mw. split; [reflexivity | assumption].
  - cbn [add_each fold_left]. unfold bindM.
    rewrite (add_recent_run p w mw l Hl).
    rewrite (Hres w p) by now left.
    apply IH.
    + intros w0 q Hq. apply Hres. now right.
    + apply has_recent_with_recent.
Qed.

(** C3.  On a state whose recent files are strings without duplicates,
    [_add_recent] resolves the path, takes its occurrence out of the list,
    puts it in front and keeps the first 10 entries; the list it leaves
    has at most 10 entries, no duplicates, and the new path first.  So
    the list a, b with the path a again stays a, b, and eleven distinct
    paths one after the other leave the ten newest, the newest first. *)
Theorem add_recent_spec (path : pystr) (w : World) (mw : t)
    (l : list pystr) :
  has_recent mw l ->
  NoDup l ->
  (exists w' mw',
      _add_recent path (w, mw) = ((w', mw'), Ok tt) /\
      has_recent mw' (recordRecentFile (resolve w path) l) /\
      (List.length (recordRecentFile (resolve w path) l) <= 10)%nat /\
      NoDup (recordRecentFile (resolve w path) l) /\
      hd_error (recordRecentFile (resolve w path) l) = Some (resolve w path))
  /\ (forall a b,
      l = [a; b] -> path = a -> resolve w a = a ->
      exists w' mw',
        _add_recent path (w, mw) = ((w', mw'), Ok tt) /\
        has_recent mw' [a; b])
  /\ (forall oldest rest,
      NoDup (oldest :: rest) -> List.length rest = 10%nat ->
      (forall w q, In q (oldest :: rest) -> resolve w q = q) ->
      exists w' mw',
        add_each (oldest :: rest) (w, mw) = ((w', mw'), Ok tt) /\
        has_recent mw' (rev rest)).
Proof.
  intros Hl Hnd. repeat apply conj.
  - do 2 eexists. split; [apply (add_recent_run path w mw l Hl) |].
    rewrite (added_recordRecentFile _ _ Hnd). repeat apply conj.
    + apply has_recent_with_recent.
    + unfold recordRecentFile. rewrite length_firstn. lia.
    + now apply NoDup_recordRecentFile.
    + reflexivity.
  - intros a b -> -> Ha. do 2 eexists.
    split; [apply (add_recent_run a w mw [a; b] Hl) |].
    rewrite Ha.
    replace (added a [a; b]) with [a; b]; [apply has_recent_with_recent |].
    unfold added. cbn [without_first]. now rewrite str_eqb_refl.
  - intros oldest rest Hps Hlen Hres.
    destruct (add_each_run (oldest :: rest) Hres w mw l Hl)
      as (w' & mw' & E & Hl').
    exists w', mw'. split; [exact E |].
    rewrite added_ten_most_recent in Hl'
      by (cbn [List.length]; auto; lia).
    cbn [rev] in Hl'. rewrite firstn_app, firstn_all2 in Hl'
      by (rewrite length_rev; lia).
    rewrite length_rev, Hlen in Hl'. cbn [Nat.sub firstn] in Hl'.
    now rewrite app_nil_r in Hl'.
Qed.

Lemma filter_eq_str (path : pystr) (l : list pystr) :
  filter (fun p => negb (eq_str path p)) (map PStr l)
  = map PStr (filter (fun q => negb (str_eqb q path)) l).
Proof.
  induction l as [| q l IH]; [reflexivity |].
  cbn [filter map eq_str]. destruct (str_eqb q path); cbn [negb map];
    now rewrite IH.
Qed.

Lemma open_recent_missing_run (path : pystr) (w : World) (mw : t)
    (l : list pystr) :
  has_recent mw l ->
  path_exists w path = Ok false ->
  let mw' := with_recent (filter (fun q => negb (str_eqb q path)) l) mw in
  _open_recent path (w, mw) = ((fst (save_state (state mw') w), mw'), Ok tt).
Proof.
  intros Hl Hex mw'. unfold _open_recent.
  unfold bindM at 1. unfold ask_world at 1. rewrite Hex. cbn [negb].
  unfold bindM at 1. rewrite (recent_files_run w mw l Hl).
  unfold bindM at 1. rewrite filter_eq_str.
  rewrite set_recent_files_run. apply save_run.
Qed.

(** A tab is made as [new], or not at all. *)
Lemma init_new (state : obj) (tab : DocumentTab.t) :
  DocumentTab.__init__ state = Ok tab -> tab = DocumentTab.new.
Proof.
  unfold DocumentTab.__init__, bind.
  destruct (DocumentTab.apply_font state); [| discriminate].
  destruct (getattr state (py "word_wrap")); [| discriminate].
  congruence.
Qed.

Lemma new_tab_run (w : World) (mw : t) :
  new_tab (w, mw) =
    match DocumentTab.__init__ (state mw) with
    | Ok tab => ((w, set_tabs (tabs mw ++ [tab]) mw), Ok tt)
    | Raise e => ((w, mw), Raise e)
    end.
Proof.
  unfold new_tab, bindM, self, lift, on_self.
  destruct (DocumentTab.__init__ (state mw)); reflexivity.
Qed.

Lemma on_last_tab_load (path : pystr) (w : World) (mw : t)
    (tab : DocumentTab.t) :
  on_last_tab (DocumentTab.load_file path)
    (w, set_tabs (tabs mw ++ [tab]) mw) =
    match read_text_replace w path with
    | Ok s =>
        ((w, set_tabs
               (tabs mw ++ [{| DocumentTab.path := Some path;
                               DocumentTab.text := plain_text s;
                               DocumentTab.modified := false |}]) mw),
         Ok (Some tt))
    | Raise e => ((w, set_tabs (tabs mw ++ [tab]) mw), Raise e)
    end.
Proof.
  unfold on_last_tab. cbn [tabs set_tabs].
  rewrite rev_app_distr. cbn [rev app]. rewrite load_file_run.
  destruct (read_text_replace w path) as [s | e];
    unfold set_tabs; cbn [state tabs rev]; now rewrite rev_involutive.
Qed.

(** [_open_recent] of a path that is there: the tab is made, and then the
    file is read into it. *)
Lemma open_recent_present_run (path : pystr) (w : World) (mw : t) :
  path_exists w path = Ok true ->
  _open_recent path (w, mw) =
    match DocumentTab.__init__ (state mw) with
    | Ok tab =>
        match read_text_replace w path with
        | Ok s =>
            ((w, set_tabs
                   (tabs mw ++ [{| DocumentTab.path := Some path;
                                   DocumentTab.text := plain_text s;
                                   DocumentTab.modified := false |}]) mw),
             Ok tt)
        | Raise e => ((w, set_tabs (tabs mw ++ [tab]) mw), Raise e)
        end
    | Raise e => ((w, mw), Raise e)
    end.
Proof.
  intros Hex. unfold _open_recent.
  unfold bindM at 1. unfold ask_world at 1. rewrite Hex. cbn [negb].
  unfold bindM at 1. rewrite new_tab_run.
  destruct (DocumentTab.__init__ (state mw)) as [tab | e]; [| reflexivity].
  unfold bindM. rewrite on_last_tab_load.
  destruct (read_text_replace w path); reflexivity.
Qed.

Lemma open_recent_refused_run (path : pystr) (w : World) (mw : t) (e : exn) :
  path_exists w path = Raise e ->
  _open_recent path (w, mw) = ((w, mw), Raise e).
Proof.
  intros Hex. unfold _open_recent, bindM, ask_world. now rewrite Hex.
Qed.

(** C4, as the code has it.  When the selected path does not exist,
    [_open_recent] takes out of the recent files exactly the entries equal
    to that path, every occurrence of it, leaves the others as they are
    and in their order, and saves the state; no other entry is looked up.
    When the path exists, and when the look-up raises, the recent files
    stay as they are. *)
Theorem open_recent_prunes_selected_path (path : pystr) (w : World) (mw : t)
    (l : list pystr) :
  has_recent mw l ->
  (path_exists w path = Ok false ->
   exists w' l',
     _open_recent path (w, mw) = ((w', with_recent l' mw), Ok tt) /\
     l' = filter (fun q => negb (str_eqb q path)) l /\
     w' = fst (save_state (state (with_recent l' mw)) w) /\
     (forall q, In q l' <-> In q l /\ q <> path) /\
     subsequence l' l)
  /\ ((path_exists w path = Ok true \/
       exists e, path_exists w path = Raise e) ->
      exists w' mw' r,
        _open_recent path (w, mw) = ((w', mw'), r) /\ has_recent mw' l).
Proof.
  intros Hl. split; intros Hex.
  - do 2 eexists. split; [apply (open_recent_missing_run path w mw l Hl Hex) |].
    split; [reflexivity |]. split; [reflexivity |].
    split; [| apply subsequence_filter].
    intros q. rewrite filter_In. rewrite negb_true_iff, str_eqb_neq.
    reflexivity.
  - destruct Hex as [Hex | [e Hex]].
    + rewrite (open_recent_present_run path w mw Hex).
      destruct (DocumentTab.__init__ (state mw)) as [tab | e];
        [destruct (read_text_replace w path) |];
        do 3 eexists; (split; [reflexivity | exact Hl]).
    + rewrite (open_recent_refused_run path w mw e Hex).
      do 3 eexists. split; [reflexivity | exact Hl].
Qed.

End RecentFiles.

(** ** The reference codec

    What [json.dumps] writes for a state [json.loads] reads back, as long
    as no string holds a high surrogate directly before a low one and the
    font size has no more than 4300 digits. *)

Section ReferenceCodec.
Import Reference.
#[local] Existing Instance host.

(** *** Strings *)

Lemma hex_value_hex_digit (d : N) :
  (d < 16)%N -> hex_value (hex_digit d) = Some d.
Proof.
  intros Hd.
  assert (Hc : In d [0; 1; 2; 3; 4; 5; 6; 7; 8; 9; 10; 11; 12; 13; 14; 15]%N).
  { cbn [In]. lia. }
  cbn [In] in Hc.
  repeat (destruct Hc as [<- | Hc]; [reflexivity |]). destruct Hc.
Qed.

Lemma hex4_u_escape (c : N) (r : pystr) :
  (c < 65536)%N -> hex4 (skipn 2 (u_escape c) ++ r) = Some (c, r).
Proof.
  intros Hc. unfold u_escape. cbn [skipn app hex4].
  rewrite !N.shiftr_div_pow2.
  change (2 ^ 12)%N with 4096%N. change (2 ^ 8)%N with 256%N.
  change (2 ^ 4)%N with 16%N.
  rewrite !hex_value_hex_digit by (apply N.mod_upper_bound; discriminate).
  f_equal. f_equal.
  zify. Z.to_euclidean_division_equations. lia.
Qed.

Lemma parse_chars_plain (fuel : nat) (c : N) (r acc : pystr) :
  c <> 34%N -> c <> 92%N -> (32 <= c)%N ->
  parse_chars (S fuel) (c :: r) acc = parse_chars fuel r (c :: acc).
Proof.
  intros H34 H92 H32. destruct c as [| p]; [lia |].
  do 7 (try destruct p as [p | p |]); try reflexivity; try lia; congruence.
Qed.

(** After the escape of [c], when what follows is not taken with it. *)
Lemma parse_chars_u_other (fuel : nat) (c a : N) (r acc : pystr) :
  (c < 65536)%N -> a <> 92%N ->
  parse_chars (S fuel) (u_escape c ++ a :: r) acc
  = parse_chars fuel (a :: r) (c :: acc).
Proof.
  intros Hc Ha.
  change (u_escape c ++ a :: r)
    with (92%N :: 117%N :: skipn 2 (u_escape c) ++ a :: r).
  cbn [parse_chars]. rewrite hex4_u_escape by assumption.
  destruct a as [| p]; [reflexivity |].
  do 7 (try destruct p as [p | p |]); try reflexivity; congruence.
Qed.

Lemma parse_chars_u_short (fuel : nat) (c b : N) (r acc : pystr) :
  (c < 65536)%N -> b <> 117%N ->
  parse_chars (S fuel) (u_escape c ++ 92%N :: b :: r) acc
  = parse_chars fuel (92%N :: b :: r) (c :: acc).
Proof.
  intros Hc Hb.
  change (u_escape c ++ 92%N :: b :: r)
    with (92%N :: 117%N :: skipn 2 (u_escape c) ++ 92%N :: b :: r).
  cbn [parse_chars]. rewrite hex4_u_escape by assumption.
  destruct b as [| p]; [reflexivity |].
  do 7 (try destruct p as [p | p |]); try reflexivity; congruence.
Qed.

Lemma parse_chars_u_u (fuel : nat) (c d : N) (r acc : pystr) :
  (c < 65536)%N -> (d < 65536)%N -> is_high c && is_low d = false ->
  parse_chars (S fuel) (u_escape c ++ u_escape d ++ r) acc
  = parse_chars fuel (u_escape d ++ r) (c :: acc).
Proof.
  intros Hc Hd Hj.
  change (u_escape c ++ u_escape d ++ r)
    with (92%N :: 117%N :: skipn 2 (u_escape c)
            ++ 92%N :: 117%N :: skipn 2 (u_escape d) ++ r).
  cbn [parse_chars]. rewrite hex4_u_escape by assumption.
  rewrite hex4_u_escape by assumption.
  unfold is_high, is_low in Hj. rewrite andb_assoc in Hj. now rewrite Hj.
Qed.

Lemma parse_chars_pair (fuel : nat) (c : N) (r acc : pystr) :
  (65536 <= c < 1114112)%N ->
  parse_chars (S fuel) (escape_char c ++ r) acc
  = parse_chars fuel r (c :: acc).
Proof.
  intros Hc. unfold escape_char.
  repeat match goal with
         | |- context [(c =? ?k)%N] =>
             destruct (N.eqb_spec c k); [lia |]
         end.
  destruct (N.leb_spec 32 c); [| lia].
  destruct (N.leb_spec c 126); [lia |]. cbn [andb].
  destruct (N.ltb_spec c 65536); [lia |]. cbv zeta.
  rewrite N.shiftr_div_pow2. change (2 ^ 10)%N with 1024%N.
  set (hi := (55296 + (c - 65536) / 1024 mod 1024)%N).
  set (lo := (56320 + (c - 65536) mod 1024)%N).
  assert (Hhi : (55296 <= hi <= 56319)%N)
    by (subst hi; zify; Z.to_euclidean_division_equations; lia).
  assert (Hlo : (56320 <= lo <= 57343)%N)
    by (subst lo; zify; Z.to_euclidean_division_equations; lia).
  rewrite <- app_assoc.
  change (u_escape hi ++ u_escape lo ++ r)
    with (92%N :: 117%N :: skipn 2 (u_escape hi)
            ++ 92%N :: 117%N :: skipn 2 (u_escape lo) ++ r).
  cbn [parse_chars]. rewrite hex4_u_escape by lia.
  rewrite hex4_u_escape by lia.
  destruct (N.leb_spec 55296 hi); [| lia].
  destruct (N.leb_spec hi 56319); [| lia].
  destruct (N.leb_spec 56320 lo); [| lia].
  destruct (N.leb_spec lo 57343); [| lia]. cbn [andb].
  f_equal. f_equal. subst hi lo.
  zify. Z.to_euclidean_division_equations. lia.
Qed.


(** A character is written as its [\u] escape, or as text that is read
    back as the character whatever follows. *)
Lemma escape_char_class (d : N) :
  (d < 1114112)%N ->
  (escape_char d = u_escape d /\ (d < 65536)%N) \/
  (forall fuel r acc,
      parse_chars (S fuel) (escape_char d ++ r) acc
      = parse_chars fuel r (d :: acc)).
Proof.
  intros Hd. destruct (N.ltb_spec d 65536) as [Hs | Hs];
    [| right; intros; apply parse_chars_pair; lia].
  unfold escape_char.
  repeat match goal with
         | |- context [(d =? ?k)%N] =>
             destruct (N.eqb_spec d k) as [-> | ?];
             [right; intros; reflexivity |]
         end.
  destruct (N.leb_spec 32 d); cbn [andb].
  - destruct (N.leb_spec d 126).
    + right. intros. now apply parse_chars_plain.
    + destruct (N.ltb_spec d 65536); [| lia]. now left.
  - destruct (N.ltb_spec d 65536); [| lia]. now left.
Qed.

(** The escape of [c] is read as [c] when the character after it is not
    a low surrogate after a high one. *)
Lemma parse_chars_u_char (fuel : nat) (c d : N) (r acc : pystr) :
  (c < 65536)%N -> (d < 1114112)%N -> is_high c && is_low d = false ->
  parse_chars (S fuel) (u_escape c ++ escape_char d ++ r) acc
  = parse_chars fuel (escape_char d ++ r) (c :: acc).
Proof.
  intros Hc Hd Hj. unfold escape_char.
  repeat match goal with
         | |- context [(d =? ?k)%N] =>
             destruct (N.eqb_spec d k) as [-> | ?];
             [apply parse_chars_u_short; [assumption | discriminate] |]
         end.
  destruct (N.leb_spec 32 d); cbn [andb];
    [destruct (N.leb_spec d 126) |];
    [now apply parse_chars_u_other | |];
    (destruct (N.ltb_spec d 65536);
     [now apply parse_chars_u_u |]); cbv zeta;
    rewrite <- app_assoc; apply parse_chars_u_u; try assumption;
    rewrite N.shiftr_div_pow2; change (2 ^ 10)%N with 1024%N;
    try (zify; Z.to_euclidean_division_equations; lia);
    (replace (is_low _) with false; [apply andb_false_r |]);
    symmetry; unfold is_low; apply andb_false_iff; left;
    apply N.leb_gt; zify; Z.to_euclidean_division_equations; lia.
Qed.

Lemma parse_chars_u_follow (fuel : nat) (c : N) (s rest acc : pystr) :
  (c < 65536)%N ->
  forallb (fun c => c <? 1114112)%N s = true ->
  match s with
  | d :: _ => is_high c && is_low d
  | [] => false
  end = false ->
  parse_chars (S fuel) (u_escape c ++ flat_map escape_char s ++ 34%N :: rest)
    acc
  = parse_chars fuel (flat_map escape_char s ++ 34%N :: rest) (c :: acc).
Proof.
  intros Hc Hs Hj. destruct s as [| d s].
  - apply parse_chars_u_other; [assumption | discriminate].
  - cbn [flat_map forallb] in *. apply andb_prop in Hs as [Hd _].
    apply N.ltb_lt in Hd. rewrite <- app_assoc.
    now apply parse_chars_u_char.
Qed.

(** A storable string in quotes is read back as it is. *)
Lemma parse_chars_escaped (s : pystr) :
  forall fuel acc rest,
    forallb (fun c => c <? 1114112)%N s = true ->
    has_pair s = false ->
    (List.length s < fuel)%nat ->
    parse_chars fuel (flat_map escape_char s ++ 34%N :: rest) acc
    = Ok (rev acc ++ s, rest).
Proof.
  induction s as [| d s IH]; intros fuel acc rest Hs Hp Hf;
    (destruct fuel as [| fuel]; [cbn [List.length] in Hf; lia |]).
  - cbn [flat_map app parse_chars]. now rewrite app_nil_r.
  - cbn [forallb] in Hs. apply andb_prop in Hs as [Hd Hs].
    apply N.ltb_lt in Hd.
    assert (Hj : match s with
                 | d' :: _ => is_high d && is_low d'
                 | [] => false
                 end = false /\ has_pair s = false).
    { cbn [has_pair] in Hp. destruct s as [| d' s]; [now split |].
      now apply orb_false_iff in Hp. }
    destruct Hj as [Hj Hp'].
    assert (E : parse_chars (S fuel)
                  (flat_map escape_char (d :: s) ++ 34%N :: rest) acc
                = parse_chars fuel (flat_map escape_char s ++ 34%N :: rest)
                    (d :: acc)).
    { cbn [flat_map]. rewrite <- app_assoc.
      destruct (escape_char_class d Hd) as [[E Hd'] | Hself].
      - rewrite E. now apply parse_chars_u_follow.
      - apply Hself. }
    rewrite E, IH by (try assumption; cbn [List.length] in Hf; lia).
    cbn [rev]. now rewrite <- app_assoc.
Qed.

Lemma length_escaped (s : pystr) :
  (List.length s <= List.length (flat_map escape_char s))%nat.
Proof.
  induction s as [| d s IH]; [reflexivity |].
  cbn [flat_map List.length]. rewrite length_app.
  assert (1 <= List.length (escape_char d))%nat; [| lia].
  unfold escape_char, u_escape.
  repeat match goal with
         | |- context [if ?b then _ else _] => destruct b
         end; cbv zeta; cbn [List.length app]; lia.
Qed.

Lemma storable_str_spec (s : pystr) :
  storable_str s = true ->
  forallb (fun c => c <? 1114112)%N s = true /\ has_pair s = false.
Proof.
  unfold storable_str. intros Hs. apply andb_prop in Hs as [Ht Hp].
  split; [exact Ht | now apply negb_true_iff].
Qed.

Lemma parse_string_quote (s rest : pystr) :
  storable_str s = true ->
  parse_string (flat_map escape_char s ++ 34%N :: rest) = Ok (s, rest).
Proof.
  intros Hs. apply storable_str_spec in Hs as [Ht Hp].
  unfold parse_string. apply (parse_chars_escaped s _ []); try assumption.
  rewrite length_app. cbn [List.length]. pose proof (length_escaped s). lia.
Qed.


(** *** Numbers *)

Lemma take_digits_all (ds rest : pystr) :
  forallb is_digit ds = true ->
  take_digits (ds ++ 10%N :: rest) = (ds, 10%N :: rest).
Proof.
  induction ds as [| c ds IH]; intros Hds; [reflexivity |].
  cbn [forallb] in Hds. apply andb_prop in Hds as [Hc Hds].
  cbn [app take_digits]. now rewrite Hc, IH.
Qed.

Lemma parse_number_digits (c : N) (ds rest : pystr) :
  In c nonzero_digits ->
  forallb is_digit ds = true ->
  parse_number (c :: ds ++ 10%N :: rest)
  = (if len (c :: ds) <=? max_str_digits
     then Ok (PInt (digits_value (c :: ds)), 10%N :: rest)
     else Raise ValueError) /\
  parse_number (45%N :: c :: ds ++ 10%N :: rest)
  = (if len (c :: ds) <=? max_str_digits
     then Ok (PInt (- digits_value (c :: ds)), 10%N :: rest)
     else Raise ValueError).
Proof.
  intros Hc Hds.
  assert (Ht : take_digits (c :: ds ++ 10%N :: rest)
               = (c :: ds, 10%N :: rest)).
  { apply (take_digits_all (c :: ds)). cbn [forallb]. rewrite Hds.
    cbn [In nonzero_digits] in Hc.
    repeat (destruct Hc as [<- | Hc]; [reflexivity |]). destruct Hc. }
  unfold parse_number. cbn [In nonzero_digits] in Hc.
  repeat (destruct Hc as [<- | Hc];
          [split; cbv beta iota zeta; rewrite Ht; cbv beta iota zeta;
           cbn [N.eqb Pos.eqb orb]; reflexivity |]).
  destruct Hc.
Qed.

Lemma digits_of_digits (d : Decimal.uint) :
  forallb is_digit (digits_of d) = true.
Proof. induction d; cbn; auto. Qed.

Lemma digits_value_acc (d : Decimal.uint) :
  forall a : positive,
    fold_left (fun acc c => 10 * acc + Z.of_N (c - 48)) (digits_of d)
      (Z.pos a)
    = Z.pos (Pos.of_uint_acc d a).
Proof.
  induction d; intros a; cbn [Pos.of_uint_acc]; [reflexivity | ..];
    rewrite <- IHd; unfold digits_of;
    cbn [NilEmpty.string_of_uint py list_ascii_of_string map fold_left];
    f_equal;
    match goal with
    | |- context [N_of_ascii ?a] =>
        let v := eval vm_compute in (N_of_ascii a) in
        change (N_of_ascii a) with v
    end; lia.
Qed.

Lemma digits_value_of (d : Decimal.uint) :
  digits_value (digits_of d) = Z.of_N (Pos.of_uint d).
Proof.
  unfold digits_value. induction d; cbn [Pos.of_uint];
    [reflexivity | exact IHd | ..];
    match goal with
    | |- _ = Z.of_N (N.pos (Pos.of_uint_acc _ ?k)) =>
        exact (digits_value_acc d k)
    end.
Qed.

Lemma to_uint_head (p : positive) :
  exists c ds,
    digits_of (Pos.to_uint p) = c :: ds /\ In c nonzero_digits /\
    forallb is_digit ds = true.
Proof.
  pose proof (digits_of_digits (Pos.to_uint p)) as Hd.
  assert (Hn : forall d, Pos.to_uint p <> Decimal.D0 d).
  { intros d E.
    assert (Eu : Decimal.unorm (Pos.to_uint p) = Pos.to_uint p).
    { rewrite <- DecimalPos.Unsigned.to_of, DecimalPos.Unsigned.of_to.
      reflexivity. }
    destruct (Decimal.nzhead (Pos.to_uint p)) eqn:Ez;
      [apply DecimalFacts.unorm_0 in Ez; rewrite Eu in Ez;
       now apply DecimalPos.Unsigned.to_uint_nonzero in Ez | ..];
      apply (DecimalFacts.nzhead_nonzero (Pos.to_uint p) d);
      rewrite <- DecimalFacts.unorm_nzhead by (rewrite Ez; discriminate);
      now rewrite Eu. }
  pose proof (DecimalPos.Unsigned.to_uint_nonnil p) as Hnil.
  destruct (Pos.to_uint p) as [| d | d | d | d | d | d | d | d | d | d];
    [congruence | now contradiction (Hn d) | ..];
    unfold digits_of in *; cbn in Hd |- *;
    do 2 eexists; (split; [reflexivity |]);
    (split; [cbn; tauto | exact Hd]).
Qed.


Lemma decimal_shape (n : Z) :
  len (decimal (Z.abs n)) <= max_str_digits ->
  forall rest,
    parse_number (decimal n ++ 10%N :: rest) = Ok (PInt n, 10%N :: rest) /\
    exists c r,
      decimal n ++ 10%N :: rest = c :: r /\
      In c (45 :: 48 :: nonzero_digits)%N /\
      (c = 45%N -> exists c' r', r = c' :: r' /\ In c' nonzero_digits).
Proof.
  assert (Hd : forall p, decimal (Z.pos p) = digits_of (Pos.to_uint p)).
  { intros p. unfold decimal, digits_of. cbn [Z.to_int NilZero.string_of_int].
    pose proof (DecimalPos.Unsigned.to_uint_nonnil p) as Hnil.
    unfold NilZero.string_of_uint.
    destruct (Pos.to_uint p); [congruence | reflexivity ..]. }
  assert (Hv : forall p, digits_value (digits_of (Pos.to_uint p)) = Z.pos p).
  { intros p.
    now rewrite digits_value_of, DecimalPos.Unsigned.of_to. }
  assert (Hneg : forall p, decimal (Z.neg p) = 45%N :: decimal (Z.pos p)).
  { intros p. reflexivity. }
  intros Hlen rest. destruct n as [| p | p].
  - split; [reflexivity |]. do 2 eexists. split; [reflexivity |].
    split; [cbn; tauto | discriminate].
  - cbn [Z.abs] in Hlen. rewrite Hd in *.
    destruct (to_uint_head p) as (c & ds & E & Hc & Hds).
    specialize (Hv p). rewrite E in *. cbn [app]. split.
    + rewrite (proj1 (parse_number_digits c ds rest Hc Hds)).
      destruct (Z.leb_spec (len (c :: ds)) max_str_digits); [| lia].
      now rewrite Hv.
    + do 2 eexists. split; [reflexivity |]. split; [now do 2 right |].
      intros ->. now cbn in Hc; intuition discriminate.
  - cbn [Z.abs] in Hlen. rewrite Hneg, Hd in *.
    destruct (to_uint_head p) as (c & ds & E & Hc & Hds).
    specialize (Hv p). rewrite E in *. cbn [app]. split.
    + rewrite (proj2 (parse_number_digits c ds rest Hc Hds)).
      destruct (Z.leb_spec (len (c :: ds)) max_str_digits); [| lia].
      now rewrite Hv.
    + do 2 eexists. split; [reflexivity |]. split; [now left |].
      intros _. eauto.
Qed.

Lemma parse_value_number (fuel : nat) (c : N) (r : pystr) :
  In c (45 :: 48 :: nonzero_digits)%N ->
  (c = 45%N -> exists c' r', r = c' :: r' /\ In c' nonzero_digits) ->
  parse_value (S fuel) (c :: r) = parse_number (c :: r) /\
  skip_ws (32%N :: c :: r) = c :: r.
Proof.
  intros Hc Hneg. cbn [In nonzero_digits] in Hc.
  destruct Hc as [<- | Hc].
  - destruct (Hneg eq_refl) as (c' & r' & -> & Hc').
    cbn [In nonzero_digits] in Hc'.
    repeat (destruct Hc' as [<- | Hc']; [split; reflexivity |]).
    destruct Hc'.
  - repeat (destruct Hc as [<- | Hc]; [split; reflexivity |]). destruct Hc.
Qed.

(** *** Values *)

Lemma parse_value_string (fuel : nat) (s rest : pystr) :
  storable_str s = true ->
  parse_value (S fuel) (quote s ++ rest) = Ok (PStr s, rest).
Proof.
  intros Hs. unfold quote. cbn [app]. rewrite <- app_assoc.
  cbn [app parse_value]. now rewrite parse_string_quote.
Qed.


Lemma join_quotes_head (sep : pystr) (s : pystr) (l : list pystr)
    (rest : pystr) :
  exists r, join sep (map quote (s :: l)) ++ rest = 34%N :: r.
Proof.
  destruct l; cbn [map join]; unfold quote; cbn [app]; eauto.
Qed.

Lemma parse_elements_strings (l : list pystr) :
  forall acc fuel rest,
    l <> [] ->
    forallb storable_str l = true ->
    (2 * List.length l <= fuel)%nat ->
    parse_elements fuel
      (join [44; 10; 32; 32; 32; 32]%N (map quote l)
         ++ 10%N :: 32%N :: 32%N :: 93%N :: rest) acc
    = Ok (PList (rev acc ++ map PStr l), rest).
Proof.
  induction l as [| s l IH]; [congruence |].
  intros acc fuel rest _ Hs Hf.
  destruct fuel as [| fuel]; [cbn [List.length] in Hf; lia |].
  cbn [forallb] in Hs. apply andb_prop in Hs as [Hs Hl].
  destruct l as [| s2 l].
  - cbn [map join parse_elements].
    destruct fuel as [| fuel]; [cbn [List.length] in Hf; lia |].
    rewrite parse_value_string by assumption.
    reflexivity.
  - set (sep := [44; 10; 32; 32; 32; 32]%N) in *.
    change (join sep (map quote (s :: s2 :: l)))
      with (quote s ++ sep ++ join sep (map quote (s2 :: l))).
    rewrite <- !app_assoc. cbn [parse_elements].
    destruct fuel as [| fuel]; [cbn [List.length] in Hf; lia |].
    rewrite parse_value_string by assumption.
    set (tail := join sep (map quote (s2 :: l))
                   ++ 10%N :: 32%N :: 32%N :: 93%N :: rest).
    assert (Esk : skip_ws (10%N :: 32%N :: 32%N :: 32%N :: 32%N :: tail)
                  = tail).
    { subst tail. destruct (join_quotes_head sep s2 l
                              (10%N :: 32%N :: 32%N :: 93%N :: rest))
        as [r ->]. reflexivity. }
    subst sep. cbn [bind app].
    change (skip_ws (44%N :: ?r)) with (44%N :: r). cbn [bind].
    rewrite Esk. subst tail.
    rewrite IH; [| discriminate | assumption | cbn [List.length] in *; lia].
    cbn [rev map]. now rewrite <- app_assoc.
Qed.

Lemma dumps_strings (s : pystr) (l : list pystr) :
  dumps_at 1 (PList (map PStr (s :: l)))
  = 91%N :: 10%N :: 32%N :: 32%N :: 32%N :: 32%N
      :: join [44; 10; 32; 32; 32; 32]%N (map quote (s :: l))
      ++ [10; 32; 32; 93]%N.
Proof.
  cbn [map dumps_at]. rewrite map_map. cbn [dumps_at].
  change (py "[" ++ newline 2) with [91; 10; 32; 32; 32; 32]%N.
  change (py "," ++ newline 2) with [44; 10; 32; 32; 32; 32]%N.
  change (newline 1 ++ py "]") with [10; 32; 32; 93]%N.
  reflexivity.
Qed.

Lemma parse_value_strings (fuel : nat) (l : list pystr) (rest : pystr) :
  forallb storable_str l = true ->
  (2 * List.length l < fuel)%nat ->
  parse_value fuel (dumps_at 1 (PList (map PStr l)) ++ rest)
  = Ok (PList (map PStr l), rest).
Proof.
  intros Hl Hf. destruct fuel as [| fuel]; [lia |].
  destruct l as [| s l]; [reflexivity |].
  rewrite dumps_strings. cbn [app]. rewrite <- app_assoc. cbn [app].
  cbn [parse_value].
  destruct (join_quotes_head [44; 10; 32; 32; 32; 32]%N s l
              (10%N :: 32%N :: 32%N :: 93%N :: rest)) as [r Er].
  assert (Esk : skip_ws (10%N :: 32%N :: 32%N :: 32%N :: 32%N
                           :: join [44; 10; 32; 32; 32; 32]%N
                                (map quote (s :: l))
                           ++ 10%N :: 32%N :: 32%N :: 93%N :: rest)
                = 34%N :: r) by (rewrite Er; reflexivity).
  rewrite Esk. cbn [bind]. rewrite <- Er.
  now rewrite parse_elements_strings by (try discriminate; assumption || lia).
Qed.

Lemma length_join_quotes (sep : pystr) (l : list pystr) :
  (List.length l <= List.length (join sep (map quote l)))%nat.
Proof.
  induction l as [| s [| s2 l] IH];
    [apply Nat.le_refl
    | cbn [map join List.length]; unfold quote; cbn [List.length]; lia |].
  change (join sep (map quote (s :: s2 :: l)))
    with (quote s ++ sep ++ join sep (map quote (s2 :: l))).
  rewrite !length_app. unfold quote at 1. cbn [List.length] in *. lia.
Qed.

Lemma length_dumps_strings (l : list pystr) :
  (List.length l <= List.length (dumps_at 1 (PList (map PStr l))))%nat.
Proof.
  destruct l as [| s l]; [cbn; lia |].
  rewrite dumps_strings. cbn [List.length]. rewrite length_app.
  pose proof (length_join_quotes [44; 10; 32; 32; 32; 32]%N (s :: l)) as Hj.
  cbn [List.length] in *. lia.
Qed.

(** *** Objects *)

(** A member of an object: the key, the colon, and a value that is read
    back as [v]. *)
Lemma parse_members_step (fuel : nat) (k text rest : pystr) (v : pyval)
    (acc : list (pystr * pyval)) :
  storable_str k = true ->
  parse_value fuel (text ++ rest) = Ok (v, rest) ->
  skip_ws (32%N :: text ++ rest) = text ++ rest ->
  parse_members (S fuel) (quote k ++ 58%N :: 32%N :: text ++ rest) acc
  = match skip_ws rest with
    | 44%N :: r => parse_members fuel (skip_ws r) (store k v acc)
    | 125%N :: r => Ok (PDict (store k v acc), r)
    | _ => Raise JSONDecodeError
    end.
Proof.
  intros Hk Hv Hsk. unfold quote. cbn [app]. rewrite <- app_assoc.
  cbn [app parse_members]. rewrite parse_string_quote by assumption.
  cbn [bind]. change (skip_ws (58%N :: ?r)) with (58%N :: r). cbn [bind].
  rewrite Hsk, Hv. reflexivity.
Qed.

Lemma parse_value_object (fuel : nat) (k rest : pystr) :
  parse_value (S fuel) (123%N :: 10%N :: 32%N :: 32%N :: quote k ++ rest)
  = parse_members fuel (quote k ++ rest) [].
Proof. reflexivity. Qed.

Lemma skip_ws_indent (k rest : pystr) :
  skip_ws (10%N :: 32%N :: 32%N :: quote k ++ rest) = quote k ++ rest.
Proof. reflexivity. Qed.

(** The text of a state, piece by piece. *)
Lemma dumps_instance (r : AppState.t) :
  dumps_at 0 (PDict (AppState.instance r))
  = 123%N :: 10%N :: 32%N :: 32%N
      :: quote (py "recent_files") ++ 58%N :: 32%N
      :: dumps_at 1 (PList (map PStr (AppState.recent_files r)))
      ++ 44%N :: 10%N :: 32%N :: 32%N
      :: quote (py "word_wrap") ++ 58%N :: 32%N
      :: dumps_at 1 (PBool (AppState.word_wrap r))
      ++ 44%N :: 10%N :: 32%N :: 32%N
      :: quote (py "font_family") ++ 58%N :: 32%N
      :: quote (AppState.font_family r)
      ++ 44%N :: 10%N :: 32%N :: 32%N
      :: quote (py "font_size") ++ 58%N :: 32%N
      :: decimal (AppState.font_size r) ++ [10; 125]%N.
Proof.
  unfold AppState.instance.
  cbn [dumps_at map fst snd join].
  change (py "{") with [123%N]. change (newline 1) with [10; 32; 32]%N.
  change (py ",") with [44%N]. change (py ": ") with [58; 32]%N.
  change (newline 0) with [10%N]. change (py "}") with [125%N].
  rewrite <- !app_assoc. cbn [app]. reflexivity.
Qed.

Lemma storable_spec (r : AppState.t) :
  storable r = true ->
  forallb storable_str (AppState.recent_files r) = true /\
  storable_str (AppState.font_family r) = true /\
  len (decimal (Z.abs (AppState.font_size r))) <= max_str_digits.
Proof.
  unfold storable. intros Hr. apply andb_prop in Hr as [Hr Hn].
  apply andb_prop in Hr as [Hl Hf]. apply Z.leb_le in Hn. auto.
Qed.

(** What [json.dumps] writes for a storable state, [json.loads] reads
    back as that state. *)
Lemma loads_dumps_instance (r : AppState.t) :
  storable r = true ->
  json_dumps (PDict (AppState.instance r))
  = Ok (dumps_at 0 (PDict (AppState.instance r))) /\
  json_loads (dumps_at 0 (PDict (AppState.instance r)))
  = Ok (PDict (AppState.instance r)).
Proof.
  intros Hr. destruct (storable_spec r Hr) as (Hl & Hf & Hn). split.
  { cbn [json_dumps host]. unfold dumps.
    cbn [ints_fit AppState.instance forallb snd].
    replace (forallb ints_fit (map PStr (AppState.recent_files r)))
      with true
      by (symmetry; apply forallb_forall; intros v Hv;
          apply in_map_iff in Hv as (s & <- & _); reflexivity).
    apply Z.leb_le in Hn. now rewrite Hn. }
  cbn [json_loads host]. unfold loads.
  set (fuel := (2 * List.length (dumps_at 0 (PDict (AppState.instance r)))
                + 2)%nat).
  assert (Hfuel : (2 * List.length (AppState.recent_files r) + 6 <= fuel)%nat).
  { subst fuel. rewrite dumps_instance. cbn [List.length].
    rewrite length_app. cbn [List.length]. rewrite length_app.
    pose proof (length_dumps_strings (AppState.recent_files r)). lia. }
  clearbody fuel. rewrite dumps_instance.
  destruct (decimal_shape (AppState.font_size r) Hn [125%N])
    as (Hnum & c & rn & En & Hc & Hneg).
  change (decimal (AppState.font_size r) ++ [10; 125]%N)
    with (decimal (AppState.font_size r) ++ 10%N :: [125%N]).
  do 6 (destruct fuel as [| fuel]; [lia |]).
  change (skip_ws (123%N :: ?x)) with (123%N :: x).
  rewrite parse_value_object.
  rewrite (parse_members_step _ (py "recent_files") _ _
             (PList (map PStr (AppState.recent_files r))));
    [| reflexivity
     | apply parse_value_strings; [assumption | lia]
     | destruct (AppState.recent_files r); reflexivity].
  change (skip_ws (44%N :: ?x)) with (44%N :: x). cbv beta iota.
  rewrite skip_ws_indent.
  rewrite (parse_members_step _ (py "word_wrap") _ _
             (PBool (AppState.word_wrap r)));
    [| reflexivity
     | destruct (AppState.word_wrap r); reflexivity
     | destruct (AppState.word_wrap r); reflexivity].
  change (skip_ws (44%N :: ?x)) with (44%N :: x). cbv beta iota.
  rewrite skip_ws_indent.
  rewrite (parse_members_step _ (py "font_family") _ _
             (PStr (AppState.font_family r)));
    [| reflexivity
     | now apply parse_value_string
     | reflexivity].
  change (skip_ws (44%N :: ?x)) with (44%N :: x). cbv beta iota.
  rewrite skip_ws_indent.
  rewrite (parse_members_step _ (py "font_size") _ _
             (PInt (AppState.font_size r)));
    [| reflexivity
     | rewrite En in *;
       now rewrite (proj1 (parse_value_number _ c rn Hc Hneg))
     | rewrite En; apply (parse_value_number 0 c rn Hc Hneg)].
  reflexivity.
Qed.


End ReferenceCodec.

(** ** The program on the reference host *)

Section AtReferenceHost.
Import Reference.
#[local] Existing Instance host.

(** *** The codec and the settings functions, run *)

Example dumps_defaults :
  json_dumps (PDict defaults) = Ok (text "{
  'recent_files': [],
  'word_wrap': true,
  'font_family': 'Segoe UI',
  'font_size': 12
}").
Proof. reflexivity. Qed.

Example dumps_sample_recent :
  json_dumps (PList [PStr (py "/tmp/note.txt"); PStr [233%N]; PInt (-3)])
  = Ok (text "[
  '/tmp/note.txt',
  '\u00e9',
  -3
]").
Proof. reflexivity. Qed.

Example loads_object :
  json_loads (text "{'a': [1, -2, 'x\ty'], 'b': {}, 'a': null}")
  = Ok (PDict [(py "a", PNone); (py "b", PDict [])]).
Proof. reflexivity. Qed.

Example loads_empty : json_loads [] = Raise JSONDecodeError.
Proof. reflexivity. Qed.

Example loads_truncated :
  json_loads (text "{'word_wrap': tr") = Raise JSONDecodeError.
Proof. reflexivity. Qed.

Example load_state_missing : load_state desk = Ok defaults.
Proof. reflexivity. Qed.

Example load_state_not_an_object :
  load_state (settings_only (text "[1, 2]")) = Ok defaults.
Proof. reflexivity. Qed.

Example load_state_unknown_key :
  load_state (settings_only (text "{'theme': 'dark', 'font_size': 9}"))
  = Ok [ (py "recent_files", PList []);
         (py "word_wrap", PBool true);
         (py "font_family", PStr (py "Segoe UI"));
         (py "font_size", PInt 9) ].
Proof. reflexivity. Qed.

Example load_state_drops_non_strings :
  load_state (settings_only (text "{'recent_files': ['/a', 7, null, '/b']}"))
  = Ok [ (py "recent_files", PList [PStr (py "/a"); PStr (py "/b")]);
         (py "word_wrap", PBool true);
         (py "font_family", PStr (py "Segoe UI"));
         (py "font_size", PInt 12) ].
Proof. reflexivity. Qed.

Example load_state_class_is_no_field :
  load_state (settings_only (text "{'font_size': 9, '__class__': 'x'}"))
  = Ok defaults.
Proof. reflexivity. Qed.

Example elide_short : elide_middle (py "notes.txt") 64 = py "notes.txt".
Proof. reflexivity. Qed.

Example elide_long :
  elide_middle (py "/home/user/documents/notes.txt") 12 = py "/hom...s.txt".
Proof. reflexivity. Qed.

(** The editor gives a CR LF, a lone CR and U+2029 back as a line feed,
    and U+00A0 as a space. *)
Example plain_text_of_breaks :
  plain_text [97; 13; 10; 98; 13; 99; 160; 100; 8233]%N
  = [97; 10; 98; 10; 99; 32; 100; 10]%N.
Proof. reflexivity. Qed.

(** *** The theorems, applied *)

Lemma elide_middle_spec_witness :
  6 <= 6 /\ len (elide_middle (py "/home/user/notes.txt") 6) = 6.
Proof.
  split; [lia |].
  apply (elide_middle_spec (py "/home/user/notes.txt") 6); [lia |].
  vm_compute. reflexivity.
Defined.

Lemma title_spec_witness :
  DocumentTab.path report <> Some [] /\
  DocumentTab.title report = py "report.txt" ++ [32%N; 8226%N].
Proof.
  assert (Hpath : DocumentTab.path report <> Some []) by discriminate.
  split; [exact Hpath |].
  exact (proj1 (title_spec report Hpath)).
Defined.

Lemma failed_io_leaves_tab_unchanged_witness :
  (read_text_replace desk (py "/tmp/gone.txt") = Raise (OSError 2) /\
   DocumentTab.load_file (py "/tmp/gone.txt") (desk, draft)
     = ((desk, draft), Raise (OSError 2))) /\
  (write_text (py "/root/secret.txt") (DocumentTab.toPlainText draft) desk
     = (desk, Raise (OSError 13)) /\
   DocumentTab.save_to (py "/root/secret.txt") (desk, draft)
     = ((desk, draft), Raise (OSError 13))).
Proof.
  assert (R : read_text_replace desk (py "/tmp/gone.txt")
              = Raise (OSError 2)) by reflexivity.
  assert (Wr : write_text (py "/root/secret.txt")
                 (DocumentTab.toPlainText draft) desk
               = (desk, Raise (OSError 13))) by reflexivity.
  split; split; try assumption.
  - exact (proj1 (failed_io_leaves_tab_unchanged (H := host) desk draft
                    (py "/tmp/gone.txt") (OSError 2)) R).
  - exact (proj2 (failed_io_leaves_tab_unchanged (H := host) desk draft
                    (py "/root/secret.txt") (OSError 13)) desk Wr).
Defined.

Lemma successful_io_sets_path_and_clears_dirty_witness :
  read_text_replace desk (py "/tmp/note.txt") = Ok (py "hello") /\
  exists tab',
    DocumentTab.load_file (py "/tmp/note.txt") (desk, draft)
      = ((desk, tab'), Ok tt) /\
    DocumentTab.path tab' = Some (py "/tmp/note.txt") /\
    DocumentTab.is_dirty tab' = false.
Proof.
  assert (R : read_text_replace desk (py "/tmp/note.txt") = Ok (py "hello"))
    by reflexivity.
  split; [exact R |].
  destruct (proj2 (proj2 (successful_io_sets_path_and_clears_dirty
                            (H := host) desk draft (py "/tmp/note.txt"))) _ R)
    as (tab' & E & Hp & Hd & _).
  exists tab'. auto.
Defined.

Lemma load_state_defaults_on_unusable_store_witness :
  read_text (settings_only []) SETTINGS_FILE = Ok [] /\
  load_state (settings_only []) = Ok defaults.
Proof.
  assert (E : read_text (settings_only []) SETTINGS_FILE = Ok [])
    by reflexivity.
  split; [exact E |].
  apply (load_state_defaults_on_unusable_store (H := host) (settings_only [])).
  right. right. right. left. exact E.
Defined.

Lemma save_state_never_raises_witness :
  write_text SETTINGS_FILE
    (dumps_at 0 (PDict (AppState.instance sample))) locked
    = (locked, Raise (OSError 13)) /\
  save_state (AppState.instance sample) locked = (locked, Ok tt).
Proof.
  assert (E : write_text SETTINGS_FILE
                (dumps_at 0 (PDict (AppState.instance sample))) locked
              = (locked, Raise (OSError 13))) by reflexivity.
  split; [exact E |].
  exact (proj1 (proj2 (save_state_never_raises (H := host)
                         (AppState.instance sample) locked))
           _ _ _ eq_refl E).
Defined.

Lemma NoDup_two (a b : pystr) : a <> b -> NoDup [a; b].
Proof.
  intros Hab. repeat constructor; cbn [In]; intuition congruence.
Defined.


Lemma load_state_keeps_wrong_typed_word_wrap_witness :
  json_loads (text "{'word_wrap': 'yes', 'font_size': 14}")
    = Ok (PDict [(py "word_wrap", PStr (py "yes")); (py "font_size", PInt 14)])
  /\ load_state wrap_as_string
     = Ok [ (py "recent_files", PList []);
            (py "word_wrap", PStr (py "yes"));
            (py "font_family", PStr (py "Segoe UI"));
            (py "font_size", PInt 14) ].
Proof.
  assert (E : json_loads (text "{'word_wrap': 'yes', 'font_size': 14}")
              = Ok (PDict [(py "word_wrap", PStr (py "yes"));
                           (py "font_size", PInt 14)]))
    by (vm_compute; reflexivity).
  split; [exact E |].
  exact (load_state_keeps_wrong_typed_word_wrap (H := host) wrap_as_string _
           (PStr (py "yes")) eq_refl eq_refl E).
Defined.

Lemma add_recent_spec_witness :
  MainWindow.has_recent two_recent [py "/a"; py "/b"] /\
  NoDup [py "/a"; py "/b"] /\
  exists w' mw',
    MainWindow._add_recent (py "/a") (desk, two_recent) = ((w', mw'), Ok tt) /\
    MainWindow.has_recent mw' [py "/a"; py "/b"].
Proof.
  assert (Hl : MainWindow.has_recent two_recent [py "/a"; py "/b"])
    by reflexivity.
  assert (Hnd : NoDup [py "/a"; py "/b"]) by (apply NoDup_two; discriminate).
  split; [exact Hl |]. split; [exact Hnd |].
  exact (proj1 (proj2 (add_recent_spec (H := host) (py "/a") desk two_recent
                         [py "/a"; py "/b"] Hl Hnd))
           (py "/a") (py "/b") eq_refl eq_refl eq_refl).
Defined.

Lemma open_recent_prunes_selected_path_witness :
  MainWindow.has_recent two_recent [py "/a"; py "/b"] /\
  path_exists desk (py "/a") = Ok false /\
  exists w',
    MainWindow._open_recent (py "/a") (desk, two_recent)
      = ((w', MainWindow.with_recent [py "/b"] two_recent), Ok tt).
Proof.
  assert (Hl : MainWindow.has_recent two_recent [py "/a"; py "/b"])
    by reflexivity.
  split; [exact Hl |]. split; [reflexivity |].
  destruct (proj1 (open_recent_prunes_selected_path (H := host) (py "/a") desk
                     two_recent [py "/a"; py "/b"] Hl) eq_refl)
    as (w' & l' & E & El & _).
  exists w'. refine (eq_trans E _). rewrite El. reflexivity.
Defined.

(** *** Inputs on which the list is not as the specification has it *)

(** C3, as stated for every record, fails on a list with a duplicate.
    The settings file lists /a twice and [load_state] takes the list as it
    is; [_add_recent] of /a then removes the first /a only, and the list
    it leaves is /a, /a again. *)
Lemma add_recent_keeps_duplicate :
  exists s w' mw',
    load_state listed_twice = Ok s /\
    MainWindow._add_recent (py "/a")
      (listed_twice, {| MainWindow.state := s; MainWindow.tabs := [] |})
      = ((w', mw'), Ok tt) /\
    MainWindow.has_recent mw' [py "/a"; py "/a"] /\
    ~ NoDup [py "/a"; py "/a"].
Proof.
  do 3 eexists. split; [vm_compute; reflexivity |].
  split; [vm_compute; reflexivity |]. split; [reflexivity |].
  intros Hnd. inversion Hnd as [| x l Hin _]. apply Hin. now left.
Qed.


(** C4, as stated, fails: /a and /b are both missing from the world; the
    user selects /a, and /b stays in the list, although a filter by
    existence would leave nothing. *)
Lemma open_recent_keeps_missing_sibling :
  path_exists desk (py "/b") = Ok false /\
  exists w' mw',
    MainWindow._open_recent (py "/a") (desk, two_recent)
      = ((w', mw'), Ok tt) /\
    MainWindow.has_recent mw' [py "/b"] /\
    ~ MainWindow.has_recent mw'
        (filter (exists_ desk) [py "/a"; py "/b"]).
Proof.
  split; [reflexivity |]. do 2 eexists. split; [vm_compute; reflexivity |].
  split; [reflexivity |]. vm_compute. discriminate.
Qed.

End AtReferenceHost.

(** ** More about [elide_middle] *)

Lemma len_slice_to {A} (s : list A) (i : Z) :
  len (slice_to s i) = if i <? 0 then Z.max 0 (i + len s) else Z.min i (len s).
Proof.
  unfold slice_to, slice_index, len. rewrite length_firstn.
  destruct (Z.ltb_spec i 0); lia.
Qed.

Lemma len_slice_from {A} (s : list A) (i : Z) :
  len (slice_from s i)
  = len s - (if i <? 0 then Z.max 0 (i + len s) else Z.min i (len s)).
Proof.
  unfold slice_from, slice_index, len. rewrite length_skipn.
  destruct (Z.ltb_spec i 0); lia.
Qed.

(** The length of the elided string, for a path over the limit. *)
Lemma len_elide_middle (path : pystr) (max_len : Z) :
  max_len < len path ->
  (4 <= max_len -> len (elide_middle path max_len) = max_len) /\
  (max_len < 4 -> max_len < len (elide_middle path max_len)).
Proof.
  intros Hlong. unfold elide_middle.
  destruct (Z.leb_spec (len path) max_len); [lia |].
  rewrite !len_app, len_slice_to, len_slice_from.
  change (len (py "...")) with 3.
  pose proof (len_nonneg path).
  pose proof (Z.div_mod max_len 2 ltac:(lia)).
  pose proof (Z.mod_pos_bound max_len 2 ltac:(lia)).
  split; intros Hm.
  - destruct (Z.ltb_spec (max_len / 2 - 2) 0);
      destruct (Z.ltb_spec (- (max_len - (max_len / 2 - 2) - 3)) 0); lia.
  - destruct (Z.ltb_spec (max_len / 2 - 2) 0);
      destruct (Z.ltb_spec (- (max_len - (max_len / 2 - 2) - 3)) 0); lia.
Qed.

(** X1.  [elide_middle] keeps within the limit exactly when the limit is
    4 or more: a longer path then comes out with exactly [max_len]
    characters, while for a limit under 4 the result is longer than the
    limit.  No result is longer than the limit plus the path. *)
Theorem elide_middle_limit (path : pystr) (max_len : Z) :
  (len (elide_middle path max_len) <= max_len
   <-> len path <= max_len \/ 4 <= max_len) /\
  (4 <= max_len -> len (elide_middle path max_len) = Z.min (len path) max_len)
  /\ len (elide_middle path max_len) <= 2 * len path + 3.
Proof.
  destruct (Z.le_gt_cases (len path) max_len) as [Hfit | Hlong].
  - assert (E : elide_middle path max_len = path).
    { unfold elide_middle.
      destruct (Z.leb_spec (len path) max_len); [reflexivity | lia]. }
    rewrite E. pose proof (len_nonneg path). repeat split; try lia.
  - destruct (len_elide_middle path max_len Hlong) as [Hge Hlt].
    split; [split |]; [| | split].
    + intros Hle. right. destruct (Z.le_gt_cases 4 max_len); [assumption |].
      specialize (Hlt ltac:(lia)). lia.
    + intros [Hfit | Hm]; [lia |]. rewrite (Hge Hm). lia.
    + intros Hm. rewrite (Hge Hm). lia.
    + unfold elide_middle.
      destruct (Z.leb_spec (len path) max_len); [lia |].
      rewrite !len_app, len_slice_to, len_slice_from.
      change (len (py "...")) with 3. pose proof (len_nonneg path).
      destruct (Z.ltb_spec (max_len / 2 - 2) 0);
        destruct (Z.ltb_spec (- (max_len - (max_len / 2 - 2) - 3)) 0); lia.
Qed.

(** X2.  For a limit of 4 or more, eliding what is already elided changes
    nothing. *)
Theorem elide_middle_idempotent (path : pystr) (max_len : Z) :
  4 <= max_len ->
  elide_middle (elide_middle path max_len) max_len
  = elide_middle path max_len.
Proof.
  intros Hm.
  assert (Hlen : len (elide_middle path max_len) <= max_len).
  { destruct (Z.le_gt_cases (len path) max_len) as [Hfit | Hlong].
    - unfold elide_middle.
      destruct (Z.leb_spec (len path) max_len); [assumption | lia].
    - rewrite (proj1 (len_elide_middle path max_len Hlong) Hm). lia. }
  unfold elide_middle at 1.
  destruct (Z.leb_spec (len (elide_middle path max_len)) max_len);
    [reflexivity | lia].
Qed.

(** ** More about [load_state] *)

Section LoadStateFacts.
Context {H : Host}.

Lemma setattr_recent_files (s : obj) (v : pyval) :
  setattr s (py "recent_files") v = Ok (store (py "recent_files") v s).
Proof. reflexivity. Qed.

Lemma filter_is_str_map (l : list pyval) :
  exists l', filter is_str l = map PStr l'.
Proof.
  induction l as [| v l [l' IH]]; [now exists [] |].
  destruct v; simpl; eauto. exists (s :: l'). simpl. now rewrite IH.
Qed.

Lemma load_state_strings (w : World) :
  exists s l,
    load_state w = Ok s /\
    lookup (py "recent_files") s = Some (PList (map PStr l)).
Proof.
  unfold load_state.
  destruct (load_state_try w) as [[s |] | e] eqn:E; cbn [try_except bind];
    try (exists defaults, []; split; reflexivity).
  unfold load_state_try in E.
  destruct (path_exists w SETTINGS_FILE) as [[|] |]; try discriminate.
  cbn [bind] in E.
  destruct (read_text w SETTINGS_FILE) as [text |]; [| discriminate].
  cbn [bind] in E.
  destruct (json_loads text) as [data |]; [| discriminate]. cbn [bind] in E.
  destruct (items data) as [kvs |]; [| discriminate]. cbn [bind] in E.
  destruct (merge_items kvs defaults) as [s0 |]; [| discriminate].
  cbn [bind] in E.
  destruct (getattr s0 (py "recent_files")) as [rf |]; [| discriminate].
  cbn [bind] in E.
  destruct (if negb (is_list rf)
            then setattr s0 (py "recent_files") (PList [])
            else Ok s0) as [s1 |]; [| discriminate].
  cbn [bind] in E.
  destruct (getattr s1 (py "recent_files")) as [rf1 |]; [| discriminate].
  cbn [bind] in E.
  destruct (elements rf1) as [l |]; [| discriminate]. cbn [bind] in E.
  rewrite setattr_recent_files in E. cbn [bind] in E.
  injection E as <-.
  destruct (filter_is_str_map l) as [l' ->].
  exists (store (py "recent_files") (PList (map PStr l')) s1), l'.
  split; [reflexivity | apply lookup_store_eq].
Qed.

(** X3.  In every world [load_state] returns a state whose
    [recent_files] is a list of strings, whatever the settings file
    holds. *)
Theorem load_state_recent_files_are_strings (w : World) :
  exists s l,
    load_state w = Ok s /\
    lookup (py "recent_files") s = Some (PList (map PStr l)).
Proof. apply load_state_strings. Qed.

(** The four fields merged with an object none of whose keys is an
    attribute of the class: each field takes the value bound to its name,
    and every other key is passed over. *)
Lemma merge_items_plain (d : list (pystr * pyval)) :
  (forall k, In k (map fst d) -> class_attr k = false) ->
  NoDup (map fst d) ->
  forall a b c e,
    merge_items d
      [ (py "recent_files", a); (py "word_wrap", b);
        (py "font_family", c); (py "font_size", e) ]
    = Ok [ (py "recent_files", field_or (py "recent_files") d a);
           (py "word_wrap", field_or (py "word_wrap") d b);
           (py "font_family", field_or (py "font_family") d c);
           (py "font_size", field_or (py "font_size") d e) ].
Proof.
  induction d as [| [k v] d IH]; intros Hcls Hnd a b c e; [reflexivity |].
  cbn [map fst] in Hcls, Hnd. inversion Hnd as [| ? ? Hk Hnd']; subst.
  assert (Hcls' : forall k', In k' (map fst d) -> class_attr k' = false)
    by (intros k' Hk'; apply Hcls; now right).
  assert (Hfresh : forall x, field_or k d x = x).
  { intros x. unfold field_or. destruct (lookup k d) eqn:E; [| reflexivity].
    exfalso. apply Hk. clear - E. induction d as [| [k' v'] d IHd];
      [discriminate |]. simpl in E |- *.
    destruct (str_eqb k' k) eqn:Ek;
      [left; now apply str_eqb_eq | right; auto]. }
  cbn [merge_items]. unfold hasattr, field_or. cbn [lookup].
  destruct (str_eqb (py "recent_files") k) eqn:E1.
  { apply str_eqb_eq in E1. subst k. cbn [bind].
    change (setattr ?s (py "recent_files") v)
      with (Ok (A := obj)
              [ (py "recent_files", v); (py "word_wrap", b);
                (py "font_family", c); (py "font_size", e) ]).
    cbn [bind]. rewrite (IH Hcls' Hnd'). now rewrite Hfresh. }
  destruct (str_eqb (py "word_wrap") k) eqn:E2.
  { apply str_eqb_eq in E2. subst k. cbn [bind].
    change (setattr ?s (py "word_wrap") v)
      with (Ok (A := obj)
              [ (py "recent_files", a); (py "word_wrap", v);
                (py "font_family", c); (py "font_size", e) ]).
    cbn [bind]. rewrite (IH Hcls' Hnd'). now rewrite Hfresh. }
  destruct (str_eqb (py "font_family") k) eqn:E3.
  { apply str_eqb_eq in E3. subst k. cbn [bind].
    change (setattr ?s (py "font_family") v)
      with (Ok (A := obj)
              [ (py "recent_files", a); (py "word_wrap", b);
                (py "font_family", v); (py "font_size", e) ]).
    cbn [bind]. rewrite (IH Hcls' Hnd'). now rewrite Hfresh. }
  destruct (str_eqb (py "font_size") k) eqn:E4.
  { apply str_eqb_eq in E4. subst k. cbn [bind].
    change (setattr ?s (py "font_size") v)
      with (Ok (A := obj)
              [ (py "recent_files", a); (py "word_wrap", b);
                (py "font_family", c); (py "font_size", v) ]).
    cbn [bind]. rewrite (IH Hcls' Hnd'). now rewrite Hfresh. }
  rewrite (Hcls k) by now left. cbn [bind].
  rewrite (IH Hcls' Hnd').
  apply str_eqb_neq in E1, E2, E3, E4.
  assert (Hne : forall f, f <> k -> str_eqb k f = false)
    by (intros f Hf; apply str_eqb_neq; congruence).
  now rewrite !Hne by assumption.
Qed.

(** X4.  A settings object whose keys are not attributes of the class is
    decoded field by field: each field takes the value the object binds to
    its name, of whatever type, or keeps its default; [recent_files] is
    then reduced to its strings, or to the empty list when it is not a
    list; unknown keys are ignored, and the fields keep their order. *)
Theorem load_state_plain_object (w : World) (text : pystr)
    (d : list (pystr * pyval)) :
  path_exists w SETTINGS_FILE = Ok true ->
  read_text w SETTINGS_FILE = Ok text ->
  json_loads text = Ok (PDict d) ->
  NoDup (map fst d) ->
  (forall k, In k (map fst d) -> class_attr k = false) ->
  load_state w
  = Ok [ (py "recent_files",
          strings_of (field_or (py "recent_files") d (PList [])));
         (py "word_wrap", field_or (py "word_wrap") d (PBool true));
         (py "font_family",
          field_or (py "font_family") d (PStr (py "Segoe UI")));
         (py "font_size", field_or (py "font_size") d (PInt 12)) ].
Proof.
  intros Hex Hr Hl Hnd Hcls. unfold load_state.
  rewrite (load_state_decoded w text _ Hex Hr Hl). cbn [items bind].
  unfold defaults. rewrite (merge_items_plain d Hcls Hnd). cbn [bind].
  destruct (field_or (py "recent_files") d (PList [])); reflexivity.
Qed.

End LoadStateFacts.

(** ** More about the recent files *)

Section RecentFilesFacts.
Import MainWindow.
Context {H : Host}.

Lemma subsequence_refl {A} (l : list A) : subsequence l l.
Proof. induction l; now constructor. Qed.

Lemma subsequence_without_first (p : pystr) (l : list pystr) :
  subsequence (without_first p l) l.
Proof.
  induction l as [| q l IH]; simpl; [constructor |].
  destruct (str_eqb q p); [constructor; apply subsequence_refl |].
  now constructor.
Qed.

Lemma subsequence_firstn {A} (n : nat) (l : list A) :
  subsequence (firstn n l) l.
Proof.
  revert n. induction l as [| x l IH]; intros [| n]; simpl;
    try constructor; auto.
  clear. induction l; now constructor.
Qed.

Lemma subsequence_trans {A} (a b c : list A) :
  subsequence a b -> subsequence b c -> subsequence a c.
Proof.
  intros Hab Hbc. revert a Hab.
  induction Hbc as [| x b c Hbc IH | x b c Hbc IH]; intros a Hab.
  - assumption.
  - inversion Hab; subst; constructor; auto.
  - constructor. auto.
Qed.

(** X5.  On any list of strings, with or without duplicates,
    [_add_recent] returns without raising and leaves the tabs alone; the
    list then starts with the resolved path, followed by the first 9
    entries of the old list without its first occurrence of that path:
    at most 10 entries, the old ones in their old order. *)
Theorem add_recent_any_list (path : pystr) (w : World) (mw : t)
    (l : list pystr) :
  has_recent mw l ->
  exists w' mw' rest,
    _add_recent path (w, mw) = ((w', mw'), Ok tt) /\
    has_recent mw' (resolve w path :: rest) /\
    rest = firstn 9 (without_first (resolve w path) l) /\
    subsequence rest l /\
    (List.length (resolve w path :: rest) <= 10)%nat /\
    tabs mw' = tabs mw.
Proof.
  intros Hl. pose proof (add_recent_run path w mw l Hl) as E. cbv zeta in E.
  unfold added in E. rewrite firstn_cons in E.
  do 3 eexists. split; [exact E |].
  split; [apply has_recent_with_recent |].
  split; [reflexivity |]. split; [| split; [| reflexivity]].
  - eapply subsequence_trans;
      [apply subsequence_firstn | apply subsequence_without_first].
  - cbn [List.length]. rewrite length_firstn. lia.
Qed.

Lemma added_twice (p : pystr) (l : list pystr) :
  added p (added p l) = added p l.
Proof.
  unfold added. rewrite !firstn_cons. cbn [without_first].
  rewrite str_eqb_refl, firstn_firstn. reflexivity.
Qed.

(** X6.  Recording the same path twice in a row leaves the list as the
    first recording left it, when the path still resolves to the same. *)
Theorem add_recent_twice (path : pystr) (w : World) (mw : t)
    (l : list pystr) :
  has_recent mw l ->
  exists w1 mw1 w2 mw2 l',
    _add_recent path (w, mw) = ((w1, mw1), Ok tt) /\
    has_recent mw1 l' /\
    _add_recent path (w1, mw1) = ((w2, mw2), Ok tt) /\
    (resolve w1 path = resolve w path -> has_recent mw2 l' /\ mw2 = mw1).
Proof.
  intros Hl.
  pose proof (add_recent_run path w mw l Hl) as E1. cbv zeta in E1.
  set (mw1 := with_recent (added (resolve w path) l) mw) in *.
  set (w1 := fst (save_state (state mw1) w)) in *.
  assert (Hl1 : has_recent mw1 (added (resolve w path) l))
    by apply has_recent_with_recent.
  pose proof (add_recent_run path w1 mw1 _ Hl1) as E2. cbv zeta in E2.
  do 5 eexists. split; [exact E1 |]. split; [exact Hl1 |].
  split; [exact E2 |]. intros ->.
  rewrite added_twice. unfold mw1. rewrite with_recent_twice.
  split; [apply has_recent_with_recent | reflexivity].
Qed.

(** The state of a window whose state has the declared types, after its
    recent files are set. *)
Lemma with_recent_instance (r : AppState.t) (ts : list DocumentTab.t)
    (l : list pystr) :
  state (with_recent l {| state := AppState.instance r; tabs := ts |})
  = AppState.instance
      {| AppState.recent_files := l;
         AppState.word_wrap := AppState.word_wrap r;
         AppState.font_family := AppState.font_family r;
         AppState.font_size := AppState.font_size r |}.
Proof. reflexivity. Qed.

(** A state with the declared types that the settings file holds is the
    state [load_state] returns. *)
Lemma load_state_instance (r : AppState.t) (w : World) (text : pystr) :
  path_exists w SETTINGS_FILE = Ok true ->
  read_text w SETTINGS_FILE = Ok text ->
  json_loads text = Ok (PDict (AppState.instance r)) ->
  load_state w = Ok (AppState.instance r).
Proof.
  intros Hex Hr Hl. unfold load_state.
  rewrite (load_state_decoded w text _ Hex Hr Hl).
  cbn [items bind]. rewrite merge_items_instance. cbn [bind].
  change (getattr (AppState.instance r) (py "recent_files"))
    with (Ok (A := pyval) (PList (map PStr (AppState.recent_files r)))).
  cbn [bind is_list negb elements].
  change (getattr (AppState.instance r) (py "recent_files"))
    with (Ok (A := pyval) (PList (map PStr (AppState.recent_files r)))).
  cbn [bind elements]. rewrite filter_is_str_strings.
  reflexivity.
Qed.

(** X7.  What [_add_recent] records survives a restart: when the write of
    the settings file succeeds and the file reads back and decodes as
    written, [load_state] in the world it leaves returns the state of the
    window, the new list included. *)
Theorem add_recent_persists (path : pystr) (w w' : World) (r : AppState.t)
    (mw : t) (text : pystr) :
  state mw = AppState.instance r ->
  json_dumps
    (PDict (state (with_recent
                     (added (resolve w path) (AppState.recent_files r)) mw)))
    = Ok text ->
  json_loads text
    = Ok (PDict (state (with_recent
                          (added (resolve w path) (AppState.recent_files r))
                          mw))) ->
  write_text SETTINGS_FILE text w = (w', Ok tt) ->
  path_exists w' SETTINGS_FILE = Ok true ->
  read_text w' SETTINGS_FILE = Ok text ->
  _add_recent path (w, mw)
  = ((w', with_recent (added (resolve w path) (AppState.recent_files r)) mw),
     Ok tt) /\
  load_state w'
  = Ok (state (with_recent
                 (added (resolve w path) (AppState.recent_files r)) mw)).
Proof.
  intros Hst Hd Hl Hw Hex Hr.
  assert (Hrec : has_recent mw (AppState.recent_files r))
    by (unfold has_recent; now rewrite Hst).
  split.
  - rewrite (add_recent_run path w mw _ Hrec). cbv zeta.
    now rewrite (save_state_written _ w w' text Hd Hw).
  - destruct mw as [st ts]. cbn [state] in Hst. subst st.
    rewrite with_recent_instance in *.
    now apply load_state_instance with text.
Qed.

(** A state with a [str] as its font family and an [int] of the range of
    a C [int] as its font size makes tabs. *)
Lemma makes_tabs_typed (mw : t) (family : pystr) (size : Z) (wrap : pyval) :
  lookup (py "font_family") (state mw) = Some (PStr family) ->
  lookup (py "font_size") (state mw) = Some (PInt size) ->
  lookup (py "word_wrap") (state mw) = Some wrap ->
  -2147483648 <= size <= 2147483647 ->
  makes_tabs mw.
Proof.
  intros Hf Hs Hw Hrange.
  unfold makes_tabs, DocumentTab.__init__, DocumentTab.apply_font, getattr.
  rewrite Hf, Hs, Hw. cbn [bind]. now rewrite QFont_typed.
Qed.

(** X8.  Opening a recent file that exists leaves the recent files and
    the settings file alone: the entry is not moved to the front.  With a
    state that makes tabs, one tab is added: it holds the text read as the
    editor gives it back, with the path, unmodified; when the read raises,
    the exception leaves [_open_recent] and the tab stays behind empty and
    untitled.  With a state whose fonts [QFont] refuses, the exception of
    [QFont] leaves [_open_recent] and no tab is added. *)
Theorem open_recent_existing (path : pystr) (w : World) (mw : t) :
  path_exists w path = Ok true ->
  (makes_tabs mw ->
   (forall s, read_text_replace w path = Ok s ->
    _open_recent path (w, mw)
    = ((w, set_tabs
             (tabs mw ++ [{| DocumentTab.path := Some path;
                             DocumentTab.text := plain_text s;
                             DocumentTab.modified := false |}]) mw),
       Ok tt))
   /\ (forall e, read_text_replace w path = Raise e ->
       _open_recent path (w, mw)
       = ((w, set_tabs (tabs mw ++ [DocumentTab.new]) mw), Raise e)))
  /\ (forall e, DocumentTab.__init__ (state mw) = Raise e ->
      _open_recent path (w, mw) = ((w, mw), Raise e)).
Proof.
  intros Hex. rewrite (open_recent_present_run path w mw Hex). split.
  - unfold makes_tabs. intros ->.
    split; [intros s -> | intros e ->]; reflexivity.
  - intros e ->. reflexivity.
Qed.

End RecentFilesFacts.

(** ** The recent-files menu and the status bar *)

Section ChromeFacts.
Import Chrome.

Lemma len_elide_middle_le (path : pystr) (max_len : Z) :
  4 <= max_len -> len (elide_middle path max_len) <= max_len.
Proof.
  intros Hm. destruct (Z.le_gt_cases (len path) max_len) as [Hfit | Hlong].
  - unfold elide_middle.
    destruct (Z.leb_spec (len path) max_len); [assumption | lia].
  - rewrite (proj1 (len_elide_middle path max_len Hlong) Hm). lia.
Qed.

(** The entry for a recent file. *)
Lemma add_paths_strings (l : list pystr) (menu : list item) :
  add_paths (map PStr l) menu
  = (menu ++ map (fun p => Action (elide_middle p 64) true (open_recent p)) l,
     Ok tt).
Proof.
  revert menu. induction l as [| p l IH]; intros menu; cbn [add_paths map].
  - unfold ret. now rewrite app_nil_r.
  - unfold bindM, add. rewrite IH. now rewrite <- app_assoc.
Qed.

(** X9.  Rebuilt for a state whose recent files are the strings [l], the
    menu holds nothing of what it held before.  For an empty list it is
    the one disabled action "(No recent files)".  Otherwise it has, in the
    order of the list, an enabled action per path, labelled with at most
    64 characters and connected to [_open_recent] of the whole path, and
    then a separator and "Clear recent".  A window without the menu gets
    none. *)
Theorem rebuild_recent_menu_spec (state : obj) (l : list pystr)
    (old : list item) :
  lookup (py "recent_files") state = Some (PList (map PStr l)) ->
  _rebuild_recent_menu state None = (None, Ok tt) /\
  exists menu,
    _rebuild_recent_menu state (Some old) = (Some menu, Ok tt) /\
    (l = [] -> menu = [Action (py "(No recent files)") false nothing]) /\
    (l <> [] ->
     menu = map (fun p => Action (elide_middle p 64) true (open_recent p)) l
            ++ [Separator; Action (py "Clear recent") true clear_recent]) /\
    (forall text enabled triggered,
        In (Action text enabled triggered) menu -> len text <= 64).
Proof.
  intros Hl. split; [reflexivity |].
  unfold _rebuild_recent_menu, bindM, lift, getattr. rewrite Hl.
  destruct l as [| p l].
  - eexists. split; [reflexivity |]. split; [reflexivity |].
    split; [congruence |].
    intros text enabled triggered [E | []]. injection E as <- _ _.
    vm_compute. discriminate.
  - cbn [truthy map negb iterate].
    change (PStr p :: map PStr l) with (map PStr (p :: l)).
    rewrite add_paths_strings. unfold add. cbn [app].
    rewrite <- app_assoc. cbn [app].
    eexists. split; [reflexivity |]. split; [discriminate |].
    split; [reflexivity |].
    intros text enabled triggered Hin. apply in_app_or in Hin as [Hin | Hin].
    + apply in_map_iff in Hin as (q & E & _). injection E as <- _ _.
      apply len_elide_middle_le. lia.
    + destruct Hin as [E | [E | []]]; [discriminate |].
      injection E as <- _ _. vm_compute. discriminate.
Qed.

(** X10.  On the start page the three labels of the status bar are empty.
    On the tabs page the file label has at most 70 characters: it is the
    path of the current tab, elided, or "Untitled" for a tab without a
    path and when there is no tab; the last label is "Modified" exactly
    for a dirty tab. *)
Theorem update_status_bar_spec (stack : Z)
    (current : option (DocumentTab.t * (Z * Z))) :
  (stack = 0 ->
   update_status_bar stack current
   = {| lbl_file := []; lbl_pos := []; lbl_dirty := [] |}) /\
  len (lbl_file (update_status_bar stack current)) <= 70 /\
  (stack <> 0 ->
   lbl_file (update_status_bar stack current)
   = match current with
     | Some (tab, _) =>
         match DocumentTab.path tab with
         | Some (c :: p) => elide_middle (c :: p) 70
         | _ => py "Untitled"
         end
     | None => py "Untitled"
     end /\
   (lbl_dirty (update_status_bar stack current) = py "Modified"
    <-> exists tab cursor,
          current = Some (tab, cursor) /\ DocumentTab.is_dirty tab = true)).
Proof.
  unfold update_status_bar. repeat apply conj.
  - intros ->. reflexivity.
  - destruct (stack =? 0); [cbn; lia |].
    destruct current as [[tab [block pos]] |]; cbn [lbl_file];
      [apply len_elide_middle_le; lia | cbn; lia].
  - intros Hs. destruct (Z.eqb_spec stack 0); [contradiction |].
    destruct current as [[tab [block pos]] |]; cbn [lbl_file lbl_dirty].
    + split.
      * destruct (DocumentTab.path tab) as [[| c p] |]; reflexivity.
      * destruct (DocumentTab.is_dirty tab) eqn:Hd; split.
        -- intros _. do 2 eexists. split; [reflexivity | exact Hd].
        -- reflexivity.
        -- intros E. vm_compute in E. discriminate.
        -- intros (tab' & cur & E & Hd'). injection E as <- _. congruence.
    + split; [reflexivity |]. split.
      * intros E. vm_compute in E. discriminate.
      * intros (tab' & cur & E & _). discriminate.
Qed.

End ChromeFacts.

(** ** The window's actions *)

Section ShellFacts.
Import Shell.
Context {H : Host}.

(** *** What a method keeps *)

Lemma keeps_ret {X A} (f : MainWindow.t -> X) (a : A) :
  keeps (W := World) f (ret a).
Proof. intros w mw. reflexivity. Qed.

Lemma keeps_lift {X A} (f : MainWindow.t -> X) (o : outcome A) :
  keeps (W := World) f (lift o).
Proof. intros w mw. reflexivity. Qed.

Lemma keeps_self {X} (f : MainWindow.t -> X) : keeps (W := World) f self.
Proof. intros w mw. reflexivity. Qed.

Lemma keeps_ask_world {X A} (f : MainWindow.t -> X) (g : World -> outcome A) :
  keeps f (ask_world g).
Proof. intros w mw. reflexivity. Qed.

Lemma keeps_on_world {X A} (f : MainWindow.t -> X) (c : M World A) :
  keeps f (on_world c).
Proof. intros w mw. unfold on_world. now destruct (c w). Qed.

Lemma keeps_on_self {X} (f : MainWindow.t -> X)
    (g : MainWindow.t -> MainWindow.t) :
  (forall mw, f (g mw) = f mw) -> keeps (W := World) f (on_self g).
Proof. intros Hg w mw. apply Hg. Qed.

Lemma keeps_bind {X A B} (f : MainWindow.t -> X)
    (c : M (World * MainWindow.t) A) (k : A -> M (World * MainWindow.t) B) :
  keeps f c -> (forall a, keeps f (k a)) -> keeps f (bindM c k).
Proof.
  intros Hc Hk w mw. unfold bindM. specialize (Hc w mw).
  destruct (c (w, mw)) as [[w1 mw1] [a | e]]; cbn [fst snd] in *.
  - now rewrite (Hk a w1 mw1).
  - assumption.
Qed.

Lemma keeps_try {X A} (f : MainWindow.t -> X)
    (c : M (World * MainWindow.t) A)
    (h : exn -> M (World * MainWindow.t) A) :
  keeps f c -> (forall e, keeps f (h e)) -> keeps f (try_exceptM c h).
Proof.
  intros Hc Hh w mw. unfold try_exceptM. specialize (Hc w mw).
  destruct (c (w, mw)) as [[w1 mw1] [a | e]]; cbn [fst snd] in *.
  - assumption.
  - now rewrite (Hh e w1 mw1).
Qed.

Lemma keeps_recent_files {X} (f : MainWindow.t -> X) :
  keeps f MainWindow.recent_files.
Proof.
  apply keeps_bind; [apply keeps_self | intros; apply keeps_lift].
Qed.

Lemma keeps_set_recent_files {X} (f : MainWindow.t -> X) (l : list pyval) :
  (forall s mw, f (MainWindow.set_state s mw) = f mw) ->
  keeps f (MainWindow.set_recent_files l).
Proof.
  intros Hf. apply keeps_bind; [apply keeps_self | intros mw].
  apply keeps_bind; [apply keeps_lift | intros s].
  apply keeps_on_self. apply Hf.
Qed.

Lemma keeps_save {X} (f : MainWindow.t -> X) : keeps f MainWindow.save.
Proof.
  apply keeps_bind; [apply keeps_self | intros; apply keeps_on_world].
Qed.

Lemma keeps_add_recent {X} (f : MainWindow.t -> X) (path : pystr) :
  (forall s mw, f (MainWindow.set_state s mw) = f mw) ->
  keeps f (MainWindow._add_recent path).
Proof.
  intros Hf. unfold MainWindow._add_recent.
  apply keeps_bind; [apply keeps_ask_world | intros p].
  apply keeps_bind; [apply keeps_recent_files | intros rf].
  apply keeps_bind.
  { destruct (existsb (eq_str p) rf); [| apply keeps_ret].
    apply keeps_bind; [apply keeps_lift | intros r].
    now apply keeps_set_recent_files. }
  intros _. apply keeps_bind; [apply keeps_recent_files | intros rf1].
  apply keeps_bind; [now apply keeps_set_recent_files | intros _].
  apply keeps_bind; [apply keeps_recent_files | intros rf2].
  apply keeps_bind; [now apply keeps_set_recent_files | intros _].
  apply keeps_save.
Qed.

Lemma length_replace_nth {A} (i : nat) (x : A) (l : list A) :
  List.length (replace_nth i x l) = List.length l.
Proof.
  revert i. induction l as [| y l IH]; intros [| i]; simpl; auto.
Qed.

Lemma replace_nth_same {A} (i : nat) (x : A) (l : list A) :
  nth_error l i = Some x -> replace_nth i x l = l.
Proof.
  revert i. induction l as [| y l IH]; intros [| i]; simpl; intros E;
    try discriminate.
  - now injection E as ->.
  - now rewrite IH.
Qed.

Lemma nth_error_replace_nth {A} (i j : nat) (x : A) (l : list A) :
  nth_error (replace_nth i x l) j
  = if Nat.eqb i j then (if (i <? List.length l)%nat then Some x else None)
    else nth_error l j.
Proof.
  revert i j. induction l as [| y l IH]; intros [| i] [| j]; simpl; auto.
  now destruct (Nat.eqb i j).
Qed.

Lemma keeps_on_tab {A} (i : nat) (c : M (World * DocumentTab.t) A) :
  keeps count (on_tab i c) /\ keeps MainWindow.state (on_tab i c).
Proof.
  split; intros w mw; unfold on_tab, count;
    destruct (nth_error (MainWindow.tabs mw) i) as [tab |];
    try reflexivity;
    destruct (c (w, tab)) as [[w1 tab1] r]; cbn [fst snd MainWindow.set_tabs
      MainWindow.tabs MainWindow.state];
    [apply length_replace_nth | reflexivity].
Qed.

(** *** Saving a tab *)

(** [try_save] by what the write does: a failed write leaves the window
    as it is, and after a successful one the path is recorded. *)
Lemma try_save_run (i : nat) (p : pystr) (w : World) (mw : MainWindow.t)
    (tab : DocumentTab.t) :
  nth_error (MainWindow.tabs mw) i = Some tab ->
  try_save i p (w, mw) =
    match write_text p (DocumentTab.text tab) w with
    | (w1, Ok _) =>
        let mw1 := MainWindow.set_tabs
                     (replace_nth i (saved p tab) (MainWindow.tabs mw)) mw in
        match MainWindow._add_recent p (w1, mw1) with
        | (s2, Ok _) => (s2, Ok true)
        | (s2, Raise _) => (s2, Ok false)
        end
    | (w1, Raise _) => ((w1, mw), Ok false)
    end.
Proof.
  intros Htab. unfold try_save, try_exceptM, bindM at 1 2.
  unfold on_tab. rewrite Htab. rewrite save_to_run.
  unfold DocumentTab.toPlainText.
  destruct (write_text p (DocumentTab.text tab) w) as [w1 [[] | e]].
  - fold (saved p tab). cbv zeta.
    destruct (MainWindow._add_recent p _) as [s2 [[] | e]]; reflexivity.
  - rewrite (replace_nth_same _ _ _ Htab). destruct mw. reflexivity.
Qed.

(** On a state that lists strings the recording goes through. *)
Lemma try_save_strings (i : nat) (p : pystr) (w : World) (mw : MainWindow.t)
    (tab : DocumentTab.t) (l : list pystr) :
  nth_error (MainWindow.tabs mw) i = Some tab ->
  MainWindow.has_recent mw l ->
  try_save i p (w, mw) =
    match write_text p (DocumentTab.text tab) w with
    | (w1, Ok _) =>
        let mw2 :=
          MainWindow.with_recent (MainWindow.added (resolve w1 p) l)
            (MainWindow.set_tabs
               (replace_nth i (saved p tab) (MainWindow.tabs mw)) mw) in
        ((fst (save_state (MainWindow.state mw2) w1), mw2), Ok true)
    | (w1, Raise _) => ((w1, mw), Ok false)
    end.
Proof.
  intros Htab Hl. rewrite (try_save_run i p w mw tab Htab).
  destruct (write_text p (DocumentTab.text tab) w) as [w1 [[] | e]];
    [| reflexivity].
  cbv zeta. now rewrite (add_recent_run p w1 _ l) by exact Hl.
Qed.

Lemma save_tab_run (i : nat) (save_as : pystr) (w : World)
    (mw : MainWindow.t) (tab : DocumentTab.t) :
  nth_error (MainWindow.tabs mw) i = Some tab ->
  _save_tab i save_as (w, mw) =
    if nonempty (target tab save_as)
    then try_save i (target tab save_as) (w, mw)
    else ((w, mw), Ok false).
Proof.
  intros Htab. unfold _save_tab, bindM, self, target. rewrite Htab.
  destruct (DocumentTab.path tab) as [[| c p] |]; cbn [nonempty];
    try reflexivity; destruct (nonempty save_as); reflexivity.
Qed.

(** X11.  [_save_tab] returns [True] exactly when the text of the tab was
    written: to the path of the tab, or to the path chosen in the Save As
    dialog when the tab has none.  The tab then has that path and is
    unmodified, the other tabs are as before, and the path is recorded in
    the recent files.  When the dialog is cancelled nothing happens; when
    the write raises, the window is as before and the result is
    [False]. *)
Theorem save_tab_spec (i : nat) (save_as : pystr) (w : World)
    (mw : MainWindow.t) (tab : DocumentTab.t) (l : list pystr) :
  nth_error (MainWindow.tabs mw) i = Some tab ->
  MainWindow.has_recent mw l ->
  (target tab save_as = [] ->
   _save_tab i save_as (w, mw) = ((w, mw), Ok false)) /\
  (target tab save_as <> [] ->
   forall w1 e,
     write_text (target tab save_as) (DocumentTab.text tab) w
       = (w1, Raise e) ->
     _save_tab i save_as (w, mw) = ((w1, mw), Ok false)) /\
  (target tab save_as <> [] ->
   forall w1,
     write_text (target tab save_as) (DocumentTab.text tab) w
       = (w1, Ok tt) ->
     exists w2 mw2,
       _save_tab i save_as (w, mw) = ((w2, mw2), Ok true) /\
       MainWindow.tabs mw2
         = replace_nth i (saved (target tab save_as) tab)
             (MainWindow.tabs mw) /\
       MainWindow.has_recent mw2
         (MainWindow.added (resolve w1 (target tab save_as)) l)).
Proof.
  intros Htab Hl. rewrite (save_tab_run i save_as w mw tab Htab).
  repeat apply conj.
  - intros ->. reflexivity.
  - intros Hp w1 e Hw.
    destruct (target tab save_as) as [| c p]; [congruence |].
    cbn [nonempty]. now rewrite (try_save_strings _ _ _ _ tab l), Hw.
  - intros Hp w1 Hw.
    destruct (target tab save_as) as [| c p]; [congruence |].
    cbn [nonempty]. rewrite (try_save_strings _ _ _ _ tab l), Hw by assumption.
    cbv zeta. do 2 eexists. split; [reflexivity |].
    split; [reflexivity | apply has_recent_with_recent].
Qed.

(** [_save_tab] returns a truth value for a tab that is there, and keeps
    the number of tabs. *)
Lemma save_tab_returns (i : nat) (save_as : pystr) (w : World)
    (mw : MainWindow.t) (tab : DocumentTab.t) :
  nth_error (MainWindow.tabs mw) i = Some tab ->
  exists s' b,
    _save_tab i save_as (w, mw) = (s', Ok b) /\ count (snd s') = count mw.
Proof.
  intros Htab. rewrite (save_tab_run i save_as w mw tab Htab).
  destruct (nonempty (target tab save_as)); [| now do 2 eexists].
  rewrite (try_save_run _ _ _ _ tab Htab).
  destruct (write_text _ _ w) as [w1 [[] | e]]; [| now do 2 eexists].
  cbv zeta.
  pose proof (keeps_add_recent count (target tab save_as)
                (fun _ _ => eq_refl) w1
                (MainWindow.set_tabs
                   (replace_nth i (saved (target tab save_as) tab)
                      (MainWindow.tabs mw)) mw)) as Hc.
  destruct (MainWindow._add_recent _ _) as [s2 [[] | e]]; cbn [fst snd] in Hc;
    do 2 eexists; (split; [reflexivity |]); cbn [snd];
    rewrite Hc; unfold count; cbn [MainWindow.tabs MainWindow.set_tabs];
    apply length_replace_nth.
Qed.

(** It returns [True] only after a successful write, and the tab is then
    the saved one. *)
Lemma save_tab_true (i : nat) (save_as : pystr) (w : World)
    (mw : MainWindow.t) (tab : DocumentTab.t) (s' : World * MainWindow.t) :
  nth_error (MainWindow.tabs mw) i = Some tab ->
  _save_tab i save_as (w, mw) = (s', Ok true) ->
  target tab save_as <> [] /\
  (exists w1,
      write_text (target tab save_as) (DocumentTab.text tab) w = (w1, Ok tt))
  /\ MainWindow.tabs (snd s')
     = replace_nth i (saved (target tab save_as) tab) (MainWindow.tabs mw).
Proof.
  intros Htab. rewrite (save_tab_run i save_as w mw tab Htab).
  destruct (target tab save_as) as [| c p] eqn:Et; cbn [nonempty];
    [discriminate |].
  rewrite (try_save_run _ _ _ _ tab Htab).
  destruct (write_text _ _ w) as [w1 [[] | e]]; [| discriminate].
  cbv zeta.
  pose proof (keeps_add_recent MainWindow.tabs (c :: p)
                (fun _ _ => eq_refl) w1
                (MainWindow.set_tabs
                   (replace_nth i (saved (c :: p) tab)
                      (MainWindow.tabs mw)) mw)) as Hc.
  destruct (MainWindow._add_recent _ _) as [s2 [[] | e]]; [| discriminate].
  intros E. injection E as <-. cbn [fst snd] in Hc.
  split; [discriminate |]. split; [now exists w1 | exact Hc].
Qed.

Lemma remove_nth_replace_nth {A} (i : nat) (x : A) (l : list A) :
  remove_nth i (replace_nth i x l) = remove_nth i l.
Proof.
  revert i. induction l as [| y l IH]; intros [| i]; simpl; auto.
  now rewrite IH.
Qed.

Lemma length_remove_nth {A} (i : nat) (l : list A) (x : A) :
  nth_error l i = Some x ->
  S (List.length (remove_nth i l)) = List.length l.
Proof.
  revert i. induction l as [| y l IH]; intros [| i]; simpl; intros E;
    try discriminate; auto.
Qed.

(** The window after [removeTab(i)], back on the start page when that was
    the last tab. *)
Lemma close_tab_removes (i : nat) (w : World) (sh : t) :
  (on_main (on_self (fun mw =>
     MainWindow.set_tabs (remove_nth i (MainWindow.tabs mw)) mw)) ;;;
   sh <~ self ;;
   match MainWindow.tabs (main sh) with
   | [] => show_start
   | _ => ret tt
   end) (w, sh)
  = ((w, {| main := MainWindow.set_tabs
                      (remove_nth i (MainWindow.tabs (main sh))) (main sh);
            stack := match remove_nth i (MainWindow.tabs (main sh)) with
                     | [] => 0
                     | _ => stack sh
                     end |}), Ok tt).
Proof.
  unfold bindM, on_main, on_self, self, show_start. cbn [main set_main stack].
  cbn [MainWindow.tabs MainWindow.set_tabs].
  destruct (remove_nth i (MainWindow.tabs (main sh))); reflexivity.
Qed.

(** X12.  [close_tab] never raises, and it closes the tab at a valid
    index exactly when the tab is unmodified, or the user answers No, or
    answers Yes and the text is written.  The other tabs stay in their
    order, and the start page comes back when no tab is left.  On Cancel,
    on a cancelled Save As dialog, and for an index without a tab,
    nothing changes; when the write raises, the window is as before. *)
Theorem close_tab_spec (index : Z) (resp : button) (save_as : pystr)
    (w : World) (sh : t) (l : list pystr) :
  MainWindow.has_recent (main sh) l ->
  ((index < 0 \/
    nth_error (MainWindow.tabs (main sh)) (Z.to_nat index) = None) ->
   close_tab index resp save_as (w, sh) = ((w, sh), Ok tt)) /\
  (forall tab,
      0 <= index ->
      nth_error (MainWindow.tabs (main sh)) (Z.to_nat index) = Some tab ->
      exists w' sh',
        close_tab index resp save_as (w, sh) = ((w', sh'), Ok tt) /\
        ((DocumentTab.is_dirty tab = false \/ resp = No \/
          (resp = Yes /\ target tab save_as <> [] /\
           exists w1,
             write_text (target tab save_as) (DocumentTab.text tab) w
               = (w1, Ok tt))) ->
         MainWindow.tabs (main sh')
           = remove_nth (Z.to_nat index) (MainWindow.tabs (main sh)) /\
         stack sh' = match MainWindow.tabs (main sh') with
                     | [] => 0
                     | _ => stack sh
                     end) /\
        (DocumentTab.is_dirty tab = true ->
         (resp = Cancel \/ (resp = Yes /\ target tab save_as = [])) ->
         (w', sh') = (w, sh)) /\
        (DocumentTab.is_dirty tab = true -> resp = Yes ->
         target tab save_as <> [] ->
         forall w1 e,
           write_text (target tab save_as) (DocumentTab.text tab) w
             = (w1, Raise e) ->
           (w', sh') = (w1, sh))).
Proof.
  intros Hl. split.
  - intros [Hneg | Hnone]; unfold close_tab.
    + destruct (Z.ltb_spec index 0); [reflexivity | lia].
    + destruct (index <? 0); [reflexivity |].
      unfold bindM, self. now rewrite Hnone.
  - intros tab Hpos Htab. unfold close_tab.
    destruct (Z.ltb_spec index 0); [lia |].
    unfold bindM at 1. unfold self at 1. rewrite Htab.
    set (i := Z.to_nat index) in *.
    assert (Hsh : set_main (main sh) sh = sh) by now destruct sh.
    destruct (DocumentTab.is_dirty tab) eqn:Hd; [destruct resp |].
    + (* Yes *)
      unfold bindM at 1. unfold on_main at 1.
      rewrite (save_tab_run i save_as w (main sh) tab Htab).
      destruct (target tab save_as) as [| c p] eqn:Et; cbn [nonempty].
      * rewrite Hsh. do 2 eexists. split; [reflexivity |].
        split; [| split].
        -- intros [E | [E | (_ & E & _)]]; congruence.
        -- reflexivity.
        -- congruence.
      * rewrite (try_save_strings _ _ _ _ tab l Htab Hl).
        destruct (write_text (c :: p) (DocumentTab.text tab) w)
          as [w1 [[] | e]] eqn:Hw.
        -- cbv beta iota zeta. rewrite close_tab_removes.
           do 2 eexists. split; [reflexivity |]. split; [| split].
           ++ intros _. cbn [main set_main stack MainWindow.tabs
                MainWindow.set_tabs MainWindow.with_recent
                MainWindow.set_state].
              now rewrite remove_nth_replace_nth.
           ++ intros _ [E | [_ E]]; discriminate.
           ++ intros _ _ _ w2 e E. discriminate.
        -- rewrite Hsh. do 2 eexists. split; [reflexivity |].
           split; [| split].
           ++ intros [E | [E | (_ & _ & w2 & E)]]; discriminate.
           ++ intros _ [E | [_ E]]; discriminate.
           ++ intros _ _ _ w2 e' E. now injection E as <- _.
    + (* No *)
      unfold bindM at 1. unfold ret at 1.
      rewrite close_tab_removes. do 2 eexists. split; [reflexivity |].
      split; [| split].
      * intros _. split; reflexivity.
      * intros _ [E | [E _]]; discriminate.
      * intros _ E. discriminate.
    + (* Cancel *)
      do 2 eexists. split; [reflexivity |]. split; [| split].
      * intros [E | [E | (E & _)]]; discriminate.
      * reflexivity.
      * intros _ E. discriminate.
    + (* unmodified *)
      unfold bindM at 1. unfold ret at 1.
      rewrite close_tab_removes. do 2 eexists. split; [reflexivity |].
      split; [| split].
      * intros _. split; reflexivity.
      * discriminate.
      * discriminate.
Qed.

(** *** Closing the window *)

(** One round of the loop of [closeEvent], by the tab it meets. *)
Lemma ask_dirty_tabs_step (n i : nat) (ask : nat -> button)
    (save_as : nat -> pystr) (w : World) (mw : MainWindow.t)
    (tab : DocumentTab.t) :
  nth_error (MainWindow.tabs mw) i = Some tab ->
  ask_dirty_tabs (S n) i ask save_as (w, mw) =
    if DocumentTab.is_dirty tab then
      match ask i with
      | Cancel => ((w, mw), Ok false)
      | No => ask_dirty_tabs n (S i) ask save_as (w, mw)
      | Yes =>
          match _save_tab i (save_as i) (w, mw) with
          | (s1, Ok true) => ask_dirty_tabs n (S i) ask save_as s1
          | (s1, Ok false) => (s1, Ok false)
          | (s1, Raise e) => (s1, Raise e)
          end
      end
    else ask_dirty_tabs n (S i) ask save_as (w, mw).
Proof.
  intros Htab. cbn [ask_dirty_tabs]. unfold bindM at 1. unfold self at 1.
  rewrite Htab. unfold bindM at 1.
  destruct (DocumentTab.is_dirty tab); [destruct (ask i) |]; try reflexivity.
  destruct (_save_tab i (save_as i) (w, mw)) as [s1 [[|] | e]]; reflexivity.
Qed.

(** The loop returns a truth value and keeps the number of tabs; when it
    returns [True], the tabs before [i] are as they were, and each tab
    from [i] on that is still modified was answered No. *)
Lemma ask_dirty_tabs_sound (ask : nat -> button) (save_as : nat -> pystr)
    (n : nat) :
  forall i w mw,
    (i + n = count mw)%nat ->
    exists s' b,
      ask_dirty_tabs n i ask save_as (w, mw) = (s', Ok b) /\
      count (snd s') = count mw /\
      (b = true ->
       (forall j, (j < i)%nat ->
          nth_error (MainWindow.tabs (snd s')) j
          = nth_error (MainWindow.tabs mw) j) /\
       (forall j tab, (i <= j)%nat ->
          nth_error (MainWindow.tabs (snd s')) j = Some tab ->
          DocumentTab.is_dirty tab = true -> ask j = No)).
Proof.
  induction n as [| n IH]; intros i w mw Hn.
  - exists (w, mw), true. split; [reflexivity |]. split; [reflexivity |].
    intros _. split; [reflexivity |]. intros j tab Hj Htab.
    assert (Hnone : nth_error (MainWindow.tabs mw) j = None)
      by (apply nth_error_None; unfold count in Hn; lia).
    cbn [snd] in Htab. congruence.
  - destruct (nth_error (MainWindow.tabs mw) i) as [tab |] eqn:Htab.
    2: { apply nth_error_None in Htab. unfold count in Hn. lia. }
    rewrite (ask_dirty_tabs_step n i ask save_as w mw tab Htab).
    assert (Hsame : forall s' b,
      ask_dirty_tabs n (S i) ask save_as (w, mw) = (s', Ok b) ->
      count (snd s') = count mw ->
      (b = true ->
       (forall j, (j < S i)%nat ->
          nth_error (MainWindow.tabs (snd s')) j
          = nth_error (MainWindow.tabs mw) j) /\
       (forall j t, (S i <= j)%nat ->
          nth_error (MainWindow.tabs (snd s')) j = Some t ->
          DocumentTab.is_dirty t = true -> ask j = No)) ->
      (DocumentTab.is_dirty tab = true -> ask i = No) ->
      b = true ->
      (forall j, (j < i)%nat ->
         nth_error (MainWindow.tabs (snd s')) j
         = nth_error (MainWindow.tabs mw) j) /\
      (forall j t, (i <= j)%nat ->
         nth_error (MainWindow.tabs (snd s')) j = Some t ->
         DocumentTab.is_dirty t = true -> ask j = No)).
    { intros s' b _ _ Hb Hi Eb. destruct (Hb Eb) as [Hpre Hpost]. split.
      - intros j Hj. apply Hpre. lia.
      - intros j t Hj Ht Hd. destruct (Nat.eq_dec j i) as [-> | Hne].
        + rewrite Hpre in Ht by lia. rewrite Htab in Ht.
          injection Ht as <-. auto.
        + apply (Hpost j t); [lia | assumption ..]. }
    destruct (DocumentTab.is_dirty tab) eqn:Hd; [destruct (ask i) eqn:Ha |].
    + (* Yes *)
      destruct (save_tab_returns i (save_as i) w mw tab Htab)
        as (s1 & b1 & E1 & Hc1).
      rewrite E1. destruct b1.
      * destruct (save_tab_true i (save_as i) w mw tab s1 Htab E1)
          as (_ & _ & Htabs1).
        destruct s1 as [w1 mw1]. cbn [snd] in *.
        destruct (IH (S i) w1 mw1 ltac:(lia)) as (s' & b & E & Hc & Hb).
        exists s', b. split; [exact E |]. split; [congruence |].
        intros Eb. destruct (Hb Eb) as [Hpre Hpost]. split.
        -- intros j Hj. rewrite Hpre by lia. rewrite Htabs1.
           rewrite nth_error_replace_nth.
           destruct (Nat.eqb_spec i j); [lia | reflexivity].
        -- intros j t Hj Ht Hdt. destruct (Nat.eq_dec j i) as [-> | Hne].
           ++ rewrite Hpre in Ht by lia. rewrite Htabs1 in Ht.
              rewrite nth_error_replace_nth, Nat.eqb_refl in Ht.
              destruct (i <? List.length (MainWindow.tabs mw))%nat;
                [| discriminate].
              injection Ht as <-. discriminate.
           ++ apply (Hpost j t); [lia | assumption ..].
      * exists s1, false. split; [reflexivity |]. split; [assumption |].
        discriminate.
    + (* No *)
      destruct (IH (S i) w mw ltac:(lia)) as (s' & b & E & Hc & Hb).
      exists s', b. split; [exact E |]. split; [exact Hc |].
      apply (Hsame s' b E Hc Hb). auto.
    + (* Cancel *)
      exists (w, mw), false. split; [reflexivity |]. split; [reflexivity |].
      discriminate.
    + destruct (IH (S i) w mw ltac:(lia)) as (s' & b & E & Hc & Hb).
      exists s', b. split; [exact E |]. split; [exact Hc |].
      apply (Hsame s' b E Hc Hb). discriminate.
Qed.

(** Tabs that are unmodified or answered No are passed over. *)
Lemma ask_dirty_tabs_pass (ask : nat -> button) (save_as : nat -> pystr)
    (w : World) (mw : MainWindow.t) (n : nat) :
  forall i,
    (forall j tab, (i <= j < i + n)%nat ->
       nth_error (MainWindow.tabs mw) j = Some tab ->
       DocumentTab.is_dirty tab = true -> ask j = No) ->
    forall m, (i + n + m = count mw)%nat ->
    ask_dirty_tabs (n + m) i ask save_as (w, mw)
    = ask_dirty_tabs m (i + n) ask save_as (w, mw).
Proof.
  induction n as [| n IH]; intros i Hno m Hm.
  - now rewrite Nat.add_0_r.
  - destruct (nth_error (MainWindow.tabs mw) i) as [tab |] eqn:Htab.
    2: { apply nth_error_None in Htab. unfold count in Hm. lia. }
    cbn [Nat.add].
    rewrite (ask_dirty_tabs_step (n + m) i ask save_as w mw tab Htab).
    replace (i + S n)%nat with (S i + n)%nat by lia.
    assert (Hrest : ask_dirty_tabs (n + m) (S i) ask save_as (w, mw)
                    = ask_dirty_tabs m (S i + n) ask save_as (w, mw)).
    { apply IH; [| lia]. intros j t Hj. apply Hno. lia. }
    destruct (DocumentTab.is_dirty tab) eqn:Hd; [| exact Hrest].
    rewrite (Hno i tab ltac:(lia) Htab Hd). exact Hrest.
Qed.

Lemma closeEvent_returns (ask : nat -> button) (save_as : nat -> pystr)
    (w : World) (mw : MainWindow.t) :
  exists w' mw' b,
    closeEvent ask save_as (w, mw) = ((w', mw'), Ok b) /\
    count mw' = count mw /\
    (b = true ->
     (forall j tab,
         nth_error (MainWindow.tabs mw') j = Some tab ->
         DocumentTab.is_dirty tab = true -> ask j = No) /\
     exists w1, w' = fst (save_state (MainWindow.state mw') w1)).
Proof.
  unfold closeEvent. unfold bindM at 1. unfold self at 1.
  destruct (ask_dirty_tabs_sound ask save_as (count mw) 0 w mw eq_refl)
    as ([w1 mw1] & b & E & Hc & Hb).
  fold (count mw). unfold bindM at 1. rewrite E. cbn [snd] in *.
  destruct b.
  - unfold bindM. rewrite save_run. do 3 eexists.
    split; [reflexivity |]. split; [exact Hc |]. intros _.
    destruct (Hb eq_refl) as [_ Hpost]. split; [| now exists w1].
    intros j tab. apply Hpost. lia.
  - do 3 eexists. split; [reflexivity |]. split; [exact Hc |].
    discriminate.
Qed.

(** X13.  [closeEvent] never raises and removes no tab.  It accepts the
    event only when every tab that is still modified was answered No, the
    others having been saved, and it then saves the state.  When every
    modified tab is answered No, it accepts without touching a tab.  When
    the first modified tab that is not answered No is answered Cancel,
    it ignores the event and changes nothing, the settings file
    included. *)
Theorem closeEvent_spec (ask : nat -> button) (save_as : nat -> pystr)
    (w : World) (mw : MainWindow.t) :
  (exists w' mw' b,
      closeEvent ask save_as (w, mw) = ((w', mw'), Ok b) /\
      count mw' = count mw /\
      (b = true ->
       (forall j tab,
           nth_error (MainWindow.tabs mw') j = Some tab ->
           DocumentTab.is_dirty tab = true -> ask j = No) /\
       exists w1, w' = fst (save_state (MainWindow.state mw') w1))) /\
  ((forall j tab,
       nth_error (MainWindow.tabs mw) j = Some tab ->
       DocumentTab.is_dirty tab = true -> ask j = No) ->
   closeEvent ask save_as (w, mw)
   = ((fst (save_state (MainWindow.state mw) w), mw), Ok true)) /\
  (forall i tab,
      nth_error (MainWindow.tabs mw) i = Some tab ->
      DocumentTab.is_dirty tab = true -> ask i = Cancel ->
      (forall j t, (j < i)%nat ->
         nth_error (MainWindow.tabs mw) j = Some t ->
         DocumentTab.is_dirty t = true -> ask j = No) ->
      closeEvent ask save_as (w, mw) = ((w, mw), Ok false)).
Proof.
  repeat apply conj.
  - apply closeEvent_returns.
  - intros Hno. unfold closeEvent. unfold bindM at 1. unfold self at 1.
    fold (count mw). unfold bindM at 1.
    pose proof (ask_dirty_tabs_pass ask save_as w mw (count mw) 0
                  ltac:(intros j tab _; apply Hno) 0%nat ltac:(lia)) as E.
    rewrite Nat.add_0_r in E. rewrite E. cbn [ask_dirty_tabs ret].
    unfold bindM. now rewrite save_run.
  - intros i tab Htab Hd Ha Hbefore.
    unfold closeEvent. unfold bindM at 1. unfold self at 1.
    fold (count mw). unfold bindM at 1.
    assert (Hi : (i < count mw)%nat)
      by (apply nth_error_Some; unfold count; congruence).
    pose proof (ask_dirty_tabs_pass ask save_as w mw i 0
                  ltac:(intros j t Hj; apply Hbefore; lia)
                  (count mw - i)%nat ltac:(lia)) as E.
    replace (i + (count mw - i))%nat with (count mw) in E by lia.
    rewrite E. cbn [Nat.add].
    destruct (count mw - i)%nat as [| m] eqn:Em; [lia |].
    rewrite (ask_dirty_tabs_step m i ask save_as w mw tab Htab), Hd, Ha.
    reflexivity.
Qed.

(** *** Opening and saving *)

Lemma open_file_run (path : pystr) (w : World) (sh : t) :
  open_file path (w, sh) =
    if nonempty path then
      if existsb (has_path path) (MainWindow.tabs (main sh))
      then ((w, set_stack 1 sh), Ok tt)
      else
        match DocumentTab.__init__ (MainWindow.state (main sh)) with
        | Ok tab =>
            on_main
              (try_exceptM
                 (MainWindow.on_last_tab (DocumentTab.load_file path) ;;;
                  MainWindow._add_recent path)
                 (fun _ => ret tt))
              (w, {| main := MainWindow.set_tabs
                               (MainWindow.tabs (main sh) ++ [tab]) (main sh);
                     stack := 1 |})
        | Raise e => ((w, set_stack 1 sh), Raise e)
        end
    else ((w, sh), Ok tt).
Proof.
  unfold open_file. destruct (nonempty path); [| reflexivity].
  unfold bindM at 1 2. unfold show_editor, on_self at 1, self at 1.
  cbn [main set_stack].
  destruct (existsb (has_path path) (MainWindow.tabs (main sh)));
    [reflexivity |].
  unfold bindM at 1. unfold on_main at 1.
  rewrite new_tab_run. cbn [main set_stack].
  destruct (DocumentTab.__init__ (MainWindow.state (main sh)));
    reflexivity.
Qed.

(** X14.  A cancelled dialog changes nothing.  A path that a tab already
    has only brings up the tabs page: nothing is read and no tab is
    added.  Otherwise the tabs page comes up and, with a state that makes
    tabs, [open_file] returns with a tab added last: with the text read as
    the editor gives it back, the path and no modification when the read
    succeeds, the path then being recorded in the recent files; empty and
    untitled, with the recent files and the settings file untouched, when
    the read raises.  With a state whose fonts [QFont] refuses, the
    exception of [QFont] leaves [open_file], and no tab is added. *)
Theorem open_file_spec (path : pystr) (w : World) (sh : t)
    (l : list pystr) :
  MainWindow.has_recent (main sh) l ->
  (path = [] -> open_file path (w, sh) = ((w, sh), Ok tt)) /\
  (path <> [] ->
   existsb (has_path path) (MainWindow.tabs (main sh)) = true ->
   open_file path (w, sh) = ((w, set_stack 1 sh), Ok tt)) /\
  (path <> [] ->
   existsb (has_path path) (MainWindow.tabs (main sh)) = false ->
   (MainWindow.makes_tabs (main sh) ->
    (forall s,
        read_text_replace w path = Ok s ->
        exists w' mw',
          open_file path (w, sh) = ((w', {| main := mw'; stack := 1 |}), Ok tt)
          /\ MainWindow.tabs mw'
             = MainWindow.tabs (main sh)
                 ++ [{| DocumentTab.path := Some path;
                        DocumentTab.text := plain_text s;
                        DocumentTab.modified := false |}]
          /\ MainWindow.has_recent mw'
               (MainWindow.added (resolve w path) l)) /\
    (forall e,
        read_text_replace w path = Raise e ->
        open_file path (w, sh)
        = ((w, {| main := MainWindow.set_tabs
                            (MainWindow.tabs (main sh) ++ [DocumentTab.new])
                            (main sh);
                  stack := 1 |}), Ok tt))) /\
   (forall e,
       DocumentTab.__init__ (MainWindow.state (main sh)) = Raise e ->
       open_file path (w, sh) = ((w, set_stack 1 sh), Raise e))).
Proof.
  intros Hl. rewrite open_file_run. repeat apply conj.
  - intros ->. reflexivity.
  - intros Hp Hopen. destruct path as [| c p]; [congruence |].
    cbn [nonempty]. now rewrite Hopen.
  - intros Hp Hopen. destruct path as [| c p]; [congruence |].
    cbn [nonempty]. rewrite Hopen. split; [| intros e He; now rewrite He].
    intros Hmk. unfold MainWindow.makes_tabs in Hmk.
    rewrite Hmk. unfold on_main, try_exceptM, bindM.
    cbn [main set_main stack]. rewrite on_last_tab_load.
    split; [intros s Hr | intros e Hr]; rewrite Hr; [| reflexivity].
    rewrite (add_recent_run (c :: p) w _ l) by exact Hl. cbv zeta.
    do 2 eexists. split; [reflexivity |].
    split; [reflexivity | apply has_recent_with_recent].
Qed.

Lemma saves_to_try_save (c : M (World * MainWindow.t) unit) (i : nat)
    (p : pystr) (tab : DocumentTab.t) (l : list pystr) (w : World)
    (mw : MainWindow.t) :
  nth_error (MainWindow.tabs mw) i = Some tab ->
  MainWindow.has_recent mw l ->
  c (w, mw) = (if nonempty p then (try_save i p ;;; ret tt) (w, mw)
               else ((w, mw), Ok tt)) ->
  saves_to c i p tab l w mw.
Proof.
  intros Htab Hl E. unfold saves_to. rewrite E. repeat apply conj.
  - intros ->. reflexivity.
  - intros Hp w1 e Hw. destruct p as [| a p]; [congruence |].
    cbn [nonempty]. unfold bindM.
    now rewrite (try_save_strings _ _ _ _ tab l), Hw.
  - intros Hp w1 Hw. destruct p as [| a p]; [congruence |].
    cbn [nonempty]. unfold bindM.
    rewrite (try_save_strings _ _ _ _ tab l), Hw by assumption.
    cbv zeta. do 2 eexists. split; [reflexivity |].
    split; [reflexivity | apply has_recent_with_recent].
Qed.

(** X15.  [save_current] saves the current tab to its path, and a tab
    without a path to the path of the Save As dialog; [save_current_as]
    saves to the path of the dialog also when the tab has a path.  Both
    return nothing and never raise.  When the text is written the tab has
    the path written to and is unmodified, the other tabs are as before,
    and the path is recorded in the recent files; when the write raises,
    the window is as before.  Without a current tab, and when the dialog
    is cancelled, nothing changes. *)
Theorem save_current_spec (current : option nat) (save_as : pystr)
    (w : World) (mw : MainWindow.t) (l : list pystr) :
  MainWindow.has_recent mw l ->
  (forall i tab,
      current = Some i ->
      nth_error (MainWindow.tabs mw) i = Some tab ->
      saves_to (save_current current save_as) i (target tab save_as) tab l
        w mw /\
      saves_to (save_current_as current save_as) i save_as tab l w mw) /\
  ((current = None \/
    exists i, current = Some i /\ nth_error (MainWindow.tabs mw) i = None) ->
   save_current current save_as (w, mw) = ((w, mw), Ok tt) /\
   save_current_as current save_as (w, mw) = ((w, mw), Ok tt)).
Proof.
  intros Hl. split.
  - intros i tab -> Htab.
    assert (Has : save_current_as (Some i) save_as (w, mw)
                  = if nonempty save_as
                    then (try_save i save_as ;;; ret tt) (w, mw)
                    else ((w, mw), Ok tt)).
    { unfold save_current_as. unfold bindM at 1. unfold self at 1.
      rewrite Htab. now destruct (nonempty save_as). }
    split; apply saves_to_try_save; try assumption.
    unfold save_current. unfold bindM at 1. unfold self at 1. rewrite Htab.
    unfold target.
    destruct (DocumentTab.path tab) as [[| c p] |]; cbn [nonempty];
      try exact Has; reflexivity.
  - intros [-> | (i & -> & Hnone)]; [split; reflexivity |].
    unfold save_current, save_current_as, bindM, self. rewrite Hnone.
    split; reflexivity.
Qed.

(** *** What the slots keep *)

Lemma lists_strings_state (mw mw' : MainWindow.t) :
  MainWindow.state mw' = MainWindow.state mw ->
  lists_strings mw -> lists_strings mw'.
Proof.
  intros E [l Hl]. exists l. unfold MainWindow.has_recent in *. now rewrite E.
Qed.

Lemma keeps_fields_refl (mw : MainWindow.t) : keeps_fields mw mw.
Proof. intros k _. reflexivity. Qed.

Lemma keeps_fields_trans (a b c : MainWindow.t) :
  keeps_fields a b -> keeps_fields b c -> keeps_fields a c.
Proof. intros Hab Hbc k Hk. now rewrite (Hbc k Hk), (Hab k Hk). Qed.

Lemma keeps_fields_state (mw mw' : MainWindow.t) :
  MainWindow.state mw' = MainWindow.state mw -> keeps_fields mw mw'.
Proof. intros E k _. now rewrite E. Qed.

Lemma lookup_store_neq {V} (k k' : pystr) (v : V) (o : list (pystr * V)) :
  k <> k' -> lookup k (store k' v o) = lookup k o.
Proof.
  intros Hk. induction o as [| [k0 v0] o IH]; simpl.
  - destruct (str_eqb k' k) eqn:E; [| reflexivity].
    apply str_eqb_eq in E. congruence.
  - destruct (str_eqb k0 k') eqn:E0; simpl.
    + apply str_eqb_eq in E0. subst k0.
      destruct (str_eqb k' k) eqn:E; [| reflexivity].
      apply str_eqb_eq in E. congruence.
    + now rewrite IH.
Qed.

Lemma keeps_fields_with_recent (l : list pystr) (mw : MainWindow.t) :
  keeps_fields mw (MainWindow.with_recent l mw).
Proof.
  intros k Hk. unfold MainWindow.with_recent, MainWindow.set_state.
  cbn [MainWindow.state]. now apply lookup_store_neq.
Qed.

(** Whether the state makes tabs goes by its font fields only. *)
Lemma makes_tabs_fields (mw mw' : MainWindow.t) :
  keeps_fields mw mw' ->
  DocumentTab.__init__ (MainWindow.state mw')
  = DocumentTab.__init__ (MainWindow.state mw).
Proof.
  intros Hf.
  unfold DocumentTab.__init__, DocumentTab.apply_font, getattr.
  now rewrite !Hf by discriminate.
Qed.

Lemma grows_same {A} (c : M (World * MainWindow.t) A) :
  keeps MainWindow.state c -> keeps count c -> grows c.
Proof.
  intros Hs Hc w mw Hl. split; [| split].
  - now apply (lists_strings_state mw _ (Hs w mw)).
  - now rewrite (Hc w mw).
  - apply keeps_fields_state, Hs.
Qed.

Lemma grows_ret {A} (a : A) : grows (W := World) (ret a).
Proof.
  intros w mw Hl. split; [exact Hl |].
  split; [reflexivity | apply keeps_fields_refl].
Qed.

Lemma grows_lift {A} (o : outcome A) : grows (W := World) (lift o).
Proof.
  intros w mw Hl. split; [exact Hl |].
  split; [reflexivity | apply keeps_fields_refl].
Qed.

Lemma grows_self : grows (W := World) self.
Proof.
  intros w mw Hl. split; [exact Hl |].
  split; [reflexivity | apply keeps_fields_refl].
Qed.

Lemma grows_bind {A B} (c : M (World * MainWindow.t) A)
    (k : A -> M (World * MainWindow.t) B) :
  grows c -> (forall a, grows (k a)) -> grows (bindM c k).
Proof.
  intros Hc Hk w mw Hl. unfold bindM.
  destruct (Hc w mw Hl) as (Hl1 & Hn1 & Hf1).
  destruct (c (w, mw)) as [[w1 mw1] [a | e]]; cbn [fst snd] in *.
  - destruct (Hk a w1 mw1 Hl1) as (Hl2 & Hn2 & Hf2).
    split; [assumption |].
    split; [lia | now apply (keeps_fields_trans mw mw1)].
  - now split.
Qed.

Lemma grows_try {A} (c : M (World * MainWindow.t) A)
    (h : exn -> M (World * MainWindow.t) A) :
  grows c -> (forall e, grows (h e)) -> grows (try_exceptM c h).
Proof.
  intros Hc Hh w mw Hl. unfold try_exceptM.
  destruct (Hc w mw Hl) as (Hl1 & Hn1 & Hf1).
  destruct (c (w, mw)) as [[w1 mw1] [a | e]]; cbn [fst snd] in *.
  - now split.
  - destruct (Hh e w1 mw1 Hl1) as (Hl2 & Hn2 & Hf2).
    split; [assumption |].
    split; [lia | now apply (keeps_fields_trans mw mw1)].
Qed.

Lemma grows_on_tab {A} (i : nat) (c : M (World * DocumentTab.t) A) :
  grows (on_tab i c).
Proof.
  destruct (keeps_on_tab i c) as [Hc Hs]. now apply grows_same.
Qed.

Lemma grows_on_last_tab {A} (c : M (World * DocumentTab.t) A) :
  grows (MainWindow.on_last_tab c).
Proof.
  apply grows_same; intros w mw; unfold MainWindow.on_last_tab, count.
  - destruct (rev (MainWindow.tabs mw)) as [| tab before]; [reflexivity |].
    destruct (c (w, tab)) as [[w1 tab1] [a | e]]; reflexivity.
  - destruct (rev (MainWindow.tabs mw)) as [| tab before] eqn:E;
      [reflexivity |].
    assert (Hn : List.length (MainWindow.tabs mw) = S (List.length before))
      by (rewrite <- length_rev, E; reflexivity).
    destruct (c (w, tab)) as [[w1 tab1] [a | e]];
      cbn [fst snd MainWindow.tabs MainWindow.set_tabs];
      rewrite length_rev; cbn [List.length]; lia.
Qed.

Lemma grows_new_tab : grows MainWindow.new_tab.
Proof.
  intros w mw Hl. rewrite new_tab_run.
  destruct (DocumentTab.__init__ (MainWindow.state mw)) as [tab | e];
    cbn [fst snd]; (split; [exact Hl |]);
    (split; [| now apply keeps_fields_state]); [| reflexivity].
  unfold count. cbn [MainWindow.tabs MainWindow.set_tabs].
  rewrite length_app. lia.
Qed.

Lemma grows_add_recent (path : pystr) : grows (MainWindow._add_recent path).
Proof.
  intros w mw [l Hl]. rewrite (add_recent_run path w mw l Hl). cbv zeta.
  cbn [fst snd]. split; [eexists; apply has_recent_with_recent |].
  split; [reflexivity | apply keeps_fields_with_recent].
Qed.

Lemma grows_clear_recent : grows MainWindow._clear_recent.
Proof.
  intros w mw _. rewrite clear_recent_run. cbn [fst snd].
  split; [eexists; apply has_recent_with_recent |].
  split; [reflexivity | apply keeps_fields_with_recent].
Qed.

Lemma grows_save : grows MainWindow.save.
Proof.
  intros w mw Hl. rewrite save_run. split; [exact Hl |].
  split; [reflexivity | apply keeps_fields_refl].
Qed.

Lemma grows_try_save (i : nat) (p : pystr) : grows (try_save i p).
Proof.
  apply grows_try; [| intros; apply grows_ret].
  apply grows_bind; [apply grows_on_tab | intros _].
  apply grows_bind; [apply grows_add_recent | intros; apply grows_ret].
Qed.

Lemma grows_save_tab (i : nat) (save_as : pystr) : grows (_save_tab i save_as).
Proof.
  apply grows_bind; [apply grows_self | intros mw].
  destruct (nth_error (MainWindow.tabs mw) i) as [tab |];
    [| apply grows_lift].
  destruct (DocumentTab.path tab) as [[| c p] |];
    try apply grows_try_save;
    (destruct (nonempty save_as); [apply grows_try_save | apply grows_ret]).
Qed.

Lemma grows_save_current_as (current : option nat) (save_as : pystr) :
  grows (save_current_as current save_as).
Proof.
  apply grows_bind; [apply grows_self | intros mw].
  destruct current as [i |]; [| apply grows_ret].
  destruct (nth_error (MainWindow.tabs mw) i); [| apply grows_ret].
  destruct (nonempty save_as); [| apply grows_ret].
  apply grows_bind; [apply grows_try_save | intros; apply grows_ret].
Qed.

Lemma grows_save_current (current : option nat) (save_as : pystr) :
  grows (save_current current save_as).
Proof.
  apply grows_bind; [apply grows_self | intros mw].
  destruct current as [i |]; [| apply grows_ret].
  destruct (nth_error (MainWindow.tabs mw) i) as [tab |]; [| apply grows_ret].
  destruct (DocumentTab.path tab) as [[| c p] |];
    try apply grows_save_current_as.
  apply grows_bind; [apply grows_try_save | intros; apply grows_ret].
Qed.

Lemma grows_ask_dirty_tabs (ask : nat -> button) (save_as : nat -> pystr)
    (n : nat) :
  forall i, grows (ask_dirty_tabs n i ask save_as).
Proof.
  induction n as [| n IH]; intros i; cbn [ask_dirty_tabs];
    [apply grows_ret |].
  apply grows_bind; [apply grows_self | intros mw].
  apply grows_bind.
  - destruct (nth_error (MainWindow.tabs mw) i) as [tab |];
      [| apply grows_ret].
    destruct (DocumentTab.is_dirty tab); [| apply grows_ret].
    destruct (ask i); try apply grows_ret. apply grows_save_tab.
  - intros [|]; [apply IH | apply grows_ret].
Qed.

Lemma grows_closeEvent (ask : nat -> button) (save_as : nat -> pystr) :
  grows (closeEvent ask save_as).
Proof.
  apply grows_bind; [apply grows_self | intros mw].
  apply grows_bind; [apply grows_ask_dirty_tabs | intros [|]].
  - apply grows_bind; [apply grows_save | intros; apply grows_ret].
  - apply grows_ret.
Qed.

Lemma grows_open_recent (path : pystr) :
  grows (MainWindow._open_recent path).
Proof.
  intros w mw [l Hl].
  destruct (path_exists w path) as [[|] | x] eqn:Hex.
  - rewrite (open_recent_present_run path w mw Hex).
    destruct (DocumentTab.__init__ (MainWindow.state mw)) as [tab | e];
      [destruct (read_text_replace w path) |];
      cbn [fst snd]; (split; [now exists l |]);
      (split; [| now apply keeps_fields_state]); try reflexivity;
      unfold count; cbn [MainWindow.tabs MainWindow.set_tabs];
      rewrite length_app; lia.
  - rewrite (open_recent_missing_run path w mw l Hl Hex). cbv zeta.
    cbn [fst snd]. split; [eexists; apply has_recent_with_recent |].
    split; [reflexivity | apply keeps_fields_with_recent].
  - rewrite (open_recent_refused_run path w mw x Hex). cbn [fst snd].
    split; [now exists l |]. split; [reflexivity | apply keeps_fields_refl].
Qed.

(** *** The window between events *)

Lemma sound_ret {A} (a : A) : sound (ret a).
Proof. intros w sh. split; intros Hs; exact Hs. Qed.

Lemma sound_bind {A B} (c : M (World * t) A) (k : A -> M (World * t) B) :
  sound c -> (forall a, sound (k a)) -> sound (bindM c k).
Proof.
  intros Hc Hk w sh. unfold bindM. destruct (Hc w sh) as [Hl Hs].
  destruct (c (w, sh)) as [[w1 sh1] [a | e]]; cbn [fst snd] in *.
  - destruct (Hk a w1 sh1) as [Hl2 Hs2]. split; auto.
  - split; assumption.
Qed.

Lemma sound_self : sound self.
Proof. intros w sh. split; intros Hs; exact Hs. Qed.

Lemma sound_on_main {A} (c : M (World * MainWindow.t) A) :
  grows c -> sound (on_main c).
Proof.
  intros Hc w sh. unfold on_main. split.
  - intros Hl. destruct (Hc w (main sh) Hl) as (Hl1 & _).
    now destruct (c (w, main sh)) as [[w1 mw1] r].
  - intros (Hl & Hm & Hst & Htabs).
    destruct (Hc w (main sh) Hl) as (Hl1 & Hn1 & Hf1).
    destruct (c (w, main sh)) as [[w1 mw1] r]. cbn [fst snd] in *.
    split; [exact Hl1 |]. split.
    + unfold MainWindow.makes_tabs in *. cbn [main set_main].
      now rewrite (makes_tabs_fields (main sh) mw1 Hf1).
    + split; [exact Hst |].
      cbn [stack set_main main]. intros E Hnil. specialize (Htabs E).
      unfold count in Hn1. rewrite Hnil in Hn1.
      destruct (MainWindow.tabs (main sh)); [congruence | cbn in Hn1; lia].
Qed.

Lemma sound_show_start : sound show_start.
Proof.
  intros w sh. split; [auto |]. intros (Hl & Hm & _).
  split; [exact Hl |]. split; [exact Hm |]. split; [now left |].
  cbn. discriminate.
Qed.

(** With a tab the tabs page may show. *)
Lemma steady_with_tab (mw : MainWindow.t) :
  lists_strings mw -> MainWindow.makes_tabs mw -> MainWindow.tabs mw <> [] ->
  steady {| main := mw; stack := 1 |}.
Proof.
  intros Hl Hm Hne. split; [exact Hl |]. split; [exact Hm |].
  split; [now right | now intros _].
Qed.

Lemma steady_new_tab (sh : t) (tab : DocumentTab.t) :
  lists_strings (main sh) -> MainWindow.makes_tabs (main sh) ->
  steady {| main := MainWindow.set_tabs
                      (MainWindow.tabs (main sh) ++ [tab]) (main sh);
            stack := 1 |}.
Proof.
  intros Hl Hm. apply steady_with_tab.
  - now apply (lists_strings_state (main sh)).
  - exact Hm.
  - cbn [MainWindow.tabs MainWindow.set_tabs].
    destruct (MainWindow.tabs (main sh)); discriminate.
Qed.

Lemma on_start_new_file_run (w : World) (sh : t) :
  on_start_new_file (w, sh) =
    match DocumentTab.__init__ (MainWindow.state (main sh)) with
    | Ok tab =>
        ((w, {| main := MainWindow.set_tabs
                          (MainWindow.tabs (main sh) ++ [tab]) (main sh);
                stack := 1 |}), Ok tt)
    | Raise e => ((w, set_stack 1 sh), Raise e)
    end.
Proof.
  unfold on_start_new_file, bindM, show_editor, on_self, on_main.
  cbn [main set_stack]. rewrite new_tab_run.
  destruct (DocumentTab.__init__ (MainWindow.state (main sh)));
    reflexivity.
Qed.

Lemma sound_on_start_new_file : sound on_start_new_file.
Proof.
  intros w sh. rewrite on_start_new_file_run. split.
  - intros Hl.
    destruct (DocumentTab.__init__ (MainWindow.state (main sh)));
      exact Hl.
  - intros (Hl & Hm & _). pose proof Hm as Hm'.
    unfold MainWindow.makes_tabs in Hm'. rewrite Hm'. cbn [fst snd].
    now apply steady_new_tab.
Qed.

Lemma sound_close_tab (index : Z) (resp : button) (save_as : pystr) :
  sound (close_tab index resp save_as).
Proof.
  unfold close_tab. destruct (index <? 0); [apply sound_ret |].
  apply sound_bind; [apply sound_self | intros sh].
  destruct (nth_error (MainWindow.tabs (main sh)) (Z.to_nat index))
    as [tab |]; [| apply sound_ret].
  apply sound_bind.
  - destruct (DocumentTab.is_dirty tab); [| apply sound_ret].
    destruct resp; try apply sound_ret.
    apply sound_on_main, grows_save_tab.
  - intros [|]; [| apply sound_ret].
    intros w sh1. rewrite close_tab_removes. cbn [fst snd]. split.
    + intros Hl. cbn [main]. now apply (lists_strings_state (main sh1)).
    + intros (Hl & Hm & Hst & _).
      split; [now apply (lists_strings_state (main sh1)) |].
      split; [exact Hm |].
      cbn [stack main MainWindow.tabs MainWindow.set_tabs].
      destruct (remove_nth (Z.to_nat index) (MainWindow.tabs (main sh1))).
      * split; [now left | discriminate].
      * split; [exact Hst | discriminate].
Qed.

Lemma sound_open_file (path : pystr) : sound (open_file path).
Proof.
  intros w sh. rewrite open_file_run.
  destruct (nonempty path); [| split; auto].
  destruct (existsb (has_path path) (MainWindow.tabs (main sh))) eqn:E.
  - cbn [fst snd]. split; [auto |]. intros (Hl & Hm & _).
    apply steady_with_tab; [exact Hl | exact Hm |].
    cbn [main set_stack]. intros Hnil. now rewrite Hnil in E.
  - assert (Hg : grows
                   (try_exceptM
                      (MainWindow.on_last_tab (DocumentTab.load_file path) ;;;
                       MainWindow._add_recent path)
                      (fun _ => ret tt))).
    { apply grows_try; [| intros; apply grows_ret].
      apply grows_bind; [apply grows_on_last_tab | intros _].
      apply grows_add_recent. }
    destruct (DocumentTab.__init__ (MainWindow.state (main sh)))
      as [tab | e] eqn:Ei.
    + destruct (sound_on_main _ Hg w
                  {| main := MainWindow.set_tabs
                               (MainWindow.tabs (main sh) ++ [tab]) (main sh);
                     stack := 1 |}) as [Hl' Hs'].
      split.
      * intros Hl. apply Hl'. cbn [main].
        now apply (lists_strings_state (main sh)).
      * intros (Hl & Hm & _). apply Hs'. now apply steady_new_tab.
    + unfold MainWindow.makes_tabs. cbn [fst snd main set_stack].
      split; [auto |]. intros (_ & Hm & _). congruence.
Qed.

Lemma sound_on_start_open_folder (folder : pystr) :
  sound (on_start_open_folder folder).
Proof.
  unfold on_start_open_folder. destruct (nonempty folder);
    [apply sound_on_start_new_file | apply sound_ret].
Qed.

(** The window's [_open_recent] is the main window's, with the tabs page
    brought up when the path exists. *)
Lemma open_recent_main (path : pystr) (w : World) (sh : t) :
  _open_recent path (w, sh) =
    let '((w', mw'), r) := MainWindow._open_recent path (w, main sh) in
    ((w', {| main := mw';
             stack := match path_exists w path with
                      | Ok true => 1
                      | _ => stack sh
                      end |}), r).
Proof.
  destruct (path_exists w path) as [[|] | x] eqn:Hex.
  - rewrite (open_recent_present_run path w (main sh) Hex).
    unfold _open_recent.
    unfold bindM at 1. unfold ask_world at 1. rewrite Hex. cbn [negb].
    unfold bindM at 1. unfold show_editor, on_self at 1.
    unfold bindM at 1. unfold on_main at 1. cbn [main set_stack].
    rewrite new_tab_run.
    destruct (DocumentTab.__init__ (MainWindow.state (main sh)))
      as [tab | e]; [| reflexivity].
    unfold bindM, on_main. cbn [main set_main stack].
    rewrite on_last_tab_load.
    destruct (read_text_replace w path); reflexivity.
  - set (prune := rf <~ MainWindow.recent_files ;;
                  MainWindow.set_recent_files
                    (filter (fun p => negb (eq_str path p)) rf) ;;;
                  MainWindow.save).
    assert (E1 : MainWindow._open_recent path (w, main sh)
                 = prune (w, main sh)).
    { unfold MainWindow._open_recent. unfold bindM at 1.
      unfold ask_world at 1. now rewrite Hex. }
    assert (E2 : _open_recent path (w, sh) = on_main prune (w, sh)).
    { unfold _open_recent. unfold bindM at 1. unfold ask_world at 1.
      now rewrite Hex. }
    rewrite E1, E2. unfold on_main.
    destruct (prune (w, main sh)) as [[w1 mw1] r]. now destruct sh.
  - rewrite (open_recent_refused_run path w (main sh) x Hex).
    unfold _open_recent, bindM, ask_world. rewrite Hex. now destruct sh.
Qed.

Lemma sound_open_recent (path : pystr) : sound (_open_recent path).
Proof.
  intros w sh. rewrite open_recent_main.
  assert (Hg := grows_open_recent path w (main sh)).
  split.
  - intros Hl. destruct (Hg Hl) as (Hl1 & _).
    now destruct (MainWindow._open_recent path (w, main sh))
      as [[w1 mw1] r].
  - intros (Hl & Hm & Hst & Htabs).
    destruct (Hg Hl) as (Hl1 & Hn1 & Hf1).
    assert (Hm1 : MainWindow.makes_tabs
                    (snd (fst (MainWindow._open_recent path (w, main sh)))))
      by (unfold MainWindow.makes_tabs in *;
          now rewrite (makes_tabs_fields _ _ Hf1)).
    destruct (path_exists w path) as [[|] | x] eqn:Hex.
    + rewrite (open_recent_present_run path w (main sh) Hex) in *.
      unfold MainWindow.makes_tabs in Hm. rewrite Hm in *.
      destruct (read_text_replace w path); cbn [fst snd] in *;
        (apply steady_with_tab; [exact Hl1 | exact Hm1 |]);
        cbn [MainWindow.tabs MainWindow.set_tabs];
        destruct (MainWindow.tabs (main sh)); discriminate.
    + destruct (MainWindow._open_recent path (w, main sh)) as [[w1 mw1] r].
      cbn [fst snd] in *. split; [exact Hl1 |]. split; [exact Hm1 |].
      split; [exact Hst |].
      cbn [stack main]. intros E Hnil. specialize (Htabs E).
      unfold count in Hn1. rewrite Hnil in Hn1.
      destruct (MainWindow.tabs (main sh)); [congruence | cbn in Hn1; lia].
    + destruct (MainWindow._open_recent path (w, main sh)) as [[w1 mw1] r].
      cbn [fst snd] in *. split; [exact Hl1 |]. split; [exact Hm1 |].
      split; [exact Hst |].
      cbn [stack main]. intros E Hnil. specialize (Htabs E).
      unfold count in Hn1. rewrite Hnil in Hn1.
      destruct (MainWindow.tabs (main sh)); [congruence | cbn in Hn1; lia].
Qed.

Lemma length_move_nth {A} (from to : nat) (l : list A) :
  List.length (move_nth from to l) = List.length l.
Proof.
  unfold move_nth. destruct (nth_error l from) as [x |] eqn:E;
    [| reflexivity].
  destruct (Nat.ltb_spec to (List.length l)); [| reflexivity].
  rewrite length_app. cbn [List.length].
  rewrite length_firstn, length_skipn.
  pose proof (length_remove_nth from l x E). lia.
Qed.

Lemma sound_handle (e : event) : sound (handle e).
Proof.
  destruct e; cbn [handle].
  - apply sound_on_start_new_file.
  - apply sound_on_start_open_folder.
  - apply sound_open_file.
  - apply sound_on_main, grows_save_current.
  - apply sound_on_main, grows_save_current_as.
  - apply sound_close_tab.
  - apply sound_show_start.
  - apply sound_open_recent.
  - apply sound_on_main, grows_clear_recent.
  - apply sound_on_main, grows_same; apply keeps_on_self; intros mw;
      destruct (nth_error (MainWindow.tabs mw) i); try reflexivity.
    unfold count. cbn [MainWindow.tabs MainWindow.set_tabs].
    apply length_replace_nth.
  - apply sound_on_main, grows_same; apply keeps_on_self; intros mw;
      [reflexivity |].
    unfold count. cbn [MainWindow.tabs MainWindow.set_tabs].
    apply length_move_nth.
  - apply sound_bind; [| intros; apply sound_ret].
    apply sound_on_main, grows_closeEvent.
Qed.

Lemma run_sound (es : list event) :
  forall w sh,
    (lists_strings (main sh) ->
     lists_strings (main (snd (run es (w, sh))))) /\
    (steady sh -> steady (snd (run es (w, sh)))).
Proof.
  induction es as [| e es IH]; intros w sh; cbn [run]; [split; auto |].
  destruct (sound_handle e w sh) as [Hl Hs].
  destruct (handle e (w, sh)) as [[w1 sh1] r]. cbn [fst snd] in *.
  destruct (IH w1 sh1) as [Hl1 Hs1]. split; auto.
Qed.

(** X16.  The window always starts, on the start page and without a tab,
    and from then on, whatever the settings file held and whatever the
    user does, between two events the recent files are a list of strings.
    When the state that was loaded makes tabs, as the default state of a
    missing settings file does, it goes on making them, and the tabs page
    shows only while there is a tab. *)
Theorem window_stays_steady (w : World) (es : list event) :
  exists sh,
    init w = Ok sh /\
    stack sh = 0 /\ MainWindow.tabs (main sh) = [] /\
    lists_strings (main (snd (run es (w, sh)))) /\
    (MainWindow.makes_tabs (main sh) ->
     MainWindow.makes_tabs (main (snd (run es (w, sh)))) /\
     page_has_tab (snd (run es (w, sh)))) /\
    (path_exists w SETTINGS_FILE = Ok false ->
     MainWindow.makes_tabs (main sh)).
Proof.
  destruct (load_state_strings w) as (s & l & E & Hl).
  unfold init. rewrite E. cbn [bind]. eexists. split; [reflexivity |].
  split; [reflexivity |]. split; [reflexivity |].
  set (sh := {| main := {| MainWindow.state := s; MainWindow.tabs := [] |};
                stack := 0 |}).
  assert (Hls : lists_strings (main sh)) by now exists l.
  destruct (run_sound es w sh) as [Hrl Hrs].
  split; [now apply Hrl |]. split.
  - intros Hm. apply Hrs. split; [exact Hls |]. split; [exact Hm |].
    split; [now left | discriminate].
  - intros Hex.
    assert (Ed : load_state w = Ok defaults).
    { apply load_state_fallback. left. unfold load_state_try.
      now rewrite Hex. }
    rewrite Ed in E. injection E as <-.
    apply (makes_tabs_typed (main sh) (py "Segoe UI") 12 (PBool true));
      try reflexivity. lia.
Qed.

(** *** What can raise *)

Lemma on_main_outcome {A} (c : M (World * MainWindow.t) A) (w : World)
    (sh : t) :
  snd (on_main c (w, sh)) = snd (c (w, main sh)).
Proof.
  unfold on_main. now destruct (c (w, main sh)) as [[w1 mw1] r].
Qed.

Lemma try_outcome {S A} (c : M S A) (a : A) (s : S) :
  exists b, snd (try_exceptM c (fun _ => ret a) s) = Ok b.
Proof.
  unfold try_exceptM. destruct (c s) as [s1 [b | e]].
  - now exists b.
  - now exists a.
Qed.

Lemma try_save_outcome (i : nat) (p : pystr) (s : World * MainWindow.t) :
  exists b, snd (try_save i p s) = Ok b.
Proof. apply try_outcome. Qed.

Lemma bind_unit_outcome {S A} (c : M S A) (s : S) :
  (exists a, snd (c s) = Ok a) -> snd ((c ;;; ret tt) s) = Ok tt.
Proof.
  intros [a E]. unfold bindM. destruct (c s) as [s1 r]. cbn [snd] in E.
  now subst r.
Qed.

Lemma save_current_as_outcome (current : option nat) (save_as : pystr)
    (s : World * MainWindow.t) :
  snd (save_current_as current save_as s) = Ok tt.
Proof.
  destruct s as [w mw]. unfold save_current_as. unfold bindM at 1.
  unfold self at 1. destruct current as [i |]; [| reflexivity].
  destruct (nth_error (MainWindow.tabs mw) i); [| reflexivity].
  destruct (nonempty save_as); [| reflexivity].
  apply bind_unit_outcome, try_save_outcome.
Qed.

Lemma save_current_outcome (current : option nat) (save_as : pystr)
    (s : World * MainWindow.t) :
  snd (save_current current save_as s) = Ok tt.
Proof.
  destruct s as [w mw]. unfold save_current. unfold bindM at 1.
  unfold self at 1. destruct current as [i |]; [| reflexivity].
  destruct (nth_error (MainWindow.tabs mw) i) as [tab |]; [| reflexivity].
  destruct (DocumentTab.path tab) as [[| c p] |];
    try apply (save_current_as_outcome (Some i)).
  apply bind_unit_outcome, try_save_outcome.
Qed.

Lemma close_tab_outcome (index : Z) (resp : button) (save_as : pystr)
    (w : World) (sh : t) :
  snd (close_tab index resp save_as (w, sh)) = Ok tt.
Proof.
  unfold close_tab. destruct (index <? 0); [reflexivity |].
  unfold bindM at 1. unfold self at 1.
  destruct (nth_error (MainWindow.tabs (main sh)) (Z.to_nat index))
    as [tab |] eqn:Htab; [| reflexivity].
  assert (Hgo : forall s1 : World * t,
    snd ((on_main (on_self (fun mw =>
            MainWindow.set_tabs
              (remove_nth (Z.to_nat index) (MainWindow.tabs mw)) mw)) ;;;
          sh <~ self ;;
          match MainWindow.tabs (main sh) with
          | [] => show_start
          | _ => ret tt
          end) s1) = Ok tt)
    by (intros [w1 sh1]; now rewrite close_tab_removes).
  destruct (DocumentTab.is_dirty tab); [destruct resp |].
  - unfold bindM at 1. unfold on_main at 1.
    destruct (save_tab_returns (Z.to_nat index) save_as w (main sh) tab Htab)
      as ([w1 mw1] & b & E & _).
    rewrite E. destruct b; [apply Hgo | reflexivity].
  - unfold bindM at 1. unfold ret at 1. apply Hgo.
  - reflexivity.
  - unfold bindM at 1. unfold ret at 1. apply Hgo.
Qed.


End ShellFacts.

(** ** More of the program on the reference host *)

Section MoreAtReferenceHost.
Import Reference.
#[local] Existing Instance host.

Example menu_of_two_recent :
  Chrome._rebuild_recent_menu (MainWindow.state two_recent) (Some [])
  = (Some [ Chrome.Action (py "/a") true (Chrome.open_recent (py "/a"));
            Chrome.Action (py "/b") true (Chrome.open_recent (py "/b"));
            Chrome.Separator;
            Chrome.Action (py "Clear recent") true Chrome.clear_recent ],
     Ok tt).
Proof. reflexivity. Qed.

Example status_of_draft :
  Chrome.update_status_bar 1 (Some (draft, (2, 4)))
  = {| Chrome.lbl_file := py "Untitled";
       Chrome.lbl_pos := py "Ln 3, Col 5";
       Chrome.lbl_dirty := py "Modified" |}.
Proof. reflexivity. Qed.

Lemma elide_middle_idempotent_witness :
  4 <= 6 /\
  elide_middle (elide_middle (py "/home/user/notes.txt") 6) 6
  = elide_middle (py "/home/user/notes.txt") 6.
Proof.
  split; [lia |]. apply elide_middle_idempotent. lia.
Defined.

Lemma load_state_plain_object_witness :
  path_exists plain_settings SETTINGS_FILE = Ok true /\
  load_state plain_settings
  = Ok [ (py "recent_files", PList [PStr (py "/a")]);
         (py "word_wrap", PBool true);
         (py "font_family", PStr (py "Segoe UI"));
         (py "font_size", PInt 9) ].
Proof.
  split; [reflexivity |].
  assert (Hnd : NoDup (map fst [ (py "theme", PStr (py "dark"));
                                 (py "font_size", PInt 9);
                                 (py "recent_files",
                                  PList [PStr (py "/a"); PInt 7]) ])).
  { repeat constructor; cbn [In map fst]; intros E;
      repeat destruct E as [E | E]; try discriminate E; exact E. }
  refine (load_state_plain_object (H := host) plain_settings _ _
            eq_refl eq_refl _ Hnd _).
  - vm_compute. reflexivity.
  - intros k [<- | [<- | [<- | []]]]; reflexivity.
Defined.

Lemma add_recent_any_list_witness :
  MainWindow.has_recent two_recent [py "/a"; py "/b"] /\
  exists w' mw' rest,
    MainWindow._add_recent (py "/b") (desk, two_recent) = ((w', mw'), Ok tt)
    /\ MainWindow.has_recent mw' (py "/b" :: rest)
    /\ MainWindow.subsequence rest [py "/a"; py "/b"].
Proof.
  assert (Hl : MainWindow.has_recent two_recent [py "/a"; py "/b"])
    by reflexivity.
  split; [exact Hl |].
  destruct (add_recent_any_list (H := host) (py "/b") desk two_recent _ Hl)
    as (w' & mw' & rest & E & Hl' & _ & Hsub & _).
  exists w', mw', rest. auto.
Defined.

Lemma add_recent_twice_witness :
  MainWindow.has_recent two_recent [py "/a"; py "/b"] /\
  exists w1 mw1 w2 mw2,
    MainWindow._add_recent (py "/b") (desk, two_recent) = ((w1, mw1), Ok tt)
    /\ MainWindow._add_recent (py "/b") (w1, mw1) = ((w2, mw2), Ok tt)
    /\ mw2 = mw1.
Proof.
  assert (Hl : MainWindow.has_recent two_recent [py "/a"; py "/b"])
    by reflexivity.
  split; [exact Hl |].
  destruct (add_recent_twice (H := host) (py "/b") desk two_recent _ Hl)
    as (w1 & mw1 & w2 & mw2 & l' & E1 & _ & E2 & Hsame).
  exists w1, mw1, w2, mw2. split; [exact E1 |]. split; [exact E2 |].
  now apply Hsame.
Defined.

Lemma add_recent_persists_witness :
  MainWindow.state two_recent
  = AppState.instance
      {| AppState.recent_files := [py "/a"; py "/b"];
         AppState.word_wrap := true;
         AppState.font_family := py "Segoe UI";
         AppState.font_size := 12 |} /\
  exists w' mw',
    MainWindow._add_recent (py "/tmp/note.txt") (desk, two_recent)
      = ((w', mw'), Ok tt) /\
    MainWindow.has_recent mw' [py "/tmp/note.txt"; py "/a"; py "/b"] /\
    load_state w' = Ok (MainWindow.state mw').
Proof.
  split; [reflexivity |].
  pose (r := {| AppState.recent_files := [py "/a"; py "/b"];
                AppState.word_wrap := true;
                AppState.font_family := py "Segoe UI";
                AppState.font_size := 12 |}).
  pose (mw' := MainWindow.with_recent
                 (MainWindow.added (py "/tmp/note.txt") [py "/a"; py "/b"])
                 two_recent).
  pose (saved := dumps_at 0 (PDict (MainWindow.state mw'))).
  destruct (add_recent_persists (H := host) (py "/tmp/note.txt") desk
              (fst (write SETTINGS_FILE saved desk)) r two_recent saved)
    as [E Hload]; [vm_compute; reflexivity .. |].
  do 2 eexists. split; [exact E |]. split; [reflexivity | exact Hload].
Defined.

Lemma open_recent_existing_witness :
  path_exists desk (py "/tmp/note.txt") = Ok true /\
  MainWindow.makes_tabs two_recent /\
  MainWindow._open_recent (py "/tmp/note.txt") (desk, two_recent)
  = ((desk, MainWindow.set_tabs
              [{| DocumentTab.path := Some (py "/tmp/note.txt");
                  DocumentTab.text := py "hello";
                  DocumentTab.modified := false |}] two_recent), Ok tt).
Proof.
  assert (Hm : MainWindow.makes_tabs two_recent) by reflexivity.
  split; [reflexivity |]. split; [exact Hm |].
  exact (proj1 (proj1 (open_recent_existing (H := host) (py "/tmp/note.txt")
                         desk two_recent eq_refl) Hm) (py "hello") eq_refl).
Defined.

Lemma rebuild_recent_menu_spec_witness :
  lookup (py "recent_files") (MainWindow.state two_recent)
  = Some (PList (map PStr [py "/a"; py "/b"])) /\
  exists menu,
    Chrome._rebuild_recent_menu (MainWindow.state two_recent)
      (Some [Chrome.Separator]) = (Some menu, Ok tt) /\
    forall text enabled triggered,
      In (Chrome.Action text enabled triggered) menu -> len text <= 64.
Proof.
  split; [reflexivity |].
  destruct (proj2 (rebuild_recent_menu_spec (MainWindow.state two_recent)
                     [py "/a"; py "/b"] [Chrome.Separator] eq_refl))
    as (menu & E & _ & _ & Hlen).
  exists menu. auto.
Defined.

Lemma save_tab_spec_witness :
  nth_error (MainWindow.tabs (Shell.main busy)) 0 = Some draft /\
  MainWindow.has_recent (Shell.main busy) [py "/a"; py "/b"] /\
  exists w2 mw2,
    Shell._save_tab 0 (py "/tmp/new.txt") (desk, Shell.main busy)
      = ((w2, mw2), Ok true) /\
    MainWindow.tabs mw2 = [Shell.saved (py "/tmp/new.txt") draft] /\
    MainWindow.has_recent mw2 [py "/tmp/new.txt"; py "/a"; py "/b"].
Proof.
  split; [reflexivity |]. split; [reflexivity |].
  destruct (proj2 (proj2 (save_tab_spec (H := host) 0 (py "/tmp/new.txt")
                            desk (Shell.main busy) draft
                            [py "/a"; py "/b"] eq_refl eq_refl))
              ltac:(discriminate) _ eq_refl)
    as (w2 & mw2 & E & Htabs & Hl).
  exists w2, mw2. auto.
Defined.

Lemma close_tab_spec_witness :
  MainWindow.has_recent (Shell.main busy) [py "/a"; py "/b"] /\
  Shell.close_tab 0 Shell.Cancel [] (desk, busy) = ((desk, busy), Ok tt) /\
  exists w' sh',
    Shell.close_tab 0 Shell.No [] (desk, busy) = ((w', sh'), Ok tt) /\
    MainWindow.tabs (Shell.main sh') = [] /\ Shell.stack sh' = 0.
Proof.
  assert (Hl : MainWindow.has_recent (Shell.main busy) [py "/a"; py "/b"])
    by reflexivity.
  split; [exact Hl |]. split.
  - destruct (proj2 (close_tab_spec (H := host) 0 Shell.Cancel [] desk busy
                       _ Hl) draft ltac:(lia) eq_refl)
      as (w' & sh' & E & _ & Hsame & _).
    refine (eq_trans E _). f_equal. apply Hsame; [reflexivity | now left].
  - destruct (proj2 (close_tab_spec (H := host) 0 Shell.No [] desk busy
                       _ Hl) draft ltac:(lia) eq_refl)
      as (w' & sh' & E & Hgone & _).
    exists w', sh'. split; [exact E |].
    destruct (Hgone ltac:(right; now left)) as [Ht Hs].
    split; [exact Ht |]. rewrite Hs, Ht. reflexivity.
Defined.

Lemma open_file_spec_witness :
  MainWindow.has_recent (Shell.main busy) [py "/a"; py "/b"] /\
  MainWindow.makes_tabs (Shell.main busy) /\
  exists w' mw',
    Shell.open_file (py "/tmp/note.txt") (desk, busy)
      = ((w', {| Shell.main := mw'; Shell.stack := 1 |}), Ok tt) /\
    MainWindow.tabs mw'
      = [draft; {| DocumentTab.path := Some (py "/tmp/note.txt");
                   DocumentTab.text := py "hello";
                   DocumentTab.modified := false |}] /\
    MainWindow.has_recent mw' [py "/tmp/note.txt"; py "/a"; py "/b"].
Proof.
  assert (Hl : MainWindow.has_recent (Shell.main busy) [py "/a"; py "/b"])
    by reflexivity.
  assert (Hm : MainWindow.makes_tabs (Shell.main busy)) by reflexivity.
  split; [exact Hl |]. split; [exact Hm |].
  exact (proj1 (proj1 (proj2 (proj2 (open_file_spec (H := host)
                                       (py "/tmp/note.txt") desk busy _ Hl))
                         ltac:(discriminate) eq_refl) Hm)
           (py "hello") eq_refl).
Defined.

Lemma save_current_spec_witness :
  MainWindow.has_recent (Shell.main busy) [py "/a"; py "/b"] /\
  exists w2 mw2,
    Shell.save_current_as (Some 0%nat) (py "/tmp/new.txt")
      (desk, Shell.main busy) = ((w2, mw2), Ok tt) /\
    MainWindow.tabs mw2 = [Shell.saved (py "/tmp/new.txt") draft] /\
    MainWindow.has_recent mw2 [py "/tmp/new.txt"; py "/a"; py "/b"].
Proof.
  assert (Hl : MainWindow.has_recent (Shell.main busy) [py "/a"; py "/b"])
    by reflexivity.
  split; [exact Hl |].
  destruct (proj2 (proj2 (proj2 (proj1 (save_current_spec (H := host)
                                          (Some 0%nat) (py "/tmp/new.txt")
                                          desk (Shell.main busy) _ Hl)
                                   0%nat draft eq_refl eq_refl)))
              ltac:(discriminate) _ eq_refl)
    as (w2 & mw2 & E & Htabs & Hl').
  exists w2, mw2. auto.
Defined.


(** A settings file with a font size that is no number: the window
    starts, and New File brings up the tabs page and then fails in
    [QFont], so that the page shows without a tab. *)
Example new_file_with_a_font_size_that_is_no_number :
  exists sh,
    Shell.init big_font = Ok sh /\
    Shell.handle Shell.New_file (big_font, sh)
    = ((big_font, Shell.set_stack 1 sh), Raise TypeError) /\
    MainWindow.tabs (Shell.main (Shell.set_stack 1 sh)) = [].
Proof.
  eexists. split; [vm_compute; reflexivity |]. split; reflexivity.
Qed.

End MoreAtReferenceHost.
